(** * A voice-turn pipeline for telephone calls: session.py, utils.py, main.py

    The development embeds the three Python modules of the repository:
    - [utils.py]: frame decoding, the audio buffer, the PCM-to-WAV step, the
      voice-activity test and the wrappers of the transcription, synthesis
      and playback services;
    - [session.py]: the [Session] class with [on_message], [_process_turn]
      and [on_disconnect], and the [SessionManager] registry;
    - [main.py]: the websocket handler [media_ws].

    Python code that raises is embedded in an exception monad; code that also
    mutates the session or talks to the outside world runs in a state and
    exception monad over the session object and a record of the world (files
    on disk, the calls made to external services, what was printed).  The
    answers of the outside world come from an [Env] of oracles. *)

From Stdlib Require Import ZArith String Ascii Strings.Byte List Bool Lia.
From Stdlib Require Import PrimFloat FloatOps SpecFloat Uint63.
From stdpp Require Import base option list gmap strings pretty.
Import ListNotations.

Local Open Scope string_scope.
Local Open Scope Z_scope.
Set Warnings "-register-all,-abstract-large-number".

(* ===================================================================== *)
(** * Python values, exceptions and the exception monad *)
(* ===================================================================== *)

(** [repr(s)] for a string of code points below 256: single quotes, unless
    the string holds a single quote and no double quote; the quote in use
    and the backslash are escaped; TAB, LF and CR are written with their
    letter, and the other characters that are not printable (C0, DEL, C1,
    the no-break space and the soft hyphen) as two hexadecimal digits. *)
Definition single_quote : ascii := ascii_of_nat 39.
Definition double_quote : ascii := ascii_of_nat 34.
Definition backslash : ascii := ascii_of_nat 92.

Definition hex_digit (n : N) : ascii :=
  ascii_of_N (if (n <? 10)%N then 48 + n else 87 + n).

Definition is_printable (c : ascii) : bool :=
  let n := N_of_ascii c in
  (((32 <=? n) && (n <? 127)) || ((161 <=? n) && negb (n =? 173)))%N.

Fixpoint holds_char (c : ascii) (s : string) : bool :=
  match s with
  | EmptyString => false
  | String a s' => Ascii.eqb a c || holds_char c s'
  end.

Definition repr_char (quote c : ascii) : string :=
  let n := N_of_ascii c in
  if Ascii.eqb c quote || Ascii.eqb c backslash
  then String backslash (String c EmptyString)
  else if (n =? 9)%N then String backslash "t"
  else if (n =? 10)%N then String backslash "n"
  else if (n =? 13)%N then String backslash "r"
  else if is_printable c then String c EmptyString
  else String backslash
         (String "x" (String (hex_digit (n / 16)) (String (hex_digit (n mod 16))
                                                     EmptyString))).

Fixpoint repr_body (quote : ascii) (s : string) : string :=
  match s with
  | EmptyString => EmptyString
  | String c s' => repr_char quote c ++ repr_body quote s'
  end.

Definition py_repr (s : string) : string :=
  let quote :=
    if holds_char single_quote s && negb (holds_char double_quote s)
    then double_quote else single_quote in
  String quote (repr_body quote s ++ String quote EmptyString).

(** The exceptions the three modules can meet.  [Exception_ msg] is a bare
    [raise Exception(msg)] of the source.  [binascii_Error] and
    [ValueError] carry their message, [KeyError] the text [str(e)] gives
    (the [repr] of the missing key), and [FileNotFoundError] the name of the
    missing file. *)
Inductive exn : Type :=
  | binascii_Error (msg : string)
  | ValueError (msg : string)
  | OverflowError
  | JSONDecodeError
  | KeyError (shown : string)
  | TypeError
  | IndexError
  | AttributeError
  | OSError
  | FileNotFoundError (filename : string)
  | RequestException
  | TwilioRestException
  | VadError
  | WebSocketDisconnect
  | Exception_ (msg : string).

Inductive res (A : Type) : Type :=
  | Ok (a : A)
  | Raise (e : exn).
Arguments Ok {A} a.
Arguments Raise {A} e.

#[global] Instance res_ret : MRet res := fun _ a => Ok a.
#[global] Instance res_bind : MBind res := fun _ _ f r =>
  match r with
  | Ok a => f a
  | Raise e => Raise e
  end.

(** [try: body except Exception: handler] on pure code. *)
Definition try_res {A} (body : res A) (handler : exn -> res A) : res A :=
  match body with
  | Ok a => Ok a
  | Raise e => handler e
  end.

(** JSON documents as Python sees them after [json.loads]. *)
Inductive json : Type :=
  | JNull
  | JBool (b : bool)
  | JNum (z : Z)
  | JStr (s : string)
  | JArr (items : list json)
  | JObj (fields : list (string * json)).

Fixpoint assoc (k : string) (fields : list (string * json)) : option json :=
  match fields with
  | [] => None
  | (k', v) :: rest => if String.eqb k k' then Some v else assoc k rest
  end.

(** [d.get(k, default)]: only dictionaries have [get]. *)
Definition py_get (d : json) (k : string) (default : json) : res json :=
  match d with
  | JObj fields => Ok (match assoc k fields with Some v => v | None => default end)
  | _ => Raise AttributeError
  end.

(** [d[k]] for a string key. *)
Definition py_getitem (d : json) (k : string) : res json :=
  match d with
  | JObj fields =>
      match assoc k fields with
      | Some v => Ok v
      | None => Raise (KeyError (py_repr k))
      end
  | JArr _ | JStr _ => Raise TypeError
  | _ => Raise TypeError
  end.

(** [x[0]]. *)
Definition py_first (x : json) : res json :=
  match x with
  | JArr (v :: _) => Ok v
  | JArr [] => Raise IndexError
  | JStr (String c _) => Ok (JStr (String c EmptyString))
  | JStr EmptyString => Raise IndexError
  | JObj _ => Raise (KeyError "0")
  | _ => Raise TypeError
  end.

(** Truth value of a Python object, as [if delta:] takes it. *)
Definition truthy (v : json) : bool :=
  match v with
  | JNull => false
  | JBool b => b
  | JNum z => negb (z =? 0)
  | JStr s => negb (String.eqb s "")
  | JArr l => match l with [] => false | _ => true end
  | JObj l => match l with [] => false | _ => true end
  end.

(* ===================================================================== *)
(** * Python strings *)
(* ===================================================================== *)

(** Characters are code points below 256.  [str.isspace] holds there for
    TAB..CR, FS..US, the space, NEL (0x85) and the no-break space (0xA0). *)
Definition is_space (c : ascii) : bool :=
  let n := N_of_ascii c in
  (((9 <=? n) && (n <=? 13)) || ((28 <=? n) && (n <=? 32))
   || (n =? 133) || (n =? 160))%N.

Fixpoint lstrip (s : string) : string :=
  match s with
  | EmptyString => EmptyString
  | String c s' => if is_space c then lstrip s' else s
  end.

Fixpoint rstrip (s : string) : string :=
  match s with
  | EmptyString => EmptyString
  | String c s' =>
      match rstrip s' with
      | EmptyString => if is_space c then EmptyString else String c EmptyString
      | r => String c r
      end
  end.

(** [s.strip()] *)
Definition strip (s : string) : string := rstrip (lstrip s).

(** [s.split()]: the maximal runs of non-space characters; [cur] is the run
    being read. *)
Fixpoint split_from (cur : string) (s : string) : list string :=
  match s with
  | EmptyString => if String.eqb cur "" then [] else [cur]
  | String c s' =>
      if is_space c
      then (if String.eqb cur "" then split_from "" s'
            else cur :: split_from "" s')
      else split_from (cur ++ String c EmptyString) s'
  end.

Definition split (s : string) : list string := split_from "" s.

(** [s.startswith(p)] *)
Fixpoint startswith (p s : string) : bool :=
  match p, s with
  | EmptyString, _ => true
  | String a p', String b s' => Ascii.eqb a b && startswith p' s'
  | String _ _, EmptyString => false
  end.

(** [s[n:]] and [s[:n]] *)
Fixpoint str_drop (n : nat) (s : string) : string :=
  match n, s with
  | O, _ => s
  | S n', String _ s' => str_drop n' s'
  | S _, EmptyString => EmptyString
  end.

Fixpoint str_take (n : nat) (s : string) : string :=
  match n, s with
  | O, _ => EmptyString
  | S n', String c s' => String c (str_take n' s')
  | S _, EmptyString => EmptyString
  end.

(* ===================================================================== *)
(** * Floating-point constants of the source *)
(* ===================================================================== *)

(** The source computes its two byte counts in binary64.  They are
    evaluated here with the kernel's binary64 operations. *)

(** An integer operand of a float operation; exact for [0 <= n < 2^53],
    which covers the constants of the source. *)
Definition float_of_int (n : Z) : float := PrimFloat.of_uint63 (Uint63.of_Z n).

(** [n >= f] for an integer [n] and a float [f]; Python compares the exact
    values. *)
Definition int_ge_float (n : Z) (f : float) : bool :=
  match Prim2SF f with
  | S754_zero _ => 0 <=? n
  | S754_infinity s => s
  | S754_nan => false
  | S754_finite s m e =>
      let mz := if s then Z.neg m else Z.pos m in
      if 0 <=? e then mz * 2 ^ e <=? n else mz <=? n * 2 ^ (- e)
  end.

(** [int(f)]: truncation towards zero; raises on infinities and NaN. *)
Definition py_int (f : float) : res Z :=
  match Prim2SF f with
  | S754_zero _ => Ok 0
  | S754_infinity _ => Raise OverflowError
  | S754_nan => Raise (ValueError "cannot convert float NaN to integer")
  | S754_finite s m e =>
      let mag := if 0 <=? e then Z.pos m * 2 ^ e else Z.pos m / 2 ^ (- e) in
      Ok (if s then - mag else mag)
  end.

(* ===================================================================== *)
(** * utils.py: pure helpers *)
(* ===================================================================== *)

Definition bytes := list byte.

(** [b[:k]] on a byte string. *)
Definition slice_to (k : Z) (b : bytes) : bytes :=
  if k <? 0 then take (Z.to_nat (Z.of_nat (length b) + k)) b
  else take (Z.to_nat k) b.

Module Vad.

(** [webrtcvad.Vad(2).is_speech(frame, sample_rate)]: an external
    classifier, which raises on a frame it does not support. *)
Definition classifier := bytes -> Z -> res bool.

Definition default_sample_rate : Z := 8000.
Definition default_frame_ms : Z := 30.

(** [sample_rate * (frame_ms / 1000.0) * 2] *)
Definition frame_bytes_float (sample_rate frame_ms : Z) : float :=
  (float_of_int sample_rate * (float_of_int frame_ms / 1000)
   * float_of_int 2)%float.

(** [is_speech_present(pcm_bytes, sample_rate=8000, frame_ms=30)] *)
Definition is_speech_present_at (vad : classifier) (pcm_bytes : bytes)
    (sample_rate frame_ms : Z) : res bool :=
  try_res
    (frame_bytes ← py_int (frame_bytes_float sample_rate frame_ms);
     if Z.of_nat (length pcm_bytes) <? frame_bytes then Ok false
     else vad (slice_to frame_bytes pcm_bytes) sample_rate)
    (fun _ => Ok false).

Definition is_speech_present (vad : classifier) (pcm_bytes : bytes) : res bool :=
  is_speech_present_at vad pcm_bytes default_sample_rate default_frame_ms.

End Vad.

(* ===================================================================== *)
(** * utils.py: decode_twilio_media_frame and append_pcm_to_buffer *)
(* ===================================================================== *)

Module Base64.

(** The value of a character of the base64 alphabet. *)
Definition sextet (c : ascii) : option Z :=
  let n := Z.of_N (N_of_ascii c) in
  if (65 <=? n) && (n <=? 90) then Some (n - 65)
  else if (97 <=? n) && (n <=? 122) then Some (n - 71)
  else if (48 <=? n) && (n <=? 57) then Some (n + 4)
  else if n =? 43 then Some 62
  else if n =? 47 then Some 63
  else None.

Definition byte_of_Z (z : Z) : byte :=
  match Byte.of_N (Z.to_N (z mod 256)) with
  | Some b => b
  | None => x00
  end.

(** The decoding loop of [binascii.a2b_base64] without strict mode, the way
    [base64.b64decode(s)] calls it: characters outside the alphabet are
    skipped, [quad_pos] counts the sextets of the current group, [leftchar]
    holds the bits not yet written, [pads] the padding characters seen. *)
Fixpoint a2b_loop (s : string) (quad_pos leftchar pads : Z) (out : bytes)
  : res bytes :=
  match s with
  | EmptyString =>
      if quad_pos =? 0 then Ok out
      else if quad_pos =? 1 then
        Raise (binascii_Error
                 ("Invalid base64-encoded string: number of data characters ("
                  ++ pretty (Z.of_nat (length out) / 3 * 4 + 1)
                  ++ ") cannot be 1 more than a multiple of 4"))
      else Raise (binascii_Error "Incorrect padding")
  | String c s' =>
      if Ascii.eqb c "="%char then
        if (2 <=? quad_pos) && (4 <=? quad_pos + (pads + 1)) then Ok out
        else a2b_loop s' quad_pos leftchar
               (if 2 <=? quad_pos then pads + 1 else pads) out
      else
        match sextet c with
        | None => a2b_loop s' quad_pos leftchar pads out
        | Some v =>
            if quad_pos =? 0 then a2b_loop s' 1 v 0 out
            else if quad_pos =? 1 then
              a2b_loop s' 2 (Z.land v 15) 0
                (out ++ [byte_of_Z (Z.lor (Z.shiftl leftchar 2) (Z.shiftr v 4))])%list
            else if quad_pos =? 2 then
              a2b_loop s' 3 (Z.land v 3) 0
                (out ++ [byte_of_Z (Z.lor (Z.shiftl leftchar 4) (Z.shiftr v 2))])%list
            else
              a2b_loop s' 0 0 0
                (out ++ [byte_of_Z (Z.lor (Z.shiftl leftchar 6) v)])%list
        end
  end.

Fixpoint all_ascii (s : string) : bool :=
  match s with
  | EmptyString => true
  | String c s' => (N_of_ascii c <? 128)%N && all_ascii s'
  end.

(** [base64.b64decode(s)] for a [str] argument. *)
Definition b64decode (s : string) : res bytes :=
  if all_ascii s then a2b_loop s 0 0 0 []
  else Raise (ValueError "string argument should contain only ASCII characters").

End Base64.

(** [decode_twilio_media_frame(payload_b64)] *)
Definition decode_twilio_media_frame (payload_b64 : string) : res bytes :=
  Base64.b64decode payload_b64.

(** [append_pcm_to_buffer(buffer, pcm)]: [buffer.extend(pcm)], on the
    buffer given as a value. *)
Definition append_pcm_to_buffer (buffer pcm : bytes) : bytes :=
  (buffer ++ pcm)%list.

(* ===================================================================== *)
(** * The session object, the outside world and its oracles *)
(* ===================================================================== *)

Inductive role : Type := user | assistant.

(** One entry [{"role": ..., "content": ...}] of the history. *)
Record message : Type := Message { msg_role : role; msg_content : string }.

(** The attributes [Session.__init__] sets.  The lock is part of the
    concurrent model further down; [vad_queue] and [_silence_timer] are set
    once and never read. *)
Record Session : Type := {
  call_sid : string;
  ws : nat;
  buffer : bytes;
  last_voice_ts : option Z;
  processing : bool;
  conversation_history : list message;
}.

(** [Session(call_sid, websocket)] *)
Definition new_session (sid : string) (websocket : nat) : Session :=
  {| call_sid := sid; ws := websocket; buffer := []; last_voice_ts := None;
     processing := false; conversation_history := [] |}.

(** What the program does to the outside world, in order. *)
Inductive event : Type :=
  | EvPrint (line : string)
  | EvFfmpeg (raw_path wav_path : string)
  | EvTranscribe (wav_path : string)
  | EvGenerate (messages : list message)
  | EvSynthesize (text : string)
  | EvPlay (sid twiml : string)
  | EvCreateTask.

Record World : Type := {
  files : gset string;   (* the paths that exist on disk *)
  trace : list event;    (* external calls made so far, oldest first *)
  clock : nat;           (* how many times the outside world was consulted *)
  pending : nat;         (* tasks created with create_task and not yet run *)
}.

Record St : Type := { sess : Session; world : World }.

(** An HTTP response as the code reads it: [status_code], [text],
    [iter_lines()] and whether the stream breaks after the last line. *)
Record Response : Type := {
  status_code : Z;
  text : string;
  lines : list string;
  stream_error : option exn;
}.

Inductive http_result : Type :=
  | HttpError (e : exn)        (* [requests.post] raised *)
  | HttpResponse (r : Response).

Inductive write_result : Type :=
  | WriteDone                  (* file created and written *)
  | OpenFailed                 (* [open] raised, no file *)
  | WriteFailed.               (* file created, [write] raised *)

Inductive ffmpeg_result : Type :=
  | FfmpegMissing              (* [subprocess.run] raised: no executable *)
  | FfmpegExit (wrote_wav : bool).

(** The outside world.  Every answer may depend on [clock], the number of
    consultations made before it. *)
Record Env : Type := {
  env_uuid4 : nat -> string;
  env_write : nat -> string -> write_result;
  env_ffmpeg : nat -> ffmpeg_result;
  env_whisper : nat -> http_result;
  env_llm : nat -> list message -> http_result;
  env_tts : nat -> string -> http_result;
  env_twilio : nat -> string -> string -> option exn;
  env_vad : Vad.classifier;
  env_time : nat -> Z;
  env_json_loads : string -> res json;
  env_public_host : option string;     (* [os.getenv('PUBLIC_HOST')] *)
  env_yield : nat -> bool;   (* does this [receive_text] let created tasks run *)
}.

(** ** The state and exception monad *)

Definition M (A : Type) : Type := St -> res A * St.

#[global] Instance M_ret : MRet M := fun _ a st => (Ok a, st).
#[global] Instance M_bind : MBind M := fun _ _ f m st =>
  match m st with
  | (Ok a, st') => f a st'
  | (Raise e, st') => (Raise e, st')
  end.

Definition raise {A} (e : exn) : M A := fun st => (Raise e, st).

Definition lift {A} (r : res A) : M A := fun st => (r, st).

(** [try: body except Exception as e: handler e].  What the body did
    before raising stays done. *)
Definition try_ {A} (body : M A) (handler : exn -> M A) : M A := fun st =>
  match body st with
  | (Ok a, st') => (Ok a, st')
  | (Raise e, st') => handler e st'
  end.

Definition get_sess : M Session := fun st => (Ok (sess st), st).
Definition get_world : M World := fun st => (Ok (world st), st).

Definition put_sess (s : Session) : M unit := fun st =>
  (Ok tt, {| sess := s; world := world st |}).
Definition put_world (w : World) : M unit := fun st =>
  (Ok tt, {| sess := sess st; world := w |}).

Definition set_buffer (b : bytes) : M unit :=
  s ← get_sess;
  put_sess {| call_sid := call_sid s; ws := ws s; buffer := b;
              last_voice_ts := last_voice_ts s; processing := processing s;
              conversation_history := conversation_history s |}.

Definition set_last_voice_ts (t : Z) : M unit :=
  s ← get_sess;
  put_sess {| call_sid := call_sid s; ws := ws s; buffer := buffer s;
              last_voice_ts := Some t; processing := processing s;
              conversation_history := conversation_history s |}.

Definition set_processing (b : bool) : M unit :=
  s ← get_sess;
  put_sess {| call_sid := call_sid s; ws := ws s; buffer := buffer s;
              last_voice_ts := last_voice_ts s; processing := b;
              conversation_history := conversation_history s |}.

(** [self.conversation_history.append(m)] *)
Definition history_append (m : message) : M unit :=
  s ← get_sess;
  put_sess {| call_sid := call_sid s; ws := ws s; buffer := buffer s;
              last_voice_ts := last_voice_ts s; processing := processing s;
              conversation_history := (conversation_history s ++ [m])%list |}.

Definition emit (e : event) : M unit :=
  w ← get_world;
  put_world {| files := files w; trace := (trace w ++ [e])%list;
               clock := clock w; pending := pending w |}.

(** Consult the outside world: the current [clock], which then advances. *)
Definition tick : M nat :=
  w ← get_world;
  put_world {| files := files w; trace := trace w;
               clock := S (clock w); pending := pending w |};;
  mret (clock w).

Definition set_files (fs : gset string) : M unit :=
  w ← get_world;
  put_world {| files := fs; trace := trace w;
               clock := clock w; pending := pending w |}.

Definition set_pending (n : nat) : M unit :=
  w ← get_world;
  put_world {| files := files w; trace := trace w;
               clock := clock w; pending := n |}.

Definition print (line : string) : M unit := emit (EvPrint line).

(** [str(e)].  [Exception], [binascii.Error] and [ValueError] show their
    message, [KeyError] the [repr] of the key, and [FileNotFoundError] the
    text of errno 2 followed by the [repr] of the file name.  Of the other
    classes the model keeps the class only and shows its name, where Python
    shows a text that depends on the library or on the system. *)
Definition exn_str (e : exn) : string :=
  match e with
  | Exception_ msg => msg
  | binascii_Error msg => msg
  | ValueError msg => msg
  | OverflowError => "OverflowError"
  | JSONDecodeError => "JSONDecodeError"
  | KeyError shown => shown
  | TypeError => "TypeError"
  | IndexError => "IndexError"
  | AttributeError => "AttributeError"
  | OSError => "OSError"
  | FileNotFoundError filename =>
      "[Errno 2] No such file or directory: " ++ py_repr filename
  | RequestException => "RequestException"
  | TwilioRestException => "TwilioRestException"
  | VadError => "VadError"
  | WebSocketDisconnect => "WebSocketDisconnect"
  end.

(* ===================================================================== *)
(** * utils.py: the functions that touch disk and network *)
(* ===================================================================== *)

Section Program.

Context (env : Env).

Definition uuid4 : M string :=
  n ← tick; mret (env_uuid4 env n).

(** [with open(path, "wb") as f: f.write(...)] *)
Definition write_file (path : string) : M unit :=
  n ← tick;
  w ← get_world;
  match env_write env n path with
  | WriteDone => set_files ({[path]} ∪ files w)
  | OpenFailed => raise OSError
  | WriteFailed => set_files ({[path]} ∪ files w);; raise OSError
  end.

(** [open(path, "rb")] *)
Definition open_rb (path : string) : M unit :=
  w ← get_world;
  if decide (path ∈ files w) then mret tt else raise (FileNotFoundError path).

(** [os.remove(path)] *)
Definition os_remove (path : string) : M unit :=
  w ← get_world;
  if decide (path ∈ files w) then set_files (files w ∖ {[path]})
  else raise (FileNotFoundError path).

(** [subprocess.run(cmd, ...)] for the ffmpeg command line.  The exit
    status is not looked at; a missing executable raises. *)
Definition run_ffmpeg (raw_path wav_path : string) : M unit :=
  n ← tick;
  match env_ffmpeg env n with
  | FfmpegMissing => raise (FileNotFoundError "ffmpeg")
  | FfmpegExit wrote =>
      emit (EvFfmpeg raw_path wav_path);;
      w ← get_world;
      if wrote then set_files ({[wav_path]} ∪ files w) else mret tt
  end.

(** [save_raw_pcm_to_wav(raw_buffer)] *)
Definition save_raw_pcm_to_wav (raw_buffer : bytes) : M string :=
  u1 ← uuid4;
  let raw_path := "tmp_" ++ u1 ++ ".raw" in
  u2 ← uuid4;
  let wav_path := "tmp_" ++ u2 ++ ".wav" in
  write_file raw_path;;
  run_ffmpeg raw_path wav_path;;
  os_remove raw_path;;
  mret wav_path.

Definition expect_response (h : http_result) : M Response :=
  match h with
  | HttpError e => raise e
  | HttpResponse r => mret r
  end.

Definition status_line (what : string) (r : Response) : string :=
  what ++ pretty (status_code r) ++ " " ++ text r.

(** [transcribe_wav(wav_path)] *)
Definition transcribe_wav (wav_path : string) : M json :=
  open_rb wav_path;;
  n ← tick;
  emit (EvTranscribe wav_path);;
  r ← expect_response (env_whisper env n);
  if negb (status_code r =? 200)
  then raise (Exception_ (status_line "Transcription failed: " r))
  else
    j ← lift (env_json_loads env (text r));
    try_ (os_remove wav_path) (fun _ => mret tt);;
    lift (py_get j "text" (JStr "")).

(** [synthesize_tts(text)] *)
Definition synthesize_tts (txt : string) : M string :=
  n ← tick;
  emit (EvSynthesize txt);;
  r ← expect_response (env_tts env n txt);
  if negb (status_code r =? 200)
  then raise (Exception_ (status_line "TTS failed: " r))
  else
    u ← uuid4;
    let filename := u ++ ".mp3" in
    write_file ("static/audio/" ++ filename);;
    mret filename.

(** [twilio_redirect_play(call_sid, audio_url)] *)
Definition twilio_redirect_play (sid audio_url : string) : M unit :=
  let twiml := "<Response><Play>" ++ audio_url ++ "</Play></Response>" in
  n ← tick;
  emit (EvPlay sid twiml);;
  match env_twilio env n sid twiml with
  | Some e => raise e
  | None => mret tt
  end.

(** [f"{os.getenv('PUBLIC_HOST')}/audio/{filename}"] *)
Definition audio_url_of (filename : string) : string :=
  match env_public_host env with
  | Some h => h
  | None => "None"
  end ++ "/audio/" ++ filename.

(* ===================================================================== *)
(** * session.py *)
(* ===================================================================== *)

Definition CHUNK_MS : Z := 800.

(** [16000 * 2 * (CHUNK_MS / 1000.0)], the size that triggers a turn. *)
Definition chunk_threshold : float :=
  (float_of_int (16000 * 2) * (float_of_int CHUNK_MS / 1000))%float.

(** [min_words_per_chunk = 5], a local constant of [_process_turn]. *)
Definition min_words_per_chunk : Z := 5.

Definition apology : string :=
  "Lo siento, ha ocurrido un error procesando tu petici"
  ++ String (ascii_of_nat 243) "n.".

(** [response_text += delta] *)
Definition py_concat (s : string) (delta : json) : res string :=
  match delta with
  | JStr d => Ok (s ++ d)
  | _ => Raise TypeError
  end.

(** [data_json.get("choices")[0].get("delta", {}).get("content", "")] *)
Definition delta_of (data_json : json) : res json :=
  choices ← py_get data_json "choices" JNull;
  first ← py_first choices;
  delta ← py_get first "delta" (JObj []);
  py_get delta "content" (JStr "").

(** Synthesis of one chunk followed by its playback. *)
Definition synthesize_and_play (sid partial_text : string) : M unit :=
  filename ← synthesize_tts partial_text;
  twilio_redirect_play sid (audio_url_of filename).

(** The loop [for line in r.iter_lines(decode_unicode=True)] with its two
    accumulators; it returns them when the stream ends or at [DONE]. *)
Fixpoint stream_loop (sid : string) (min_words : Z) (broken : option exn)
    (ls : list string) (response_text partial_text : string)
  : M (string * string) :=
  match ls with
  | [] =>
      match broken with
      | Some e => raise e
      | None => mret (response_text, partial_text)
      end
  | line :: rest =>
      if startswith "data: " line then
        let data_str := strip (str_drop 6 line) in
        if String.eqb data_str "[DONE]" then mret (response_text, partial_text)
        else if negb (String.eqb data_str "") then
          data_json ← lift (env_json_loads env data_str);
          delta ← lift (delta_of data_json);
          if truthy delta then
            response_text' ← lift (py_concat response_text delta);
            partial_text' ← lift (py_concat partial_text delta);
            if min_words <=? Z.of_nat (length (split partial_text')) then
              try_ (synthesize_and_play sid partial_text')
                   (fun e => print ("Partial TTS/play error: " ++ exn_str e));;
              stream_loop sid min_words broken rest response_text' ""
            else stream_loop sid min_words broken rest response_text' partial_text'
          else stream_loop sid min_words broken rest response_text partial_text
        else stream_loop sid min_words broken rest response_text partial_text
      else stream_loop sid min_words broken rest response_text partial_text
  end.

(** The body of the second [try] of [_process_turn]: the streaming request,
    the loop, the last chunk and the assistant entry. *)
Definition generate_reply (min_words : Z) : M string :=
  s ← get_sess;
  n ← tick;
  emit (EvGenerate (conversation_history s));;
  r ← expect_response (env_llm env n (conversation_history s));
  if negb (status_code r =? 200)
  then raise (Exception_ (status_line "LLM streaming failed: " r))
  else
    acc ← stream_loop (call_sid s) min_words (stream_error r) (lines r) "" "";
    let response_text := fst acc in
    let partial_text := snd acc in
    (if negb (String.eqb (strip partial_text) "")
     then try_ (synthesize_and_play (call_sid s) partial_text)
               (fun e => print ("Final TTS/play error: " ++ exn_str e))
     else mret tt);;
    history_append (Message assistant response_text);;
    mret response_text.

(** The block under [async with self.lock] in [_process_turn], with the
    word threshold as a parameter. *)
Definition process_turn_body (min_words : Z) : M unit :=
  set_processing true;;
  s ← get_sess;
  if (length (buffer s) =? 0)%nat then set_processing false
  else
    wav_path ← save_raw_pcm_to_wav (buffer s);
    set_buffer [];;
    transcript ← try_ (transcribe_wav wav_path)
                   (fun e => print ("Transcription error: " ++ exn_str e);;
                             mret (JStr ""));
    match transcript with
    | JStr txt =>
        if String.eqb (strip txt) "" then set_processing false
        else
          print ("[" ++ call_sid s ++ "] Transcribed: " ++ txt);;
          history_append (Message user txt);;
          response_text ← try_ (generate_reply min_words)
                            (fun e => print ("LLM streaming error: " ++ exn_str e);;
                                      mret apology);
          print ("[" ++ call_sid s ++ "] LLM: " ++ str_take 120 response_text);;
          set_processing false
    | _ => raise AttributeError        (* [text.strip()] on a non-string *)
    end.

(** [Session._process_turn] when the lock is free, which is the case
    whenever a task gets to run: the body has no suspension point. *)
Definition _process_turn : M unit := process_turn_body min_words_per_chunk.

(** [asyncio.create_task(self._process_turn())] *)
Definition create_task : M unit :=
  emit EvCreateTask;;
  w ← get_world;
  set_pending (S (pending w)).

Definition json_is (v : json) (s : string) : bool :=
  match v with
  | JStr s' => String.eqb s' s
  | _ => false
  end.

(** [decode_twilio_media_frame] on what the message carries. *)
Definition decode_payload (payload_b64 : json) : res bytes :=
  match payload_b64 with
  | JStr p => decode_twilio_media_frame p
  | _ => Raise TypeError
  end.

(** [Session.on_message(raw_text)] *)
Definition on_message (raw_text : string) : M unit :=
  msg ← lift (env_json_loads env raw_text);
  ev ← lift (py_get msg "event" JNull);
  if json_is ev "media" then
    media ← lift (py_getitem msg "media");
    payload_b64 ← lift (py_getitem media "payload");
    pcm ← lift (decode_payload payload_b64);
    s ← get_sess;
    set_buffer (append_pcm_to_buffer (buffer s) pcm);;
    speech ← lift (Vad.is_speech_present (env_vad env) pcm);
    (if speech : bool then n ← tick; set_last_voice_ts (env_time env n)
     else mret tt);;
    s ← get_sess;
    if int_ge_float (Z.of_nat (length (buffer s))) chunk_threshold then
      if negb (processing s) then create_task else mret tt
    else mret tt
  else if json_is ev "stop" then _process_turn
  else mret tt.

(** [Session.on_disconnect()] *)
Definition on_disconnect : M unit :=
  _process_turn;;
  s ← get_sess;
  print ("Session " ++ call_sid s ++ " disconnected.").

(* ===================================================================== *)
(** * main.py: the websocket handler *)
(* ===================================================================== *)

(** The tasks made by [create_task] run when the handler is suspended.  A
    task runs [_process_turn] from start to end, and what it raises stays
    in the task. *)
Fixpoint run_tasks (n : nat) : M unit :=
  match n with
  | O => mret tt
  | S k => try_ _process_turn (fun _ => mret tt);; run_tasks k
  end.

Definition run_pending : M unit :=
  w ← get_world;
  set_pending 0;;
  run_tasks (pending w).

(** [await websocket.receive_text()]: the frames of the call come from
    [inbox]; when it is exhausted the peer has gone and
    [WebSocketDisconnect] is raised.  Whether the wait lets the event loop
    run the created tasks is up to the outside world. *)
Definition receive_text (inbox : list string) : M (string * list string) :=
  n ← tick;
  (if env_yield env n then run_pending else mret tt);;
  match inbox with
  | [] => raise WebSocketDisconnect
  | data :: rest => mret (data, rest)
  end.

(** [while True: data = await websocket.receive_text();
                 await session.on_message(data)] *)
Fixpoint receive_loop (inbox : list string) : M unit :=
  match inbox with
  | [] => x ← receive_text []; mret tt
  | data :: rest =>
      x ← receive_text (data :: rest);
      on_message data;;
      receive_loop rest
  end.

(** The [try] of [media_ws] with its two handlers. *)
Definition serve (inbox : list string) : M unit :=
  try_ (receive_loop inbox)
       (fun e =>
          match e with
          | WebSocketDisconnect => on_disconnect
          | _ => print ("WS error: " ++ exn_str e);; on_disconnect
          end).

(** [media_ws(websocket, call_sid)], from the session that
    [manager.create_session] has just built. *)
Definition media_ws (websocket : nat) (sid : string) (inbox : list string)
    (w : World) : res unit * St :=
  serve inbox {| sess := new_session sid websocket; world := w |}.

End Program.

(* ===================================================================== *)
(** * session.py: SessionManager *)
(* ===================================================================== *)

Module Registry.

(** Session objects live in the object store, and [manager.sessions] maps
    a call identifier to the address of one of them. *)
Definition addr := nat.

Record SessionManager : Type := {
  objects : gmap addr Session;
  sessions : gmap string addr;
}.

(** [SessionManager()] *)
Definition new_manager : SessionManager :=
  {| objects := ∅; sessions := ∅ |}.

(** [create_session(call_sid, websocket)]: there is no test on
    [self.sessions] and no [raise]; the function always returns. *)
Definition create_session (sid : string) (websocket : nat)
    (m : SessionManager) : SessionManager * addr :=
  let s := fresh (dom (objects m)) in
  ({| objects := <[s := new_session sid websocket]> (objects m);
      sessions := <[sid := s]> (sessions m) |}, s).

(** [get_session(call_sid)]: [self.sessions.get(call_sid)], [None] when
    absent. *)
Definition get_session (sid : string) (m : SessionManager) : option addr :=
  sessions m !! sid.

End Registry.

(* ===================================================================== *)
(** * Concrete worlds used by the examples *)
(* ===================================================================== *)

Module Studio.

(** A [json.loads] that knows the documents listed in [table]. *)
Definition table_loads (table : list (string * json)) (s : string) : res json :=
  match assoc s table with
  | Some j => Ok j
  | None => Raise JSONDecodeError
  end.

(** One chunk of the streamed completion carrying [d]. *)
Definition chunk (d : string) : json :=
  JObj [("choices", JArr [JObj [("delta", JObj [("content", JStr d)])]])].

(** A media message carrying [payload]. *)
Definition media_msg (payload : string) : json :=
  JObj [("event", JStr "media"); ("media", JObj [("payload", JStr payload)])].

Definition reply (status : Z) (body : string) (ls : list string) : http_result :=
  HttpResponse {| status_code := status; text := body; lines := ls;
                  stream_error := None |}.

(** 4000 zero bytes in base64: 1333 groups and a padded last group. *)
Fixpoint groups (n : nat) (tail : string) : string :=
  match n with
  | O => tail
  | S k => "AAAA" ++ groups k tail
  end.

Definition payload4000 : string := groups 1333 "AA==".

Definition documents : list (string * json) :=
  [ ("whisper-hello", JObj [("text", JStr "hello")]);
    ("whisper-blank", JObj [("text", JStr "   ")]);
    ("d1", chunk "Hi"); ("d2", chunk " there"); ("d3", chunk "!");
    ("frame-abc", media_msg "QUJD");
    ("frame-bad", media_msg "QUI");
    ("frame-4000", media_msg payload4000);
    ("stop", JObj [("event", JStr "stop")]) ].

(** A world in which the disk and ffmpeg answer as given, the three
    services answer as given, the classifier hears nothing, Twilio accepts
    every update and every wait lets the created tasks run. *)
Definition world_of (disk : write_result) (ffmpeg : ffmpeg_result)
    (whisper llm tts : http_result) : Env :=
  {| env_uuid4 := fun n => "u" ++ pretty n;
     env_write := fun _ _ => disk;
     env_ffmpeg := fun _ => ffmpeg;
     env_whisper := fun _ => whisper;
     env_llm := fun _ _ => llm;
     env_tts := fun _ _ => tts;
     env_twilio := fun _ _ _ => None;
     env_vad := fun _ _ => Ok false;
     env_time := fun n => Z.of_nat n;
     env_json_loads := table_loads documents;
     env_public_host := Some "https://voice.example";
     env_yield := fun _ => true |}.

Definition whisper_hello : http_result := reply 200 "whisper-hello" [].
Definition tts_ok : http_result := reply 200 "" [].
Definition llm_hi_there : http_result :=
  reply 200 "" ["data: d1"; ""; "data: d2"; "data: d3"; "data: [DONE]"].

(** Everything works; the reply is streamed as "Hi", " there", "!". *)
Definition calm : Env :=
  world_of WriteDone (FfmpegExit true) whisper_hello llm_hi_there tts_ok.

(** The disk refuses the temporary raw file. *)
Definition disk_full : Env :=
  world_of OpenFailed (FfmpegExit true) whisper_hello llm_hi_there tts_ok.

(** The transcription service answers 500. *)
Definition whisper_down : Env :=
  world_of WriteDone (FfmpegExit true) (reply 500 "overloaded" [])
           llm_hi_there tts_ok.

(** The generation service answers 503. *)
Definition llm_down : Env :=
  world_of WriteDone (FfmpegExit true) whisper_hello
           (reply 503 "unavailable" []) tts_ok.

Definition empty_world : World :=
  {| files := ∅; trace := []; clock := 0; pending := 0 |}.

(** A session of call "CA1" that has buffered the given audio. *)
Definition session_with (audio : bytes) : St :=
  {| sess := {| call_sid := "CA1"; ws := 0; buffer := audio;
                last_voice_ts := None; processing := false;
                conversation_history := [] |};
     world := empty_world |}.

End Studio.

(* ===================================================================== *)
(** * Observations on a run *)
(* ===================================================================== *)

(** The calls to the generation, synthesis and playback services. *)
Definition is_reply_event (e : event) : bool :=
  match e with
  | EvGenerate _ | EvSynthesize _ | EvPlay _ _ => true
  | _ => false
  end.

Definition reply_events (t : list event) : list event :=
  List.filter is_reply_event t.

(** The texts handed to the synthesis service, in order. *)
Fixpoint synth_texts (t : list event) : list string :=
  match t with
  | [] => []
  | EvSynthesize txt :: t' => txt :: synth_texts t'
  | _ :: t' => synth_texts t'
  end.

(** The state right after [self.processing = True] and right after
    [self.buffer = bytearray()]. *)
Definition turn_started (st : St) : St := snd (set_processing true st).
Definition buffer_cleared (st : St) : St := snd (set_buffer [] st).

(** The state once [e] has been added to the trace, once the outside world
    has been consulted, once the flag has been given the value [b], and
    once [m] has been appended to the history. *)
Definition logged (e : event) (st : St) : St := snd (emit e st).
Definition ticked (st : St) : St := snd (tick st).
Definition flagged (b : bool) (st : St) : St := snd (set_processing b st).
Definition with_entry (m : message) (st : St) : St := snd (history_append m st).

(* ===================================================================== *)
(** * Concurrent executions of _process_turn on one session *)
(* ===================================================================== *)

Module Tasks.

(** Where an execution of [_process_turn] stands.  [async with self.lock]
    acquires the lock of the session on entry and releases it on exit, also
    when the block raises. *)
Inductive phase : Type :=
  | Created      (* scheduled, not yet at [async with self.lock] *)
  | Blocked      (* suspended in [lock.acquire()] *)
  | Holding      (* lock acquired, block not yet run *)
  | Leaving      (* block run (returned or raised), lock not yet released *)
  | Finished.

(** The executions that are inside the block. *)
Definition active (p : phase) : bool :=
  match p with
  | Holding | Leaving => true
  | _ => false
  end.

(** One session: its lock, the executions of [_process_turn] issued for it
    (by [create_task], by a stop event, by [on_disconnect]) and its state. *)
Record System : Type := {
  locked : bool;
  tasks : list phase;
  shared : St;
}.

Definition initial (st : St) : System :=
  {| locked := false; tasks := []; shared := st |}.

Section Steps.

Context (env : Env).

(** The event loop interleaves the executions at will; every step of an
    execution is a possible switch point. *)
Inductive step : System -> System -> Prop :=
  | step_issue sys :
      step sys {| locked := locked sys;
                  tasks := (tasks sys ++ [Created])%list;
                  shared := shared sys |}
  | step_acquire sys i p :
      tasks sys !! i = Some p ->
      p = Created \/ p = Blocked ->
      locked sys = false ->
      step sys {| locked := true;
                  tasks := <[i := Holding]> (tasks sys);
                  shared := shared sys |}
  | step_block sys i :
      tasks sys !! i = Some Created ->
      locked sys = true ->
      step sys {| locked := locked sys;
                  tasks := <[i := Blocked]> (tasks sys);
                  shared := shared sys |}
  | step_body sys i :
      tasks sys !! i = Some Holding ->
      step sys {| locked := locked sys;
                  tasks := <[i := Leaving]> (tasks sys);
                  shared := snd (process_turn_body env min_words_per_chunk
                                   (shared sys)) |}
  | step_release sys i :
      tasks sys !! i = Some Leaving ->
      step sys {| locked := false;
                  tasks := <[i := Finished]> (tasks sys);
                  shared := shared sys |}
  | step_audio sys pcm :
      step sys {| locked := locked sys;
                  tasks := tasks sys;
                  shared := snd (set_buffer
                                   (append_pcm_to_buffer
                                      (buffer (sess (shared sys))) pcm)
                                   (shared sys)) |}.

Definition reachable (st : St) (sys : System) : Prop :=
  rtc step (initial st) sys.

End Steps.

(** No two executions are inside the block. *)
Definition exclusive (sys : System) : Prop :=
  forall i j p q,
    tasks sys !! i = Some p -> tasks sys !! j = Some q ->
    active p = true -> active q = true -> i = j.

End Tasks.

(** The invariant behind mutual exclusion: no two executions are inside the
    block, and when the lock is free none is. *)
Definition lock_inv (sys : Tasks.System) : Prop :=
  Tasks.exclusive sys /\
  (Tasks.locked sys = false ->
   forall i p, Tasks.tasks sys !! i = Some p -> Tasks.active p = false).

(* ===================================================================== *)
(** * The phases of a turn *)
(* ===================================================================== *)

(** Names for the three stretches of [process_turn_body] after the WAV
    step; [process_turn_body_run] below shows that the body is their
    composition. *)

(** The first [try]: transcription, with the handler that prints and takes
    the transcript to be empty. *)
Definition transcribe_phase (env : Env) (wav_path : string) : M json :=
  try_ (transcribe_wav env wav_path)
       (fun e => print ("Transcription error: " ++ exn_str e);;
                 mret (JStr "")).

(** From the print of the transcript to the end of the block. *)
Definition reply_phase (env : Env) (sid : string) (min_words : Z)
    (txt : string) : M unit :=
  print ("[" ++ sid ++ "] Transcribed: " ++ txt);;
  history_append (Message user txt);;
  response_text ← try_ (generate_reply env min_words)
                    (fun e => print ("LLM streaming error: " ++ exn_str e);;
                              mret apology);
  print ("[" ++ sid ++ "] LLM: " ++ str_take 120 response_text);;
  set_processing false.

(** What the block does with the transcript. *)
Definition after_transcript (env : Env) (sid : string) (min_words : Z)
    (transcript : json) : M unit :=
  match transcript with
  | JStr txt =>
      if String.eqb (strip txt) "" then set_processing false
      else reply_phase env sid min_words txt
  | _ => raise AttributeError
  end.

(** A line of the stream that carries the text [d]. *)
Definition carries (env : Env) (line d : string) : Prop :=
  startswith "data: " line = true /\
  String.eqb (strip (str_drop 6 line)) "[DONE]" = false /\
  String.eqb (strip (str_drop 6 line)) "" = false /\
  exists data_json,
    env_json_loads env (strip (str_drop 6 line)) = Ok data_json /\
    delta_of data_json = Ok (JStr d).

(** [raw_text] is a media message whose payload decodes to [pcm]. *)
Definition media_frame (env : Env) (raw_text : string) (pcm : bytes) : Prop :=
  exists msg ev media payload_b64,
    env_json_loads env raw_text = Ok msg /\
    py_get msg "event" JNull = Ok ev /\ json_is ev "media" = true /\
    py_getitem msg "media" = Ok media /\
    py_getitem media "payload" = Ok (JStr payload_b64) /\
    decode_twilio_media_frame payload_b64 = Ok pcm.

(** [raw_text] is a media message whose payload is the string
    [payload_b64], whatever that string holds. *)
Definition media_payload (env : Env) (raw_text payload_b64 : string) : Prop :=
  exists msg ev media,
    env_json_loads env raw_text = Ok msg /\
    py_get msg "event" JNull = Ok ev /\ json_is ev "media" = true /\
    py_getitem msg "media" = Ok media /\
    py_getitem media "payload" = Ok (JStr payload_b64).

(** The characters of the base64 alphabet. *)
Definition in_alphabet (c : ascii) : bool :=
  match Base64.sextet c with
  | Some _ => true
  | None => false
  end.

Fixpoint all_alphabet (s : string) : bool :=
  match s with
  | EmptyString => true
  | String c s' => in_alphabet c && all_alphabet s'
  end.

(** Base64 as RFC 4648 writes it: groups of four characters of the
    alphabet, the last of which may end in one or two padding characters.
    A payload is malformed when it is not of that form. *)
Fixpoint well_formed (s : string) : bool :=
  match s with
  | EmptyString => true
  | String c1 (String c2 (String c3 (String c4 rest))) =>
      in_alphabet c1 && in_alphabet c2 &&
      (if in_alphabet c3
       then if in_alphabet c4 then well_formed rest
            else Ascii.eqb c4 "="%char && String.eqb rest EmptyString
       else Ascii.eqb c3 "="%char && Ascii.eqb c4 "="%char
            && String.eqb rest EmptyString)
  | _ => false
  end.

(** [on_message] on each message in turn: what the loop of [media_ws] does
    to the session while no created task gets to run. *)
Fixpoint feed (env : Env) (inbox : list string) : M unit :=
  match inbox with
  | [] => mret tt
  | raw_text :: rest => on_message env raw_text;; feed env rest
  end.

(** [st'] differs from [st] by the audio [pcm] added to the buffer, and
    possibly by the time of the last voice and the clock. *)
Definition buffered (pcm : bytes) (st st' : St) : Prop :=
  call_sid (sess st') = call_sid (sess st) /\
  buffer (sess st') = (buffer (sess st) ++ pcm)%list /\
  processing (sess st') = processing (sess st) /\
  conversation_history (sess st') = conversation_history (sess st) /\
  files (world st') = files (world st) /\
  trace (world st') = trace (world st) /\
  pending (world st') = pending (world st).

(** A line the loop passes over: not a data line, a data line with nothing
    after the prefix, or a chunk whose delta has no text. *)
Definition skipped (env : Env) (line : string) : Prop :=
  startswith "data: " line = false \/
  (startswith "data: " line = true /\
   String.eqb (strip (str_drop 6 line)) "[DONE]" = false /\
   (String.eqb (strip (str_drop 6 line)) "" = true \/
    exists data_json v,
      env_json_loads env (strip (str_drop 6 line)) = Ok data_json /\
      delta_of data_json = Ok v /\ truthy v = false)).

(** The end marker. *)
Definition done_line (line : string) : Prop :=
  startswith "data: " line = true /\
  String.eqb (strip (str_drop 6 line)) "[DONE]" = true.

(** [yields env ls ds]: the lines [ls] of a response deliver the deltas
    [ds], in order, up to the end marker or the end of the lines. *)
Inductive yields (env : Env) : list string -> list string -> Prop :=
  | yields_end : yields env [] []
  | yields_done line rest :
      done_line line -> yields env (line :: rest) []
  | yields_skip line rest ds :
      skipped env line -> yields env rest ds -> yields env (line :: rest) ds
  | yields_delta line rest d ds :
      carries env line d -> d <> "" -> yields env rest ds ->
      yields env (line :: rest) (d :: ds).

(** The chunking the loop performs, on the deltas alone: the chunks cut
    while the stream runs, and the text left pending when it ends. *)
Fixpoint chunking (min_words : Z) (pending_text : string) (ds : list string)
  : list string * string :=
  match ds with
  | [] => ([], pending_text)
  | d :: ds' =>
      let p := pending_text ++ d in
      if min_words <=? Z.of_nat (length (split p))
      then (p :: fst (chunking min_words "" ds'), snd (chunking min_words "" ds'))
      else chunking min_words p ds'
  end.

(** All the chunks of a reply: those cut while the stream runs and what is
    left at its end, unless that is blank. *)
Definition reply_chunks (min_words : Z) (ds : list string) : list string :=
  (fst (chunking min_words "" ds)
   ++ (if String.eqb (strip (snd (chunking min_words "" ds))) "" then []
       else [snd (chunking min_words "" ds)]))%list.

(** [s1 + s2 + ...] *)
Fixpoint concat_str (ds : list string) : string :=
  match ds with
  | [] => ""
  | d :: ds' => d ++ concat_str ds'
  end.

(** The calls made for one chunk [txt] of the reply: the synthesis, and the
    playback when the synthesis returned. *)
Definition spoken (sid txt : string) (evs : list event) : Prop :=
  evs = [EvSynthesize txt] \/
  exists twiml, evs = [EvSynthesize txt; EvPlay sid twiml].

(** The calls made for the chunks [txts], one chunk after the other. *)
Fixpoint all_spoken (sid : string) (txts : list string) (evs : list event)
  : Prop :=
  match txts with
  | [] => evs = []
  | txt :: rest =>
      exists e1 e2,
        spoken sid txt e1 /\ all_spoken sid rest e2 /\ evs = (e1 ++ e2)%list
  end.

(** A computation is quiet when it leaves the session object as it is and
    calls none of the generation, synthesis and playback services. *)
Definition quiet {A} (m : M A) : Prop :=
  forall st,
    sess (snd (m st)) = sess st /\
    reply_events (trace (world (snd (m st)))) = reply_events (trace (world st)).

Create HintDb quiet discriminated.

(** A computation that leaves the audio buffer as it is. *)
Definition keeps_buffer {A} (m : M A) : Prop :=
  forall st, buffer (sess (snd (m st))) = buffer (sess st).

Create HintDb keeps discriminated.

(* ===================================================================== *)
(** * utils.py: ask_chatgpt_stream *)
(* ===================================================================== *)

(** [ask_chatgpt_stream(history)]: the same endpoint asked without
    streaming; the answer is [j["choices"][0]["message"]["content"].strip()]. *)
Definition ask_chatgpt_stream (env : Env) (history : list message) : M string :=
  n ← tick;
  emit (EvGenerate history);;
  r ← expect_response (env_llm env n history);
  if negb (status_code r =? 200)
  then raise (Exception_ (status_line "LLM failed: " r))
  else
    j ← lift (env_json_loads env (text r));
    choices ← lift (py_getitem j "choices");
    first ← lift (py_first choices);
    message ← lift (py_getitem first "message");
    content ← lift (py_getitem message "content");
    match content with
    | JStr c => mret (strip c)
    | _ => raise AttributeError      (* [.strip()] on a non-string *)
    end.

(* ===================================================================== *)
(** * main.py: the HTTP endpoints *)
(* ===================================================================== *)

(** [s.replace(old, new)] for a non-empty [old]: the occurrences are found
    from the left and do not overlap.  [skip] counts the characters of the
    occurrence just replaced that are still to be passed over. *)
Fixpoint replace_from (old new : string) (skip : nat) (s : string) : string :=
  match s with
  | EmptyString => EmptyString
  | String c s' =>
      match skip with
      | S k => replace_from old new k s'
      | O =>
          if startswith old s
          then new ++ replace_from old new (String.length old - 1) s'
          else String c (replace_from old new 0 s')
      end
  end.

Definition py_replace (old new s : string) : string := replace_from old new 0 s.

(** [old in s] *)
Fixpoint occurs (old s : string) : bool :=
  match s with
  | EmptyString => startswith old EmptyString
  | String _ s' => startswith old s || occurs old s'
  end.

(** What [VoiceResponse] is asked to hold: [resp.start().stream(url=...)]
    and [resp.say(...)]. *)
Inductive verb : Type :=
  | StartStream (url : string)
  | Say (words : string).

(** The body of a [Response(..., media_type="text/xml")]: a literal text,
    or the rendering of a [VoiceResponse]. *)
Inductive twiml : Type :=
  | TwimlText (body : string)
  | TwimlVerbs (verbs : list verb).

Definition greeting : string :=
  "Conectando con el asistente automatizado. Espere un momento por favor.".

(** [incoming_call(request)], given the two settings read at start-up
    ([PUBLIC_HOST], [MEDIA_WS_PATH]) and [form.get("CallSid")]. *)
Definition incoming_call (public_host : option string) (media_ws_path : string)
    (form_call_sid : option string) : twiml :=
  match public_host with
  | None => TwimlText "<Response><Say>Servidor no configurado</Say></Response>"
  | Some h =>
      if String.eqb h ""
      then TwimlText "<Response><Say>Servidor no configurado</Say></Response>"
      else
        let host := py_replace "http://" "" (py_replace "https://" "" h) in
        let sid := match form_call_sid with Some c => c | None => "None" end in
        let ws_url := "wss://" ++ host ++ media_ws_path ++ "/" ++ sid in
        TwimlVerbs [StartStream ws_url; Say greeting]
  end.

(** What [get_audiofile] answers. *)
Inductive served : Type :=
  | FileResponse (path media_type : string)
  | StatusOnly (code : Z).

(** [os.path.exists(path)].  [files] holds the files the program has
    written, under the path it wrote them with.  The file system answers for
    more than these: a directory, another spelling of a path, a file that
    was there before; [elsewhere] tells what else exists. *)
Definition os_path_exists (elsewhere : World -> string -> bool) (w : World)
    (path : string) : bool :=
  bool_decide (path ∈ files w) || elsewhere w path.

(** [get_audiofile(filename)] *)
Definition get_audiofile (elsewhere : World -> string -> bool)
    (filename : string) : M served :=
  let path := "static/audio/" ++ filename in
  w ← get_world;
  if os_path_exists elsewhere w path then mret (FileResponse path "audio/mpeg")
  else mret (StatusOnly 404).

(* ===================================================================== *)
(** * More worlds and observations *)
(* ===================================================================== *)

Module Desk.

Definition documents : list (string * json) :=
  [ ("connected", JObj [("event", JStr "connected"); ("protocol", JStr "Call")]);
    ("no-event", JObj [("sequenceNumber", JStr "3")]);
    ("media-without-payload",
     JObj [("event", JStr "media"); ("media", JObj [("track", JStr "inbound")])]);
    ("frame-abc", Studio.media_msg "QUJD");
    ("stop", JObj [("event", JStr "stop")]);
    ("whisper-hello", JObj [("text", JStr "hello")]);
    ("d1", Studio.chunk "Hello"); ("d2", Studio.chunk " there my"); 
    ("d3", Studio.chunk " dear friend, how"); ("d4", Studio.chunk " are you?");
    ("chat-ok",
     JObj [("choices",
            JArr [JObj [("message", JObj [("content", JStr "  Hola.  ")])]])]) ].

(** The world [base] with another [json.loads]. *)
Definition reading (table : list (string * json)) (base : Env) : Env :=
  {| env_uuid4 := env_uuid4 base;
     env_write := env_write base;
     env_ffmpeg := env_ffmpeg base;
     env_whisper := env_whisper base;
     env_llm := env_llm base;
     env_tts := env_tts base;
     env_twilio := env_twilio base;
     env_vad := env_vad base;
     env_time := env_time base;
     env_json_loads := Studio.table_loads table;
     env_public_host := env_public_host base;
     env_yield := env_yield base |}.

(** Everything works. *)
Definition office : Env := reading documents Studio.calm.

(** ffmpeg runs and writes no WAV file. *)
Definition no_wav : Env :=
  reading documents
    (Studio.world_of WriteDone (FfmpegExit false) Studio.whisper_hello
       Studio.llm_hi_there Studio.tts_ok).

(** The stream breaks after four deltas, with no end marker. *)
Definition broken_stream : Env :=
  reading documents
    (Studio.world_of WriteDone (FfmpegExit true) Studio.whisper_hello
       (HttpResponse {| status_code := 200; text := "";
                        lines := ["data: d1"; "data: d2"; "data: d3"; "data: d4"];
                        stream_error := Some RequestException |})
       Studio.tts_ok).

(** The chat endpoint answers in one piece. *)
Definition chat : Env :=
  reading documents
    (Studio.world_of WriteDone (FfmpegExit true) Studio.whisper_hello
       (Studio.reply 200 "chat-ok" []) Studio.tts_ok).

End Desk.

(** [raw_text] is a stop message. *)
Definition stop_frame (env : Env) (raw_text : string) : Prop :=
  exists msg ev,
    env_json_loads env raw_text = Ok msg /\
    py_get msg "event" JNull = Ok ev /\
    json_is ev "media" = false /\ json_is ev "stop" = true.

(** [raw_text] is a message of another kind, or one with no ["event"]. *)
Definition other_frame (env : Env) (raw_text : string) : Prop :=
  exists msg ev,
    env_json_loads env raw_text = Ok msg /\
    py_get msg "event" JNull = Ok ev /\
    json_is ev "media" = false /\ json_is ev "stop" = false.

(** [raw_text] is a media message that lacks ["media"], or whose ["media"]
    lacks ["payload"]. *)
Definition keyless_frame (env : Env) (raw_text : string) : Prop :=
  exists fields,
    env_json_loads env raw_text = Ok (JObj fields) /\
    assoc "event" fields = Some (JStr "media") /\
    (assoc "media" fields = None \/
     exists inner, assoc "media" fields = Some (JObj inner) /\
                   assoc "payload" inner = None).

(** [len(s.split())] *)
Definition words (s : string) : Z := Z.of_nat (length (split s)).

(** [drains env ls ds]: the lines [ls] deliver the deltas [ds] and then run
    out, with no end marker among them. *)
Inductive drains (env : Env) : list string -> list string -> Prop :=
  | drains_end : drains env [] []
  | drains_skip line rest ds :
      skipped env line -> drains env rest ds -> drains env (line :: rest) ds
  | drains_delta line rest d ds :
      carries env line d -> d <> "" -> drains env rest ds ->
      drains env (line :: rest) (d :: ds).

(** [m] leaves the observation [obs] of the state as it is. *)
Definition preserves {A B} (obs : St -> B) (m : M A) : Prop :=
  forall st, obs (snd (m st)) = obs st.

(** What a turn has no business with: the identity of the call, the time of
    the last voice and the tasks waiting to run. *)
Definition untouched (st : St) : string * nat * option Z * nat :=
  (call_sid (sess st), ws (sess st), last_voice_ts (sess st), pending (world st)).

(** A step forward of one execution of [_process_turn]. *)
Inductive advances : Tasks.phase -> Tasks.phase -> Prop :=
  | advances_acquire_new : advances Tasks.Created Tasks.Holding
  | advances_acquire_woken : advances Tasks.Blocked Tasks.Holding
  | advances_run : advances Tasks.Holding Tasks.Leaving
  | advances_release : advances Tasks.Leaving Tasks.Finished.

(* ===================================================================== *)
(** * Properties of the pure helpers *)
(* ===================================================================== *)

Example py_repr_key : py_repr "payload" = "'payload'".
Proof. reflexivity. Qed.

Example py_repr_path : py_repr "tmp_u1.wav" = "'tmp_u1.wav'".
Proof. reflexivity. Qed.

(** A string with a single quote is shown between double quotes, and a
    line feed as backslash n. *)
Example py_repr_quote :
  py_repr ("it" ++ String single_quote "s")
  = String double_quote ("it" ++ String single_quote
                                   ("s" ++ String double_quote "")).
Proof. reflexivity. Qed.

Example py_repr_line_feed :
  py_repr (String (ascii_of_nat 10) "") = "'\n'".
Proof. reflexivity. Qed.

Example exn_str_missing_file :
  exn_str (FileNotFoundError "tmp_u1.wav")
  = "[Errno 2] No such file or directory: 'tmp_u1.wav'".
Proof. reflexivity. Qed.

Example b64decode_not_ascii :
  Base64.b64decode (String (ascii_of_nat 233) "QUJD")
  = Raise (ValueError "string argument should contain only ASCII characters").
Proof. reflexivity. Qed.

Example b64decode_junk : Base64.b64decode "QUJD$" = Ok [x41; x42; x43].
Proof. reflexivity. Qed.

Example b64decode_after_padding : Base64.b64decode "QUI=QUJD" = Ok [x41; x42].
Proof. reflexivity. Qed.

Example b64decode_ABC : Base64.b64decode "QUJD" = Ok [x41; x42; x43].
Proof. reflexivity. Qed.

Example b64decode_padded : Base64.b64decode "QUI=" = Ok [x41; x42].
Proof. reflexivity. Qed.

Example b64decode_skips_newline :
  Base64.b64decode (String "Q" (String "U" (String (ascii_of_nat 10) "JD")))
  = Ok [x41; x42; x43].
Proof. reflexivity. Qed.

Example b64decode_one_char :
  Base64.b64decode "QUJDR"
  = Raise (binascii_Error
             ("Invalid base64-encoded string: number of data characters (5)"
              ++ " cannot be 1 more than a multiple of 4")).
Proof. reflexivity. Qed.

Example b64decode_bad_padding :
  Base64.b64decode "QUI" = Raise (binascii_Error "Incorrect padding").
Proof. reflexivity. Qed.

Example split_words : split "  Hi   there ! " = ["Hi"; "there"; "!"].
Proof. reflexivity. Qed.

Example strip_both : strip "  Hi there  " = "Hi there".
Proof. reflexivity. Qed.

(** The size that triggers a turn is 25600 bytes: the binary64 product
    [16000 * 2 * (800 / 1000.0)] is exactly 25600.0. *)
Lemma chunk_threshold_bytes (n : Z) :
  int_ge_float n chunk_threshold = (25600 <=? n).
Proof.
  unfold int_ge_float.
  replace (Prim2SF chunk_threshold)
    with (S754_finite false 7036874417766400 (-38)) by (vm_compute; reflexivity).
  change (0 <=? -38) with false. cbv iota.
  change (2 ^ (- -38)) with 274877906944.
  destruct (Z.leb_spec 25600 n); [apply Z.leb_le | apply Z.leb_gt]; lia.
Qed.

(** With the default arguments one frame is 480 bytes. *)
Lemma default_frame_bytes :
  py_int (Vad.frame_bytes_float Vad.default_sample_rate Vad.default_frame_ms)
  = Ok 480.
Proof. vm_compute. reflexivity. Qed.

Lemma is_speech_present_unfold vad pcm :
  Vad.is_speech_present vad pcm =
  if Z.of_nat (length pcm) <? 480 then Ok false
  else try_res (vad (slice_to 480 pcm) 8000) (fun _ => Ok false).
Proof.
  unfold Vad.is_speech_present, Vad.is_speech_present_at.
  rewrite default_frame_bytes. simpl.
  destruct (Z.of_nat (length pcm) <? 480); reflexivity.
Qed.

Lemma is_speech_present_at_total vad pcm sample_rate frame_ms :
  exists b : bool,
    Vad.is_speech_present_at vad pcm sample_rate frame_ms = Ok b.
Proof.
  unfold Vad.is_speech_present_at.
  destruct (py_int (Vad.frame_bytes_float sample_rate frame_ms)) as [n|e];
    simpl; [|by exists false].
  destruct (Z.of_nat (length pcm) <? n); [by exists false|].
  destruct (vad (slice_to n pcm) sample_rate) as [b|e]; simpl; eauto.
Qed.

(** C8.  The voice-activity test is total: whatever the byte string, its
    length, and whatever the classifier does (raising included),
    [is_speech_present] returns a boolean and raises nothing; on an input
    shorter than one 480-byte frame that boolean is [False]. *)
Theorem is_speech_present_total :
  forall (vad : Vad.classifier) (pcm : bytes),
    (exists b : bool, Vad.is_speech_present vad pcm = Ok b) /\
    (Z.of_nat (length pcm) < 480 -> Vad.is_speech_present vad pcm = Ok false).
Proof.
  intros vad pcm. split.
  - apply is_speech_present_at_total.
  - intros Hlt. rewrite is_speech_present_unfold.
    apply Z.ltb_lt in Hlt. by rewrite Hlt.
Qed.

Lemma is_speech_present_total_witness :
  Vad.is_speech_present (fun _ _ => Raise VadError) [x00; x01; x02] = Ok false.
Proof.
  apply (proj2 (is_speech_present_total (fun _ _ => Raise VadError)
                  [x00; x01; x02])).
  simpl. lia.
Defined.

(* ===================================================================== *)
(** * The registry *)
(* ===================================================================== *)

(** C10.  [create_session] on an identifier that is already registered
    returns (it has no failing path) and replaces the entry: the registry
    maps the identifier to the session just built, which is another object
    than the one registered before, [get_session] returns it, the old
    object is left as it was and the other identifiers keep their
    sessions. *)
Theorem create_session_replaces :
  forall (m : Registry.SessionManager) (sid : string) (websocket : nat)
         (old : Registry.addr),
    Registry.get_session sid m = Some old ->
    is_Some (Registry.objects m !! old) ->
    let m' := fst (Registry.create_session sid websocket m) in
    let s := snd (Registry.create_session sid websocket m) in
    Registry.get_session sid m' = Some s /\
    s <> old /\
    Registry.objects m' !! s = Some (new_session sid websocket) /\
    Registry.objects m' !! old = Registry.objects m !! old /\
    (forall sid', sid' <> sid ->
       Registry.get_session sid' m' = Registry.get_session sid' m).
Proof.
  intros m sid websocket old Hreg Hold m' s.
  assert (Hfresh : s <> old).
  { intros Heq. apply (elem_of_dom (Registry.objects m) old) in Hold.
    rewrite <- Heq in Hold. subst s. simpl in Hold.
    by apply is_fresh in Hold. }
  unfold Registry.get_session. subst m' s. simpl in *.
  repeat split.
  - apply lookup_insert_eq.
  - exact Hfresh.
  - apply lookup_insert_eq.
  - by apply lookup_insert_ne.
  - intros sid' Hne. by apply lookup_insert_ne.
Qed.

Lemma create_session_replaces_witness :
  let m := fst (Registry.create_session "CA1" 7 Registry.new_manager) in
  Registry.get_session "CA1" (fst (Registry.create_session "CA1" 8 m))
  = Some (snd (Registry.create_session "CA1" 8 m)) /\
  snd (Registry.create_session "CA1" 8 m)
  <> snd (Registry.create_session "CA1" 7 Registry.new_manager).
Proof.
  intros m.
  pose proof (create_session_replaces m "CA1" 8
                (snd (Registry.create_session "CA1" 7 Registry.new_manager)))
    as H.
  destruct H as (H1 & H2 & _).
  - vm_compute. reflexivity.
  - vm_compute. eexists. reflexivity.
  - split; [exact H1 | exact H2].
Defined.

(* ===================================================================== *)
(** * Mutual exclusion of the turns of one session *)
(* ===================================================================== *)

Section Exclusion.

Context (env : Env).

Lemma lock_inv_initial st : lock_inv (Tasks.initial st).
Proof.
  split.
  - intros i j p q Hi. simpl in Hi. by rewrite lookup_nil in Hi.
  - intros _ i p Hi. simpl in Hi. by rewrite lookup_nil in Hi.
Qed.

(** Replacing the phase at [i] by an inactive one keeps the other active
    executions where they were. *)
Lemma active_after_insert (l : list Tasks.phase) i j x p :
  <[i := x]> l !! j = Some p -> Tasks.active p = true ->
  (i = j /\ x = p) \/ (i <> j /\ l !! j = Some p).
Proof.
  intros Hj Hp. apply list_lookup_insert_Some in Hj.
  destruct Hj as [(-> & -> & _) | (Hne & Hj)]; [left | right]; done.
Qed.

Lemma lock_inv_step sys sys' :
  lock_inv sys -> Tasks.step env sys sys' -> lock_inv sys'.
Proof.
  intros [Hex Hfree] Hstep.
  inversion Hstep as
    [ s | s i p Hi Hp Hl | s i Hi Hl | s i Hi | s i Hi | s pcm ];
    subst; simpl in *.
  - (* a new execution is issued *)
    split.
    + intros a b p q Ha Hb Hpa Hqb. simpl in *.
      apply lookup_app_Some in Ha. apply lookup_app_Some in Hb.
      destruct Ha as [Ha | [_ Ha]], Hb as [Hb | [_ Hb]].
      * by eapply Hex.
      * apply list_lookup_singleton_Some in Hb as [_ <-]. done.
      * apply list_lookup_singleton_Some in Ha as [_ <-]. done.
      * apply list_lookup_singleton_Some in Ha as [_ <-]. done.
    + intros Hl a p Ha. simpl in *.
      apply lookup_app_Some in Ha. destruct Ha as [Ha | [_ Ha]].
      * by eapply Hfree.
      * apply list_lookup_singleton_Some in Ha as [_ <-]. done.
  - (* the lock is acquired: nobody was inside *)
    split; [|done].
    intros a b pa pb Ha Hb Hpa Hpb. simpl in *.
    apply active_after_insert in Ha; [|done].
    apply active_after_insert in Hb; [|done].
    destruct Ha as [[<- _] | [_ Ha]], Hb as [[<- _] | [_ Hb]]; try done.
    + rewrite (Hfree Hl _ _ Hb) in Hpb. done.
    + rewrite (Hfree Hl _ _ Ha) in Hpa. done.
    + rewrite (Hfree Hl _ _ Ha) in Hpa. done.
  - (* an execution suspends on the lock *)
    split; [|by rewrite Hl].
    intros a b pa pb Ha Hb Hpa Hpb. simpl in *.
    apply active_after_insert in Ha; [|done].
    apply active_after_insert in Hb; [|done].
    destruct Ha as [[_ <-] | [_ Ha]]; [done|].
    destruct Hb as [[_ <-] | [_ Hb]]; [done|].
    by eapply Hex.
  - (* the block runs *)
    split.
    + intros a b pa pb Ha Hb Hpa Hpb. simpl in *.
      apply active_after_insert in Ha; [|done].
      apply active_after_insert in Hb; [|done].
      destruct Ha as [[<- _] | [_ Ha]], Hb as [[<- _] | [_ Hb]]; try done.
      * by eapply (Hex _ _ _ _ Hi Hb).
      * by eapply (Hex _ _ _ _ Ha Hi).
      * by eapply Hex.
    + intros Hl. pose proof (Hfree Hl _ _ Hi) as Hc. done.
  - (* the lock is released: the one inside has left *)
    assert (Hnone : forall a pa,
               <[i := Tasks.Finished]> (Tasks.tasks sys) !! a = Some pa ->
               Tasks.active pa = false).
    { intros a pa Ha. destruct (Tasks.active pa) eqn:Hpa; [|done].
      apply active_after_insert in Ha; [|done].
      destruct Ha as [[_ <-] | [Hne Ha]]; [done|].
      exfalso. apply Hne. by eapply (Hex _ _ _ _ Hi Ha). }
    split.
    + intros a b pa pb Ha Hb Hpa Hpb. simpl in *.
      rewrite (Hnone _ _ Ha) in Hpa. done.
    + intros _. exact Hnone.
  - (* audio arrives *)
    split; [exact Hex | exact Hfree].
Qed.

Lemma lock_inv_reachable st sys :
  Tasks.reachable env st sys -> lock_inv sys.
Proof.
  unfold Tasks.reachable. revert sys. apply rtc_ind_r.
  - apply lock_inv_initial.
  - intros sys sys' _ Hstep IH. by eapply lock_inv_step.
Qed.

(** C1.  For one session, whatever executions of [_process_turn] are
    issued (created as tasks, awaited on a stop event, awaited on
    disconnect) and however the event loop interleaves them, at most one
    of them is inside the block guarded by the lock of the session at any
    instant: the executions never overlap. *)
Theorem process_turn_exclusive :
  forall (st : St) (sys : Tasks.System),
    Tasks.reachable env st sys ->
    forall i j p q,
      Tasks.tasks sys !! i = Some p -> Tasks.tasks sys !! j = Some q ->
      Tasks.active p = true -> Tasks.active q = true -> i = j.
Proof.
  intros st sys Hreach. exact (proj1 (lock_inv_reachable st sys Hreach)).
Qed.

End Exclusion.

(** Three executions for one session (a created task, a stop event, a
    disconnect): the second one got the lock and ran the block, the two
    others wait. *)
Lemma process_turn_exclusive_witness :
  let st := Studio.session_with [x01; x02] in
  let sys :=
    {| Tasks.locked := true;
       Tasks.tasks := [Tasks.Blocked; Tasks.Leaving; Tasks.Blocked];
       Tasks.shared :=
         snd (process_turn_body Studio.calm min_words_per_chunk st) |} in
  Tasks.reachable Studio.calm st sys /\ (1 = 1)%nat.
Proof.
  intros st sys.
  assert (Hreach : Tasks.reachable Studio.calm st sys).
  { unfold Tasks.reachable.
    eapply rtc_l; [apply Tasks.step_issue|].
    eapply rtc_l; [apply Tasks.step_issue|].
    eapply rtc_l; [apply Tasks.step_issue|].
    eapply rtc_l;
      [apply (Tasks.step_acquire _ _ 1%nat Tasks.Created);
       [reflexivity | by left | reflexivity]|].
    eapply rtc_l; [apply (Tasks.step_block _ _ 0%nat); reflexivity|].
    eapply rtc_l; [apply (Tasks.step_block _ _ 2%nat); reflexivity|].
    eapply rtc_l; [apply (Tasks.step_body _ _ 1%nat); reflexivity|].
    apply rtc_refl. }
  split; [exact Hreach|].
  apply (process_turn_exclusive Studio.calm st sys Hreach
           1%nat 1%nat Tasks.Leaving Tasks.Leaving); reflexivity.
Defined.

(* ===================================================================== *)
(** * What the steps of a turn leave alone *)
(* ===================================================================== *)

Lemma bind_run {A B} (m : M A) (f : A -> M B) (st : St) :
  (m ≫= f) st =
  match m st with
  | (Ok a, st') => f a st'
  | (Raise e, st') => (Raise e, st')
  end.
Proof. reflexivity. Qed.

Lemma ret_run {A} (a : A) (st : St) : (mret a : M A) st = (Ok a, st).
Proof. reflexivity. Qed.

Lemma emit_run e st : emit e st = (Ok tt, logged e st).
Proof. reflexivity. Qed.

Lemma print_run line st : print line st = (Ok tt, logged (EvPrint line) st).
Proof. reflexivity. Qed.

Lemma tick_run st : tick st = (Ok (clock (world st)), ticked st).
Proof. reflexivity. Qed.

Lemma set_processing_run b st : set_processing b st = (Ok tt, flagged b st).
Proof. reflexivity. Qed.

Lemma history_append_run m st : history_append m st = (Ok tt, with_entry m st).
Proof. reflexivity. Qed.

Lemma get_sess_run st : get_sess st = (Ok (sess st), st).
Proof. reflexivity. Qed.

Lemma reply_events_app t1 t2 :
  reply_events (t1 ++ t2) = (reply_events t1 ++ reply_events t2)%list.
Proof. apply List.filter_app. Qed.

Lemma synth_texts_app t1 t2 :
  synth_texts (t1 ++ t2) = (synth_texts t1 ++ synth_texts t2)%list.
Proof.
  induction t1 as [|e t1 IH]; [done|].
  destruct e; simpl; by rewrite ?IH.
Qed.

Lemma quiet_ret {A} (a : A) : quiet (mret a).
Proof. by intros st. Qed.

Lemma quiet_raise {A} e : quiet (@raise A e).
Proof. by intros st. Qed.

Lemma quiet_lift {A} (r : res A) : quiet (lift r).
Proof. by intros st. Qed.

Lemma quiet_get_world : quiet get_world.
Proof. by intros st. Qed.

Lemma quiet_bind {A B} (m : M A) (f : A -> M B) :
  quiet m -> (forall a, quiet (f a)) -> quiet (m ≫= f).
Proof.
  intros Hm Hf st. rewrite bind_run.
  destruct (Hm st) as [Hs Ht]. destruct (m st) as [[a|e] st']; simpl in *.
  - destruct (Hf a st') as [Hs' Ht']. split; congruence.
  - done.
Qed.

Lemma quiet_try {A} (m : M A) (h : exn -> M A) :
  quiet m -> (forall e, quiet (h e)) -> quiet (try_ m h).
Proof.
  intros Hm Hh st. unfold try_.
  destruct (Hm st) as [Hs Ht]. destruct (m st) as [[a|e] st']; simpl in *.
  - done.
  - destruct (Hh e st') as [Hs' Ht']. split; congruence.
Qed.

Lemma quiet_tick : quiet tick.
Proof. by intros st. Qed.

Lemma quiet_set_files fs : quiet (set_files fs).
Proof. by intros st. Qed.

Lemma quiet_emit e : is_reply_event e = false -> quiet (emit e).
Proof.
  intros He st. split; [done|]. simpl.
  rewrite reply_events_app. simpl. rewrite He. by rewrite app_nil_r.
Qed.

Lemma quiet_print line : quiet (print line).
Proof. by apply quiet_emit. Qed.

#[local] Hint Resolve quiet_ret quiet_raise quiet_lift quiet_get_world
  quiet_tick quiet_set_files quiet_print : quiet.

Ltac quiet_step :=
  first
    [ solve [auto with quiet]
    | apply quiet_emit; reflexivity
    | apply quiet_try; [|intros ?]
    | apply quiet_bind; [|intros ?]
    | match goal with
      | |- quiet (match ?x with _ => _ end) => destruct x
      | |- quiet (if ?x then _ else _) => destruct x
      end ].

Ltac quiet_auto := repeat quiet_step.

Section Quiet.

Context (env : Env).

Lemma quiet_uuid4 : quiet (uuid4 env).
Proof. unfold uuid4. quiet_auto. Qed.

Lemma quiet_write_file path : quiet (write_file env path).
Proof. unfold write_file. quiet_auto. Qed.

Lemma quiet_open_rb path : quiet (open_rb path).
Proof. unfold open_rb. quiet_auto. Qed.

Lemma quiet_os_remove path : quiet (os_remove path).
Proof. unfold os_remove. quiet_auto. Qed.

Lemma quiet_run_ffmpeg raw wav : quiet (run_ffmpeg env raw wav).
Proof. unfold run_ffmpeg. quiet_auto. Qed.

Hint Resolve quiet_uuid4 quiet_write_file quiet_open_rb quiet_os_remove
  quiet_run_ffmpeg : quiet.

Lemma quiet_save_raw_pcm_to_wav raw_buffer :
  quiet (save_raw_pcm_to_wav env raw_buffer).
Proof. unfold save_raw_pcm_to_wav. quiet_auto. Qed.

Lemma quiet_expect_response h : quiet (expect_response h).
Proof. unfold expect_response. quiet_auto. Qed.

Hint Resolve quiet_expect_response : quiet.

Lemma quiet_transcribe_wav wav_path : quiet (transcribe_wav env wav_path).
Proof. unfold transcribe_wav. quiet_auto. Qed.

End Quiet.

(* ===================================================================== *)
(** * The turn, phase by phase *)
(* ===================================================================== *)

Section Turn.

Context (env : Env).

Hint Resolve quiet_save_raw_pcm_to_wav quiet_transcribe_wav : quiet.

Lemma quiet_transcribe_phase wav : quiet (transcribe_phase env wav).
Proof. unfold transcribe_phase. quiet_auto. Qed.

(** An empty buffer: the turn does nothing. *)
Lemma process_turn_body_empty mw st :
  buffer (sess st) = [] ->
  process_turn_body env mw st = set_processing false (turn_started st).
Proof.
  intros Hb. unfold process_turn_body.
  rewrite bind_run.
  change (set_processing true st) with (Ok tt, turn_started st).
  cbv beta iota. rewrite bind_run. cbv beta iota delta [get_sess].
  change (buffer (sess (turn_started st))) with (buffer (sess st)).
  by rewrite Hb.
Qed.

(** The WAV step raises: the exception leaves the block at once. *)
Lemma process_turn_body_save_raises mw st e st2 :
  buffer (sess st) <> [] ->
  save_raw_pcm_to_wav env (buffer (sess st)) (turn_started st) = (Raise e, st2) ->
  process_turn_body env mw st = (Raise e, st2).
Proof.
  intros Hne Hsave.
  assert (Hlen : (length (buffer (sess st)) =? 0)%nat = false).
  { destruct (buffer (sess st)); [done|reflexivity]. }
  unfold process_turn_body.
  rewrite bind_run.
  change (set_processing true st) with (Ok tt, turn_started st).
  cbv beta iota. rewrite bind_run. cbv beta iota delta [get_sess].
  change (buffer (sess (turn_started st))) with (buffer (sess st)).
  rewrite Hlen. by rewrite bind_run, Hsave.
Qed.

(** The WAV step returns: the block goes on with the transcription and
    then with what it does of the transcript. *)
Lemma process_turn_body_run mw st wav st2 tr st3 :
  buffer (sess st) <> [] ->
  save_raw_pcm_to_wav env (buffer (sess st)) (turn_started st) = (Ok wav, st2) ->
  transcribe_phase env wav (buffer_cleared st2) = (Ok tr, st3) ->
  process_turn_body env mw st
  = after_transcript env (call_sid (sess st)) mw tr st3.
Proof.
  intros Hne Hsave Htr.
  assert (Hlen : (length (buffer (sess st)) =? 0)%nat = false).
  { destruct (buffer (sess st)); [done|reflexivity]. }
  unfold process_turn_body.
  rewrite bind_run.
  change (set_processing true st) with (Ok tt, turn_started st).
  cbv beta iota. rewrite bind_run. cbv beta iota delta [get_sess].
  change (buffer (sess (turn_started st))) with (buffer (sess st)).
  change (call_sid (sess (turn_started st))) with (call_sid (sess st)).
  rewrite Hlen. rewrite bind_run, Hsave. cbv beta iota.
  rewrite bind_run.
  change (set_buffer [] st2) with (Ok tt, buffer_cleared st2).
  cbv beta iota. rewrite bind_run.
  fold (transcribe_phase env wav). rewrite Htr. reflexivity.
Qed.

Lemma transcribe_phase_ok wav st tr st' :
  transcribe_wav env wav st = (Ok tr, st') ->
  transcribe_phase env wav st = (Ok tr, st').
Proof. intros H. unfold transcribe_phase, try_. by rewrite H. Qed.

Lemma transcribe_phase_raises wav st e st' :
  transcribe_wav env wav st = (Raise e, st') ->
  transcribe_phase env wav st
  = (Ok (JStr ""),
     snd (print ("Transcription error: " ++ exn_str e) st')).
Proof. intros H. unfold transcribe_phase, try_. by rewrite H. Qed.

(** Up to the transcription the session only loses its buffer and has its
    flag set, and none of the reply services is called. *)
Lemma before_transcript st wav st2 r st3 :
  save_raw_pcm_to_wav env (buffer (sess st)) (turn_started st) = (Ok wav, st2) ->
  transcribe_wav env wav (buffer_cleared st2) = (r, st3) ->
  call_sid (sess st3) = call_sid (sess st) /\
  buffer (sess st3) = [] /\
  processing (sess st3) = true /\
  conversation_history (sess st3) = conversation_history (sess st) /\
  reply_events (trace (world st3)) = reply_events (trace (world st)).
Proof.
  intros Hsave Htr.
  destruct (quiet_save_raw_pcm_to_wav env (buffer (sess st)) (turn_started st))
    as [Hs2 Ht2].
  rewrite Hsave in Hs2, Ht2. simpl in Hs2, Ht2.
  destruct (quiet_transcribe_wav env wav (buffer_cleared st2)) as [Hs3 Ht3].
  rewrite Htr in Hs3, Ht3. simpl in Hs3, Ht3.
  rewrite Hs3, Ht3, Hs2, Ht2. done.
Qed.

End Turn.

(* ===================================================================== *)
(** * Turns that stop at the transcription *)
(* ===================================================================== *)

(** C5.  In every turn whose transcription call raises, or returns an empty
    or whitespace-only transcript, the block returns with the flag reset,
    the history is what it was before the turn, and no call is made to the
    generation, synthesis or playback service. *)
Theorem failed_transcription_aborts :
  forall (env : Env) (mw : Z) (st : St) (wav : string) (st2 st3 : St)
         (r : res json),
    buffer (sess st) <> [] ->
    save_raw_pcm_to_wav env (buffer (sess st)) (turn_started st)
    = (Ok wav, st2) ->
    transcribe_wav env wav (buffer_cleared st2) = (r, st3) ->
    (exists e, r = Raise e) \/
    (exists txt, r = Ok (JStr txt) /\ strip txt = "") ->
    let st' := snd (process_turn_body env mw st) in
    fst (process_turn_body env mw st) = Ok tt /\
    processing (sess st') = false /\
    conversation_history (sess st') = conversation_history (sess st) /\
    reply_events (trace (world st')) = reply_events (trace (world st)).
Proof.
  intros env mw st wav st2 st3 r Hne Hsave Htr Hr st'.
  destruct (before_transcript env st wav st2 r st3 Hsave Htr)
    as (_ & _ & _ & Hhist & Hev).
  destruct Hr as [[e ->] | (txt & -> & Hblank)].
  - subst st'.
    rewrite (process_turn_body_run env mw st wav st2 (JStr "") _ Hne Hsave
               (transcribe_phase_raises env wav _ e st3 Htr)).
    simpl. rewrite reply_events_app. simpl. rewrite app_nil_r. done.
  - subst st'.
    rewrite (process_turn_body_run env mw st wav st2 (JStr txt) _ Hne Hsave
               (transcribe_phase_ok env wav _ _ st3 Htr)).
    unfold after_transcript. rewrite Hblank. simpl. done.
Qed.

(** The transcription service answers 500. *)
Lemma failed_transcription_aborts_witness :
  let st := Studio.session_with [x01; x02] in
  let st' := snd (process_turn_body Studio.whisper_down 5 st) in
  fst (process_turn_body Studio.whisper_down 5 st) = Ok tt /\
  processing (sess st') = false /\
  conversation_history (sess st') = [] /\
  reply_events (trace (world st')) = [].
Proof.
  intros st.
  apply (failed_transcription_aborts Studio.whisper_down 5 st "tmp_u1.wav"
           (snd (save_raw_pcm_to_wav Studio.whisper_down (buffer (sess st))
                   (turn_started st)))
           (snd (transcribe_wav Studio.whisper_down "tmp_u1.wav"
                   (buffer_cleared
                      (snd (save_raw_pcm_to_wav Studio.whisper_down
                              (buffer (sess st)) (turn_started st))))))
           (Raise (Exception_ "Transcription failed: 500 overloaded"))).
  - discriminate.
  - vm_compute. reflexivity.
  - vm_compute. reflexivity.
  - left. eexists. reflexivity.
Defined.

(** A transcript of three spaces stops the turn in the same way. *)
Example blank_transcript_aborts :
  let env := Studio.world_of WriteDone (FfmpegExit true)
               (Studio.reply 200 "whisper-blank" [])
               Studio.llm_hi_there Studio.tts_ok in
  let st' := snd (process_turn_body env 5 (Studio.session_with [x01; x02])) in
  processing (sess st') = false /\
  conversation_history (sess st') = [] /\
  trace (world st')
  = [EvFfmpeg "tmp_u0.raw" "tmp_u1.wav"; EvTranscribe "tmp_u1.wav"].
Proof. vm_compute. done. Qed.

(* ===================================================================== *)
(** * Turns whose generation request fails *)
(* ===================================================================== *)

(** The request is refused or never gets through: [generate_reply] raises
    right after the request, having done nothing else. *)
Lemma generate_reply_request_fails env mw st :
  let h := env_llm env (clock (world st)) (conversation_history (sess st)) in
  (exists e, h = HttpError e) \/
  (exists r, h = HttpResponse r /\ status_code r <> 200) ->
  exists e,
    generate_reply env mw st
    = (Raise e, logged (EvGenerate (conversation_history (sess st))) (ticked st)).
Proof.
  intros h Hfail. unfold generate_reply.
  rewrite bind_run, get_sess_run. cbv beta iota.
  rewrite bind_run, tick_run. cbv beta iota.
  rewrite bind_run, emit_run. cbv beta iota.
  rewrite bind_run. fold h.
  destruct Hfail as [[e He] | (r & Hr & Hstatus)].
  - exists e. by rewrite He.
  - exists (Exception_ (status_line "LLM streaming failed: " r)).
    rewrite Hr. simpl.
    apply Z.eqb_neq in Hstatus. by rewrite Hstatus.
Qed.

(** C9.  In every turn that gets a transcript and whose generation request
    fails (transport error, or a status other than 200), the block returns
    with the flag reset; the history has gained the user entry and nothing
    else; the only call to the reply services is the request itself, so
    nothing is synthesized or played; and the turn ends on two prints, the
    error and the apology. *)
Theorem failed_generation_keeps_user_entry :
  forall (env : Env) (mw : Z) (st : St) (wav : string) (st2 st3 : St)
         (txt : string),
    buffer (sess st) <> [] ->
    save_raw_pcm_to_wav env (buffer (sess st)) (turn_started st)
    = (Ok wav, st2) ->
    transcribe_wav env wav (buffer_cleared st2) = (Ok (JStr txt), st3) ->
    strip txt <> "" ->
    let asked := (conversation_history (sess st) ++ [Message user txt])%list in
    (exists e, env_llm env (clock (world st3)) asked = HttpError e) \/
    (exists r, env_llm env (clock (world st3)) asked = HttpResponse r /\
               status_code r <> 200) ->
    let st' := snd (process_turn_body env mw st) in
    fst (process_turn_body env mw st) = Ok tt /\
    processing (sess st') = false /\
    conversation_history (sess st') = asked /\
    reply_events (trace (world st'))
    = (reply_events (trace (world st)) ++ [EvGenerate asked])%list /\
    exists e,
      trace (world st')
      = (trace (world st3)
         ++ [EvPrint ("[" ++ call_sid (sess st) ++ "] Transcribed: " ++ txt);
             EvGenerate asked;
             EvPrint ("LLM streaming error: " ++ exn_str e);
             EvPrint ("[" ++ call_sid (sess st) ++ "] LLM: "
                      ++ str_take 120 apology)])%list.
Proof.
  intros env mw st wav st2 st3 txt Hne Hsave Htr Htxt asked Hfail st'.
  destruct (before_transcript env st wav st2 _ st3 Hsave Htr)
    as (_ & _ & _ & Hhist & Hev).
  subst st'.
  rewrite (process_turn_body_run env mw st wav st2 (JStr txt) _ Hne Hsave
             (transcribe_phase_ok env wav _ _ st3 Htr)).
  unfold after_transcript.
  apply String.eqb_neq in Htxt. rewrite Htxt.
  unfold reply_phase.
  set (line1 := "[" ++ call_sid (sess st) ++ "] Transcribed: " ++ txt).
  rewrite bind_run, print_run. cbv beta iota.
  rewrite bind_run, history_append_run. cbv beta iota.
  set (st5 := with_entry (Message user txt) (logged (EvPrint line1) st3)).
  assert (Hasked : conversation_history (sess st5) = asked).
  { subst st5 asked. simpl. by rewrite Hhist. }
  destruct (generate_reply_request_fails env mw st5) as [e He].
  { rewrite Hasked. exact Hfail. }
  rewrite bind_run. unfold try_. rewrite He, Hasked.
  rewrite bind_run, print_run. cbv beta iota. rewrite ret_run.
  rewrite bind_run, print_run. cbv beta iota.
  rewrite set_processing_run.
  subst st5. simpl.
  repeat split; try done.
  - rewrite !reply_events_app. simpl. rewrite Hev. by rewrite !app_nil_r.
  - exists e. rewrite <- !app_assoc. reflexivity.
Qed.

(** The generation service answers 503. *)
Lemma failed_generation_keeps_user_entry_witness :
  let st := Studio.session_with [x01; x02] in
  let st' := snd (process_turn_body Studio.llm_down 5 st) in
  fst (process_turn_body Studio.llm_down 5 st) = Ok tt /\
  processing (sess st') = false /\
  conversation_history (sess st') = [Message user "hello"] /\
  reply_events (trace (world st')) = [EvGenerate [Message user "hello"]].
Proof.
  intros st.
  destruct (failed_generation_keeps_user_entry Studio.llm_down 5 st
              "tmp_u1.wav"
              (snd (save_raw_pcm_to_wav Studio.llm_down (buffer (sess st))
                      (turn_started st)))
              (snd (transcribe_wav Studio.llm_down "tmp_u1.wav"
                      (buffer_cleared
                         (snd (save_raw_pcm_to_wav Studio.llm_down
                                 (buffer (sess st)) (turn_started st))))))
              "hello")
    as (H1 & H2 & H3 & H4 & _).
  - discriminate.
  - vm_compute. reflexivity.
  - vm_compute. reflexivity.
  - vm_compute. discriminate.
  - right. eexists. split; [vm_compute; reflexivity|]. simpl. lia.
  - exact (conj H1 (conj H2 (conj H3 H4))).
Defined.

(* ===================================================================== *)
(** * Turns whose WAV step raises *)
(* ===================================================================== *)

(** When [save_raw_pcm_to_wav] raises, the exception leaves
    [_process_turn] with the flag still set and the buffer still full:
    the call is outside both [try] statements. *)
Lemma flag_left_set_when_wav_step_raises env mw st e st2 :
  buffer (sess st) <> [] ->
  save_raw_pcm_to_wav env (buffer (sess st)) (turn_started st) = (Raise e, st2) ->
  process_turn_body env mw st = (Raise e, st2) /\
  processing (sess st2) = true /\
  buffer (sess st2) = buffer (sess st).
Proof.
  intros Hne Hsave. split.
  - by apply process_turn_body_save_raises.
  - destruct (quiet_save_raw_pcm_to_wav env (buffer (sess st)) (turn_started st))
      as [Hs _].
    rewrite Hsave in Hs. simpl in Hs. by rewrite Hs.
Qed.

(** C3, on a disk that refuses the temporary raw file.  The turn raises
    [OSError] out of [_process_turn], leaves [processing] set and the
    buffer as it was.  From then on no frame creates a task
    ([feed_while_flag_set]). *)
Theorem flag_stuck_after_wav_failure :
  let st := Studio.session_with [x01; x02] in
  let r := _process_turn Studio.disk_full st in
  fst r = Raise OSError /\
  processing (sess (snd r)) = true /\
  buffer (sess (snd r)) = [x01; x02] /\
  trace (world (snd r)) = [].
Proof. vm_compute. done. Qed.

(* ===================================================================== *)
(** * The temporary WAV file *)
(* ===================================================================== *)

Lemma open_rb_run path st :
  path ∈ files (world st) -> open_rb path st = (Ok tt, st).
Proof.
  intros Hin. unfold open_rb. rewrite bind_run. simpl.
  by destruct (decide (path ∈ files (world st))).
Qed.

Lemma os_remove_run path st :
  path ∈ files (world st) ->
  os_remove path st = set_files (files (world st) ∖ {[path]}) st.
Proof.
  intros Hin. unfold os_remove. rewrite bind_run. simpl.
  by destruct (decide (path ∈ files (world st))).
Qed.

(** When the service answers 200 with a JSON body, [transcribe_wav] removes
    the file before it returns. *)
Lemma transcribe_wav_removes_file_on_success env wav st r j :
  wav ∈ files (world st) ->
  env_whisper env (clock (world st)) = HttpResponse r ->
  status_code r = 200 ->
  env_json_loads env (text r) = Ok j ->
  wav ∉ files (world (snd (transcribe_wav env wav st))).
Proof.
  intros Hin Hr Hst Hj. unfold transcribe_wav.
  rewrite bind_run, (open_rb_run _ _ Hin). cbv beta iota.
  rewrite bind_run, tick_run. cbv beta iota.
  rewrite bind_run, emit_run. cbv beta iota.
  rewrite bind_run, Hr. simpl expect_response. rewrite ret_run. cbv beta iota.
  rewrite Hst, Z.eqb_refl. cbn [negb].
  rewrite bind_run. unfold lift at 1. rewrite Hj. cbv beta iota.
  rewrite bind_run. unfold try_.
  rewrite os_remove_run by exact Hin.
  set (st1 := logged (EvTranscribe wav) (ticked st)).
  change (set_files (files (world st1) ∖ {[wav]}) st1)
    with (Ok tt, snd (set_files (files (world st1) ∖ {[wav]}) st1)).
  cbv beta iota. unfold lift.
  destruct (py_get j "text" (JStr "")); simpl;
    intros [_ Hn]%elem_of_difference; apply Hn; by apply elem_of_singleton.
Qed.

(** When the request fails, or the answer is not a 200, [transcribe_wav]
    raises before it reaches [os.remove]: the file stays. *)
Lemma transcribe_wav_keeps_file_on_failure env wav st :
  wav ∈ files (world st) ->
  (exists e, env_whisper env (clock (world st)) = HttpError e) \/
  (exists r, env_whisper env (clock (world st)) = HttpResponse r /\
             status_code r <> 200) ->
  (exists e, fst (transcribe_wav env wav st) = Raise e) /\
  wav ∈ files (world (snd (transcribe_wav env wav st))).
Proof.
  intros Hin Hfail. unfold transcribe_wav.
  rewrite bind_run, (open_rb_run _ _ Hin). cbv beta iota.
  rewrite bind_run, tick_run. cbv beta iota.
  rewrite bind_run, emit_run. cbv beta iota.
  rewrite bind_run.
  destruct Hfail as [[e He] | (r & Hr & Hst)].
  - rewrite He. simpl. eauto.
  - rewrite Hr. simpl expect_response. rewrite ret_run. cbv beta iota.
    apply Z.eqb_neq in Hst. rewrite Hst. simpl. eauto.
Qed.

(** C7, when the transcription service answers 500.  The turn reaches the
    transcription step, the call fails, and the WAV file written for it is
    still on disk when the turn is over; in the world where the service
    answers 200 the file is gone. *)
Theorem wav_file_left_after_failed_transcription :
  let st := Studio.session_with [x01; x02] in
  let failed := snd (_process_turn Studio.whisper_down st) in
  let passed := snd (_process_turn Studio.calm st) in
  trace (world failed)
  = [EvFfmpeg "tmp_u0.raw" "tmp_u1.wav"; EvTranscribe "tmp_u1.wav";
     EvPrint "Transcription error: Transcription failed: 500 overloaded"] /\
  "tmp_u1.wav" ∈ files (world failed) /\
  "tmp_u1.wav" ∉ files (world passed).
Proof.
  intros st failed passed. split; [vm_compute; reflexivity|]. split.
  - apply (bool_decide_unpack _). vm_compute. exact I.
  - intros Hin. apply (bool_decide_pack _) in Hin. vm_compute in Hin. exact Hin.
Qed.

(* ===================================================================== *)
(** * The streamed reply, chunk by chunk *)
(* ===================================================================== *)

Lemma lift_run {A} (r : res A) (st : St) : lift r st = (r, st).
Proof. reflexivity. Qed.

Section Chunks.

Context (env : Env).

Hint Resolve quiet_uuid4 quiet_write_file quiet_expect_response : quiet.

(** [synthesize_tts] calls the synthesis service once, first thing. *)
Lemma synthesize_tts_events txt st :
  sess (snd (synthesize_tts env txt st)) = sess st /\
  reply_events (trace (world (snd (synthesize_tts env txt st))))
  = (reply_events (trace (world st)) ++ [EvSynthesize txt])%list.
Proof.
  unfold synthesize_tts.
  rewrite bind_run, tick_run. cbv beta iota.
  rewrite bind_run, emit_run. cbv beta iota.
  match goal with
  | |- context [ (?m ≫= ?f) (logged ?e ?s) ] =>
      assert (Hq : quiet (m ≫= f)) by quiet_auto;
      destruct (Hq (logged e s)) as [Hs Ht]
  end.
  rewrite Hs, Ht. simpl. by rewrite reply_events_app.
Qed.

(** [twilio_redirect_play] calls the playback service once. *)
Lemma twilio_redirect_play_events sid url st :
  sess (snd (twilio_redirect_play env sid url st)) = sess st /\
  exists twiml,
    reply_events (trace (world (snd (twilio_redirect_play env sid url st))))
    = (reply_events (trace (world st)) ++ [EvPlay sid twiml])%list.
Proof.
  unfold twilio_redirect_play.
  rewrite bind_run, tick_run. cbv beta iota.
  rewrite bind_run, emit_run. cbv beta iota.
  split.
  - by destruct (env_twilio env _ _ _).
  - eexists. destruct (env_twilio env _ _ _); simpl;
      by rewrite reply_events_app.
Qed.

(** One chunk: whatever the two services do, the guarded block returns,
    leaves the session alone and has called the synthesis once and the
    playback at most once. *)
Lemma chunk_spoken sid txt pre st :
  let run := try_ (synthesize_and_play env sid txt)
                  (fun e => print (pre ++ exn_str e)) st in
  fst run = Ok tt /\
  sess (snd run) = sess st /\
  exists evs,
    spoken sid txt evs /\
    reply_events (trace (world (snd run)))
    = (reply_events (trace (world st)) ++ evs)%list.
Proof.
  unfold try_, synthesize_and_play. rewrite bind_run.
  destruct (synthesize_tts_events txt st) as [Hs Ht].
  destruct (synthesize_tts env txt st) as [[filename|e] st1]; simpl in Hs, Ht.
  - destruct (twilio_redirect_play_events sid (audio_url_of env filename) st1)
      as [Hs2 [twiml Ht2]].
    destruct (twilio_redirect_play env sid (audio_url_of env filename) st1)
      as [[[]|e] st2]; simpl in Hs2, Ht2; simpl.
    + repeat split; [congruence|].
      exists [EvSynthesize txt; EvPlay sid twiml]. split; [right; eauto|].
      rewrite Ht2, Ht, <- app_assoc. reflexivity.
    + repeat split; [congruence|].
      exists [EvSynthesize txt; EvPlay sid twiml]. split; [right; eauto|].
      rewrite reply_events_app, Ht2, Ht. simpl.
      rewrite ?app_nil_r, <- ?app_assoc. reflexivity.
  - simpl. repeat split; [congruence|].
    exists [EvSynthesize txt]. split; [by left|].
    rewrite reply_events_app, Ht. simpl. by rewrite ?app_nil_r.
Qed.

(** A line that carries text, below the word threshold: both accumulators
    grow and the loop goes on. *)
Lemma stream_loop_below sid mw broken line rest resp part d st :
  carries env line d -> d <> "" ->
  Z.of_nat (length (split (part ++ d))) < mw ->
  stream_loop env sid mw broken (line :: rest) resp part st
  = stream_loop env sid mw broken rest (resp ++ d) (part ++ d) st.
Proof.
  intros (Hdata & Hdone & Hblank & j & Hj & Hd) Hne Hlt.
  cbn [stream_loop]. rewrite Hdata, Hdone, Hblank. cbn [negb].
  rewrite bind_run, lift_run, Hj. cbv beta iota.
  rewrite bind_run, lift_run, Hd. cbv beta iota.
  apply String.eqb_neq in Hne. cbn [truthy]. rewrite Hne. cbn [negb].
  rewrite bind_run, lift_run. cbn [py_concat]. cbv beta iota.
  rewrite bind_run, lift_run. cbv beta iota.
  apply Z.leb_gt in Hlt. by rewrite Hlt.
Qed.

(** A line that carries text and brings the pending text to the word
    threshold: the chunk is spoken and the pending text starts again. *)
Lemma stream_loop_reached sid mw broken line rest resp part d st :
  carries env line d -> d <> "" ->
  mw <= Z.of_nat (length (split (part ++ d))) ->
  stream_loop env sid mw broken (line :: rest) resp part st
  = stream_loop env sid mw broken rest (resp ++ d) ""
      (snd (try_ (synthesize_and_play env sid (part ++ d))
                 (fun e => print ("Partial TTS/play error: " ++ exn_str e))
                 st)).
Proof.
  intros (Hdata & Hdone & Hblank & j & Hj & Hd) Hne Hle.
  cbn [stream_loop]. rewrite Hdata, Hdone, Hblank. cbn [negb].
  rewrite bind_run, lift_run, Hj. cbv beta iota.
  rewrite bind_run, lift_run, Hd. cbv beta iota.
  apply String.eqb_neq in Hne. cbn [truthy]. rewrite Hne. cbn [negb].
  rewrite bind_run, lift_run. cbn [py_concat]. cbv beta iota.
  rewrite bind_run, lift_run. cbv beta iota.
  apply Z.leb_le in Hle. rewrite Hle.
  rewrite bind_run.
  destruct (chunk_spoken sid (part ++ d) "Partial TTS/play error: " st)
    as (Hok & _).
  cbv zeta in Hok.
  destruct (try_ _ _ st) as [[[]|e] st1]; simpl in Hok; [done|discriminate].
Qed.

End Chunks.

Lemma str_app_nil_r (s : string) : s ++ "" = s.
Proof.
  induction s as [|c s IH]; [done|].
  change (String c (s ++ "") = String c s). by rewrite IH.
Qed.

Lemma str_app_assoc (s1 s2 s3 : string) : (s1 ++ s2) ++ s3 = s1 ++ (s2 ++ s3).
Proof.
  induction s1 as [|c s1 IH]; [done|].
  change (String c ((s1 ++ s2) ++ s3) = String c (s1 ++ (s2 ++ s3))).
  by rewrite IH.
Qed.

Section Streams.

Context (env : Env).

Lemma stream_loop_skip sid mw broken line rest resp part st :
  skipped env line ->
  stream_loop env sid mw broken (line :: rest) resp part st
  = stream_loop env sid mw broken rest resp part st.
Proof.
  intros [Hdata | (Hdata & Hdone & [Hblank | (j & v & Hj & Hv & Hfalse)])];
    cbn [stream_loop]; rewrite Hdata; [done| |].
  - rewrite Hdone, Hblank. done.
  - rewrite Hdone.
    destruct (String.eqb (strip (str_drop 6 line)) ""); cbn [negb]; [done|].
    rewrite bind_run, lift_run, Hj. cbv beta iota.
    rewrite bind_run, lift_run, Hv. cbv beta iota.
    by rewrite Hfalse.
Qed.

Lemma stream_loop_done sid mw broken line rest resp part st :
  done_line line ->
  stream_loop env sid mw broken (line :: rest) resp part st
  = (Ok (resp, part), st).
Proof.
  intros [Hdata Hdone]. cbn [stream_loop]. by rewrite Hdata, Hdone.
Qed.

(** The loop against its chunking: on a stream that delivers [ds] and does
    not break, the loop returns the whole reply and the pending text that
    [chunking] computes, has left the session alone, and has spoken the
    chunks of [chunking], in order. *)
Lemma stream_loop_yields sid mw ls ds :
  yields env ls ds ->
  forall resp part st,
  exists st',
    stream_loop env sid mw None ls resp part st
    = (Ok (resp ++ concat_str ds, snd (chunking mw part ds)), st') /\
    sess st' = sess st /\
    exists evs,
      all_spoken sid (fst (chunking mw part ds)) evs /\
      reply_events (trace (world st'))
      = (reply_events (trace (world st)) ++ evs)%list.
Proof.
  induction 1 as [| line rest Hdone | line rest ds Hskip _ IH
                  | line rest d ds Hcar Hne _ IH ];
    intros resp part st.
  - exists st. cbn [stream_loop concat_str chunking fst snd].
    rewrite str_app_nil_r, ret_run. repeat split.
    exists []. by rewrite app_nil_r.
  - exists st. rewrite stream_loop_done by done.
    cbn [concat_str chunking fst snd].
    rewrite str_app_nil_r. repeat split.
    exists []. by rewrite app_nil_r.
  - rewrite stream_loop_skip by done. apply IH.
  - cbn [chunking concat_str].
    destruct (Z.leb_spec mw (Z.of_nat (length (split (part ++ d)))))
      as [Hle | Hlt].
    + rewrite (stream_loop_reached env sid mw None line rest resp part d st)
        by done.
      destruct (chunk_spoken env sid (part ++ d) "Partial TTS/play error: " st)
        as (_ & Hs1 & e1 & Hsp & He1).
      cbv zeta in Hs1, He1.
      set (st1 := snd (try_ _ _ st)) in *.
      destruct (IH (resp ++ d) "" st1) as (st' & Hrun & Hs' & e2 & Hall & He2).
      exists st'. rewrite Hrun, str_app_assoc. cbn [fst snd].
      repeat split; [congruence|].
      exists (e1 ++ e2)%list. split.
      * exists e1, e2. done.
      * rewrite He2, He1, <- app_assoc. reflexivity.
    + rewrite (stream_loop_below env sid mw None line rest resp part d st)
        by done.
      destruct (IH (resp ++ d) (part ++ d) st)
        as (st' & Hrun & Hs' & e2 & Hall & He2).
      exists st'. rewrite Hrun, str_app_assoc. repeat split; [done|].
      exists e2. done.
Qed.

End Streams.

Lemma all_spoken_app sid a b e1 e2 :
  all_spoken sid a e1 -> all_spoken sid b e2 ->
  all_spoken sid (a ++ b) (e1 ++ e2).
Proof.
  revert e1. induction a as [|txt a IH]; intros e1 Ha Hb; simpl in *.
  - by subst e1.
  - destruct Ha as (x & y & Hx & Hy & ->).
    exists x, (y ++ e2)%list. repeat split; [done|by apply IH|].
    by rewrite app_assoc.
Qed.

(** The texts synthesized are those of the calls to the reply services. *)
Lemma synth_texts_reply_events t :
  synth_texts (reply_events t) = synth_texts t.
Proof.
  induction t as [|e t IH]; [done|].
  destruct e; simpl; by rewrite ?IH.
Qed.

Lemma synth_texts_spoken sid txt evs :
  spoken sid txt evs -> synth_texts evs = [txt].
Proof. by intros [-> | [twiml ->]]. Qed.

Section Reply.

Context (env : Env).

(** The second [try] when the request is accepted and the stream delivers
    [ds]: the reply is the concatenation of the deltas, the assistant entry
    carries it, and the chunks spoken are those of [reply_chunks]. *)
Lemma generate_reply_streams mw st r ds :
  env_llm env (clock (world st)) (conversation_history (sess st))
  = HttpResponse r ->
  status_code r = 200 ->
  stream_error r = None ->
  yields env (lines r) ds ->
  exists st',
    generate_reply env mw st = (Ok (concat_str ds), st') /\
    conversation_history (sess st')
    = (conversation_history (sess st) ++ [Message assistant (concat_str ds)])%list /\
    buffer (sess st') = buffer (sess st) /\
    exists evs,
      all_spoken (call_sid (sess st)) (reply_chunks mw ds) evs /\
      reply_events (trace (world st'))
      = (reply_events (trace (world st))
         ++ EvGenerate (conversation_history (sess st)) :: evs)%list.
Proof.
  intros Hr Hst Herr Hy. unfold generate_reply.
  rewrite bind_run, get_sess_run. cbv beta iota.
  rewrite bind_run, tick_run. cbv beta iota.
  rewrite bind_run, emit_run. cbv beta iota.
  rewrite bind_run, Hr. simpl expect_response. rewrite ret_run. cbv beta iota.
  rewrite Hst, Z.eqb_refl. cbn [negb]. rewrite Herr.
  set (st1 := logged (EvGenerate (conversation_history (sess st))) (ticked st)).
  destruct (stream_loop_yields env (call_sid (sess st)) mw (lines r) ds Hy
              "" "" st1) as (st2 & Hrun & Hs2 & e1 & Hall1 & He1).
  rewrite bind_run, Hrun. cbv beta iota. cbn [fst snd].
  change ("" ++ concat_str ds) with (concat_str ds).
  assert (Hst1 : reply_events (trace (world st1))
                 = (reply_events (trace (world st))
                    ++ [EvGenerate (conversation_history (sess st))])%list).
  { subst st1. simpl. by rewrite reply_events_app. }
  unfold reply_chunks. rewrite bind_run.
  destruct (String.eqb (strip (snd (chunking mw "" ds))) "") eqn:Hfin;
    cbn [negb].
  - rewrite ret_run. cbv beta iota.
    rewrite bind_run, history_append_run. cbv beta iota. rewrite ret_run.
    eexists. split; [reflexivity|]. simpl. rewrite Hs2.
    split; [done|]. split; [done|].
    exists e1. rewrite app_nil_r. split; [done|].
    rewrite He1, Hst1, <- app_assoc. reflexivity.
  - destruct (chunk_spoken env (call_sid (sess st)) (snd (chunking mw "" ds))
                "Final TTS/play error: " st2) as (Hok & Hs3 & e2 & Hsp & He2).
    cbv zeta in Hok, Hs3, He2.
    destruct (try_ _ _ st2) as [[[]|e] st3]; simpl in Hok, Hs3, He2;
      [|discriminate].
    cbv beta iota.
    rewrite bind_run, history_append_run. cbv beta iota. rewrite ret_run.
    eexists. split; [reflexivity|]. simpl. rewrite Hs3, Hs2.
    split; [done|]. split; [done|].
    exists (e1 ++ e2)%list. split.
    + apply all_spoken_app; [done|]. exists e2, []. by rewrite app_nil_r.
    + rewrite He2, He1, Hst1, <- !app_assoc. reflexivity.
Qed.

(** A whole turn whose transcription gives [txt] and whose reply is
    streamed as [ds]. *)
Lemma turn_speaks_reply mw st wav st2 st3 txt r ds :
  buffer (sess st) <> [] ->
  save_raw_pcm_to_wav env (buffer (sess st)) (turn_started st) = (Ok wav, st2) ->
  transcribe_wav env wav (buffer_cleared st2) = (Ok (JStr txt), st3) ->
  strip txt <> "" ->
  let asked := (conversation_history (sess st) ++ [Message user txt])%list in
  env_llm env (clock (world st3)) asked = HttpResponse r ->
  status_code r = 200 ->
  stream_error r = None ->
  yields env (lines r) ds ->
  let st' := snd (process_turn_body env mw st) in
  fst (process_turn_body env mw st) = Ok tt /\
  processing (sess st') = false /\
  buffer (sess st') = [] /\
  conversation_history (sess st')
  = (conversation_history (sess st)
     ++ [Message user txt; Message assistant (concat_str ds)])%list /\
  exists evs,
    all_spoken (call_sid (sess st)) (reply_chunks mw ds) evs /\
    reply_events (trace (world st'))
    = (reply_events (trace (world st)) ++ EvGenerate asked :: evs)%list.
Proof.
  intros Hne Hsave Htr Htxt asked Hr Hst Herr Hy st'.
  destruct (before_transcript env st wav st2 _ st3 Hsave Htr)
    as (Hsid & Hbuf & _ & Hhist & Hev).
  subst st'.
  rewrite (process_turn_body_run env mw st wav st2 (JStr txt) _ Hne Hsave
             (transcribe_phase_ok env wav _ _ st3 Htr)).
  unfold after_transcript.
  apply String.eqb_neq in Htxt. rewrite Htxt.
  unfold reply_phase.
  set (line1 := "[" ++ call_sid (sess st) ++ "] Transcribed: " ++ txt).
  rewrite bind_run, print_run. cbv beta iota.
  rewrite bind_run, history_append_run. cbv beta iota.
  set (st5 := with_entry (Message user txt) (logged (EvPrint line1) st3)).
  assert (Hasked : conversation_history (sess st5) = asked).
  { subst st5 asked. simpl. by rewrite Hhist. }
  assert (Hsid5 : call_sid (sess st5) = call_sid (sess st)) by done.
  assert (Hbuf5 : buffer (sess st5) = []) by done.
  assert (Hev5 : reply_events (trace (world st5))
                 = reply_events (trace (world st))).
  { subst st5. simpl. rewrite reply_events_app. simpl.
    by rewrite app_nil_r. }
  destruct (generate_reply_streams mw st5 r ds)
    as (st6 & Hrun & Hh6 & Hb6 & evs & Hall & He6); try done.
  { by rewrite Hasked. }
  rewrite bind_run. unfold try_. rewrite Hrun. cbv beta iota.
  rewrite bind_run, print_run. cbv beta iota.
  rewrite set_processing_run. simpl.
  repeat split; try done.
  - by rewrite Hb6.
  - rewrite Hh6, Hasked. subst asked. by rewrite <- app_assoc.
  - exists evs. rewrite Hsid5 in Hall. split; [done|].
    rewrite reply_events_app. simpl. rewrite app_nil_r.
    by rewrite He6, Hev5, Hasked.
Qed.

End Reply.

(* ===================================================================== *)
(** * The reply "Hi", " there", "!" *)
(* ===================================================================== *)

(** The chunks of the reply "Hi", " there", "!" at the five words of the
    source, and what a loop that cut at two words would give. *)
Example chunks_at_five :
  reply_chunks min_words_per_chunk ["Hi"; " there"; "!"] = ["Hi there!"].
Proof. reflexivity. Qed.

Example chunks_at_two :
  reply_chunks 2 ["Hi"; " there"; "!"] = ["Hi there"; "!"].
Proof. reflexivity. Qed.

Section OneCall.

Context (env : Env).



End OneCall.




(** The calls of that turn in the world [Studio.calm], where the synthesis
    returns: the request, the synthesis of "Hi there!" and the playback of
    the file just written. *)
Example hi_there_calls :
  let st' := snd (_process_turn Studio.calm (Studio.session_with [x01; x02])) in
  reply_events (trace (world st'))
  = [EvGenerate [Message user "hello"];
     EvSynthesize "Hi there!";
     EvPlay "CA1"
       "<Response><Play>https://voice.example/audio/u7.mp3</Play></Response>"].
Proof. vm_compute. reflexivity. Qed.

(* ===================================================================== *)
(** * Media frames *)
(* ===================================================================== *)

Section Frames.

Context (env : Env).

(** A media message adds its audio to the buffer, and creates a task when
    the buffer has reached 25600 bytes and no turn is marked as running. *)
Lemma on_message_media raw_text pcm st :
  media_frame env raw_text pcm ->
  exists st1,
    buffered pcm st st1 /\
    on_message env raw_text st
    = if (25600 <=? Z.of_nat (length (buffer (sess st) ++ pcm)))
         && negb (processing (sess st))
      then create_task st1 else (Ok tt, st1).
Proof.
  intros (msg & ev & media & payload & Hmsg & Hev & Hmedia & Hm & Hp & Hdec).
  unfold on_message.
  rewrite bind_run, lift_run, Hmsg. cbv beta iota.
  rewrite bind_run, lift_run, Hev. cbv beta iota. rewrite Hmedia.
  rewrite bind_run, lift_run, Hm. cbv beta iota.
  rewrite bind_run, lift_run, Hp. cbv beta iota.
  rewrite bind_run, lift_run. cbn [decode_payload]. rewrite Hdec.
  cbv beta iota.
  rewrite bind_run, get_sess_run. cbv beta iota.
  rewrite bind_run.
  set (st0 := snd (set_buffer (append_pcm_to_buffer (buffer (sess st)) pcm) st)).
  change (set_buffer (append_pcm_to_buffer (buffer (sess st)) pcm) st)
    with (Ok tt, st0).
  cbv beta iota.
  destruct (is_speech_present_at_total (env_vad env) pcm
              Vad.default_sample_rate Vad.default_frame_ms) as [b Hb].
  fold (Vad.is_speech_present (env_vad env) pcm) in Hb.
  rewrite bind_run, lift_run, Hb. cbv beta iota.
  rewrite bind_run.
  destruct b.
  - rewrite bind_run, tick_run. cbv beta iota.
    set (st1 := snd (set_last_voice_ts (env_time env (clock (world st0)))
                       (ticked st0))).
    change (set_last_voice_ts (env_time env (clock (world st0))) (ticked st0))
      with (Ok tt, st1).
    cbv beta iota. rewrite bind_run, get_sess_run. cbv beta iota.
    exists st1. split; [done|].
    rewrite chunk_threshold_bytes.
    change (buffer (sess st1)) with (buffer (sess st) ++ pcm)%list.
    change (processing (sess st1)) with (processing (sess st)).
    destruct (25600 <=? _); [|done].
    by destruct (processing (sess st)).
  - rewrite ret_run. cbv beta iota. rewrite bind_run, get_sess_run.
    cbv beta iota.
    exists st0. split; [done|].
    rewrite chunk_threshold_bytes.
    change (buffer (sess st0)) with (buffer (sess st) ++ pcm)%list.
    change (processing (sess st0)) with (processing (sess st)).
    destruct (25600 <=? _); [|done].
    by destruct (processing (sess st)).
Qed.

(** A media message whose payload decodes is a media frame. *)
Lemma media_payload_frame raw_text payload_b64 pcm :
  media_payload env raw_text payload_b64 ->
  decode_twilio_media_frame payload_b64 = Ok pcm ->
  media_frame env raw_text pcm.
Proof.
  intros (msg & ev & media & Hmsg & Hev & Hmedia & Hm & Hp) Hdec.
  by exists msg, ev, media, payload_b64.
Qed.

(** A media message whose payload the decoder rejects: the error leaves
    [on_message] before anything is touched. *)
Lemma on_message_undecodable raw_text payload_b64 e st :
  media_payload env raw_text payload_b64 ->
  decode_twilio_media_frame payload_b64 = Raise e ->
  on_message env raw_text st = (Raise e, st).
Proof.
  intros (msg & ev & media & Hmsg & Hev & Hmedia & Hm & Hp) Hdec.
  unfold on_message.
  rewrite bind_run, lift_run, Hmsg. cbv beta iota.
  rewrite bind_run, lift_run, Hev. cbv beta iota. rewrite Hmedia.
  rewrite bind_run, lift_run, Hm. cbv beta iota.
  rewrite bind_run, lift_run, Hp. cbv beta iota.
  rewrite bind_run, lift_run. cbn [decode_payload]. by rewrite Hdec.
Qed.

End Frames.

(* ===================================================================== *)
(** * A malformed frame *)
(* ===================================================================== *)

Lemma a2b_loop_raises s quad_pos leftchar pads out e :
  Base64.a2b_loop s quad_pos leftchar pads out = Raise e ->
  exists msg, e = binascii_Error msg.
Proof.
  revert quad_pos leftchar pads out.
  induction s as [|c s IH]; intros quad_pos leftchar pads out; cbn [Base64.a2b_loop].
  - destruct (quad_pos =? 0); [discriminate|].
    destruct (quad_pos =? 1); intros [= <-]; eauto.
  - destruct (Ascii.eqb c "="%char).
    + destruct ((2 <=? quad_pos) && (4 <=? quad_pos + (pads + 1)));
        [discriminate | apply IH].
    + destruct (Base64.sextet c); [|apply IH].
      destruct (quad_pos =? 0); [apply IH|].
      destruct (quad_pos =? 1); [apply IH|].
      destruct (quad_pos =? 2); apply IH.
Qed.

(** The two ways [decode_twilio_media_frame] fails. *)
Lemma decode_error_kind payload_b64 e :
  decode_twilio_media_frame payload_b64 = Raise e ->
  (exists msg, e = binascii_Error msg) \/
  e = ValueError "string argument should contain only ASCII characters".
Proof.
  unfold decode_twilio_media_frame, Base64.b64decode.
  destruct (Base64.all_ascii payload_b64).
  - intros H. left. by eapply a2b_loop_raises.
  - intros [= <-]. by right.
Qed.

Section Handler.

Context (env : Env).

(** The created tasks keep what they raise. *)
Lemma run_tasks_returns n st :
  fst (run_tasks env n st) = Ok tt.
Proof.
  revert st. induction n as [|n IH]; intros st; [done|].
  cbn [run_tasks]. rewrite bind_run. unfold try_.
  destruct (_process_turn env st) as [[[]|e] st1]; cbv beta iota.
  - apply IH.
  - rewrite ret_run. cbv beta iota. apply IH.
Qed.

(** With a message in the inbox, [receive_text] returns it. *)
Lemma receive_text_returns data rest st :
  fst (receive_text env (data :: rest) st) = Ok (data, rest).
Proof.
  unfold receive_text.
  rewrite bind_run, tick_run. cbv beta iota. rewrite bind_run.
  destruct (env_yield env (clock (world st))).
  - unfold run_pending. rewrite bind_run. cbn [get_world]. cbv beta iota.
    rewrite bind_run.
    set (st1 := snd (set_pending 0 (ticked st))).
    change (set_pending 0 (ticked st)) with (Ok tt, st1). cbv beta iota.
    pose proof (run_tasks_returns (pending (world (ticked st))) st1) as Hrun.
    destruct (run_tasks env _ st1) as [[[]|e] st2]; simpl in Hrun;
      [done|discriminate].
  - by rewrite ret_run.
Qed.

End Handler.

(** The frame is not dropped.  With a malformed frame first, the handler
    ends before the audio that follows is read: nothing is transcribed and
    the history stays empty.  Without the malformed frame the same audio is
    transcribed and answered. *)
Lemma malformed_frame_is_not_dropped :
  let torn :=
    snd (media_ws Studio.calm 0 "CA1" ["frame-bad"; "frame-abc"]
           Studio.empty_world) in
  let dropped :=
    snd (media_ws Studio.calm 0 "CA1" ["frame-abc"] Studio.empty_world) in
  trace (world torn)
  = [EvPrint "WS error: Incorrect padding";
     EvPrint "Session CA1 disconnected."] /\
  conversation_history (sess torn) = [] /\
  conversation_history (sess dropped)
  = [Message user "hello"; Message assistant "Hi there!"] /\
  torn <> dropped.
Proof.
  vm_compute. repeat split; try reflexivity.
  intros H. discriminate H.
Qed.

(* ===================================================================== *)
(** * The buffer during a turn *)
(* ===================================================================== *)

Lemma keeps_ret {A} (a : A) : keeps_buffer (mret a).
Proof. by intros st. Qed.

Lemma keeps_raise {A} e : keeps_buffer (@raise A e).
Proof. by intros st. Qed.

Lemma keeps_lift {A} (r : res A) : keeps_buffer (lift r).
Proof. by intros st. Qed.

Lemma keeps_get_sess : keeps_buffer get_sess.
Proof. by intros st. Qed.

Lemma keeps_get_world : keeps_buffer get_world.
Proof. by intros st. Qed.

Lemma keeps_tick : keeps_buffer tick.
Proof. by intros st. Qed.

Lemma keeps_emit e : keeps_buffer (emit e).
Proof. by intros st. Qed.

Lemma keeps_print line : keeps_buffer (print line).
Proof. by intros st. Qed.

Lemma keeps_set_processing b : keeps_buffer (set_processing b).
Proof. by intros st. Qed.

Lemma keeps_history_append m : keeps_buffer (history_append m).
Proof. by intros st. Qed.

Lemma keeps_bind {A B} (m : M A) (f : A -> M B) :
  keeps_buffer m -> (forall a, keeps_buffer (f a)) -> keeps_buffer (m ≫= f).
Proof.
  intros Hm Hf st. rewrite bind_run.
  pose proof (Hm st) as Hs. destruct (m st) as [[a|e] st']; simpl in *.
  - by rewrite Hf.
  - done.
Qed.

Lemma keeps_try {A} (m : M A) (h : exn -> M A) :
  keeps_buffer m -> (forall e, keeps_buffer (h e)) -> keeps_buffer (try_ m h).
Proof.
  intros Hm Hh st. unfold try_.
  pose proof (Hm st) as Hs. destruct (m st) as [[a|e] st']; simpl in *.
  - done.
  - by rewrite Hh.
Qed.

#[local] Hint Resolve keeps_ret keeps_raise keeps_lift keeps_get_sess
  keeps_get_world keeps_tick keeps_emit keeps_print keeps_set_processing
  keeps_history_append : keeps.

Ltac keeps_step :=
  first
    [ solve [auto with keeps]
    | apply keeps_try; [|intros ?]
    | apply keeps_bind; [|intros ?]
    | match goal with
      | |- keeps_buffer (match ?x with _ => _ end) => destruct x
      | |- keeps_buffer (if ?x then _ else _) => destruct x
      end ].

Ltac keeps_auto := repeat keeps_step.

Section Buffer.

Context (env : Env).

Lemma keeps_synthesize_and_play sid txt :
  keeps_buffer (synthesize_and_play env sid txt).
Proof.
  intros st. unfold synthesize_and_play. rewrite bind_run.
  destruct (synthesize_tts_events env txt st) as [Hs _].
  destruct (synthesize_tts env txt st) as [[filename|e] st1]; simpl in Hs.
  - destruct (twilio_redirect_play_events env sid (audio_url_of env filename) st1)
      as [Hs2 _].
    by rewrite Hs2, Hs.
  - simpl. by rewrite Hs.
Qed.

Hint Resolve keeps_synthesize_and_play : keeps.

Lemma keeps_stream_loop sid mw broken ls :
  forall resp part, keeps_buffer (stream_loop env sid mw broken ls resp part).
Proof.
  induction ls as [|line rest IH]; intros resp part; cbn [stream_loop].
  - keeps_auto.
  - destruct (startswith "data: " line); [|apply IH].
    destruct (String.eqb (strip (str_drop 6 line)) "[DONE]");
      [keeps_auto|].
    destruct (negb (String.eqb (strip (str_drop 6 line)) "")); [|apply IH].
    apply keeps_bind; [keeps_auto|]. intros data_json.
    apply keeps_bind; [keeps_auto|]. intros delta.
    destruct (truthy delta); [|apply IH].
    apply keeps_bind; [keeps_auto|]. intros resp'.
    apply keeps_bind; [keeps_auto|]. intros part'.
    destruct (mw <=? Z.of_nat (length (split part'))); [|apply IH].
    apply keeps_bind; [keeps_auto|]. intros _. apply IH.
Qed.

Hint Resolve keeps_stream_loop : keeps.

Lemma keeps_expect_response h : keeps_buffer (expect_response h).
Proof. unfold expect_response. keeps_auto. Qed.

Hint Resolve keeps_expect_response : keeps.

Lemma keeps_generate_reply mw : keeps_buffer (generate_reply env mw).
Proof. unfold generate_reply. keeps_auto. Qed.

Hint Resolve keeps_generate_reply : keeps.

Lemma keeps_after_transcript sid mw tr :
  keeps_buffer (after_transcript env sid mw tr).
Proof. unfold after_transcript, reply_phase. keeps_auto. Qed.

(** The first [try] always hands a transcript on. *)
Lemma transcribe_phase_returns wav st :
  exists tr, fst (transcribe_phase env wav st) = Ok tr.
Proof.
  unfold transcribe_phase, try_.
  destruct (transcribe_wav env wav st) as [[tr|e] st1]; simpl; eauto.
Qed.


End Buffer.

(* ===================================================================== *)
(** * The size trigger *)
(* ===================================================================== *)

Section Trigger.

Context (env : Env).



(** The frame that takes the buffer to 25600 bytes or more creates one
    task, provided no turn is marked as running. *)
Lemma on_message_triggers raw pcm st :
  media_frame env raw pcm ->
  25600 <= Z.of_nat (length (buffer (sess st) ++ pcm)) ->
  processing (sess st) = false ->
  exists st',
    on_message env raw st = (Ok tt, st') /\
    buffer (sess st') = (buffer (sess st) ++ pcm)%list /\
    processing (sess st') = false /\
    trace (world st') = (trace (world st) ++ [EvCreateTask])%list /\
    pending (world st') = S (pending (world st)).
Proof.
  intros Hframe Hlen Hproc.
  destruct (on_message_media env raw pcm st Hframe) as (st1 & Hb & Hrun).
  destruct Hb as (_ & Hbuf & Hproc1 & _ & _ & Htrace & Hpend).
  apply Z.leb_le in Hlen. rewrite Hlen, Hproc in Hrun. cbn [andb negb] in Hrun.
  eexists. split; [exact Hrun|]. simpl.
  rewrite Hbuf, Hproc1, Hproc, Htrace, Hpend. done.
Qed.

End Trigger.

(** While the flag is set, media frames only fill the buffer: no task is
    created, however much audio has come. *)
Lemma feed_while_flag_set env raws pcms :
  Forall2 (media_frame env) raws pcms ->
  forall st,
    processing (sess st) = true ->
    exists st', feed env raws st = (Ok tt, st') /\ buffered (concat pcms) st st'.
Proof.
  induction 1 as [|raw pcm raws pcms Hframe _ IH]; intros st Hflag.
  - exists st. split; [done|]. unfold buffered. simpl.
    by rewrite app_nil_r.
  - destruct (on_message_media env raw pcm st Hframe) as (st1 & Hb & Hrun).
    destruct Hb as (Hsid & Hbuf & Hproc & Hhist & Hfiles & Htrace & Hpend).
    rewrite Hflag, andb_false_r in Hrun.
    destruct (IH st1) as (st' & Hfeed & Hb').
    { by rewrite Hproc. }
    destruct Hb' as (Hsid' & Hbuf' & Hproc' & Hhist' & Hfiles' & Htrace' & Hpend').
    exists st'. cbn [feed]. rewrite bind_run, Hrun. split; [exact Hfeed|].
    unfold buffered. cbn [concat]. rewrite Hsid', Hbuf', Hproc', Hhist',
      Hfiles', Htrace', Hpend', Hbuf, app_assoc. done.
Qed.


Lemma run_returned {A} (r : res A * St) (a : A) :
  fst r = Ok a -> r = (Ok a, snd r).
Proof. destruct r as [x st]. simpl. by intros ->. Qed.








(* ===================================================================== *)
(** * The loop of the handler below the threshold *)
(* ===================================================================== *)

Section Loop.

Context (env : Env).

(** With no task waiting, a wait changes nothing but the clock. *)
Lemma receive_text_idle inbox st :
  pending (world st) = 0%nat ->
  buffered [] st (snd (receive_text env inbox st)) /\
  fst (receive_text env inbox st)
  = match inbox with
    | [] => Raise WebSocketDisconnect
    | data :: rest => Ok (data, rest)
    end.
Proof.
  intros Hidle. unfold receive_text.
  rewrite bind_run, tick_run. cbv beta iota. rewrite bind_run.
  assert (Hb : buffered [] st (ticked st)).
  { unfold buffered. simpl. by rewrite app_nil_r. }
  destruct (env_yield env (clock (world st))).
  - unfold run_pending. rewrite bind_run. cbn [get_world]. cbv beta iota.
    rewrite bind_run.
    change (pending (world (ticked st))) with (pending (world st)).
    rewrite Hidle. cbn [run_tasks].
    set (st1 := snd (set_pending 0 (ticked st))).
    change (set_pending 0 (ticked st)) with (Ok tt, st1).
    cbv beta iota. rewrite ret_run. cbv beta iota.
    assert (Hb1 : buffered [] st st1).
    { unfold buffered. simpl. by rewrite app_nil_r, Hidle. }
    destruct inbox; simpl; done.
  - rewrite ret_run. cbv beta iota. destruct inbox; simpl; done.
Qed.

(** The loop of [media_ws] on frames that leave the buffer under 25600
    bytes, from a state with no task waiting: the frames fill the buffer,
    nothing is added to the trace, no task is created, and the loop ends on
    the disconnection. *)
Lemma receive_loop_below raws pcms :
  Forall2 (media_frame env) raws pcms ->
  forall st,
    pending (world st) = 0%nat ->
    Z.of_nat (length (buffer (sess st) ++ concat pcms)) < 25600 ->
    fst (receive_loop env raws st) = Raise WebSocketDisconnect /\
    buffered (concat pcms) st (snd (receive_loop env raws st)).
Proof.
  induction 1 as [|raw pcm raws pcms Hframe _ IH]; intros st Hidle Hlen.
  - cbn [receive_loop]. rewrite bind_run.
    destruct (receive_text_idle [] st Hidle) as [Hb Hr].
    destruct (receive_text env [] st) as [r st1]. simpl in Hb, Hr. subst r.
    done.
  - cbn [receive_loop]. rewrite bind_run.
    destruct (receive_text_idle (raw :: raws) st Hidle) as [Hb Hr].
    destruct (receive_text env (raw :: raws) st) as [r st1].
    simpl in Hb, Hr. subst r. cbv beta iota.
    destruct Hb as (Hsid0 & Hbuf0 & Hproc0 & Hhist0 & Hfiles0 & Htrace0 & Hpend0).
    rewrite app_nil_r in Hbuf0.
    cbn [concat] in Hlen |- *. rewrite app_assoc in Hlen.
    destruct (on_message_media env raw pcm st1 Hframe) as (st2 & Hb & Hrun).
    destruct Hb as (Hsid & Hbuf & Hproc & Hhist & Hfiles & Htrace & Hpend).
    assert (Hsmall : (25600 <=? Z.of_nat (length (buffer (sess st1) ++ pcm)))
                     = false).
    { apply Z.leb_gt. rewrite Hbuf0. rewrite length_app in Hlen. lia. }
    rewrite Hsmall in Hrun. cbn [andb] in Hrun.
    rewrite bind_run, Hrun. cbv beta iota.
    destruct (IH st2) as (Hraise & Hb').
    { by rewrite Hpend, Hpend0. }
    { by rewrite Hbuf, Hbuf0. }
    split; [exact Hraise|].
    destruct Hb' as (Hsid' & Hbuf' & Hproc' & Hhist' & Hfiles' & Htrace' & Hpend').
    unfold buffered. rewrite Hsid', Hbuf', Hproc', Hhist', Hfiles', Htrace',
      Hpend', Hsid, Hbuf, Hproc, Hhist, Hfiles, Htrace, Hpend,
      Hsid0, Hbuf0, Hproc0, Hhist0, Hfiles0, Htrace0, Hpend0, app_assoc.
    done.
Qed.

End Loop.

(** A short call: one frame of three bytes, then the stop event, then the
    peer hangs up.  The stop event runs the turn; the disconnection finds
    an empty buffer. *)
Example short_call :
  let st' :=
    snd (media_ws Studio.calm 0 "CA1" ["frame-abc"; "stop"] Studio.empty_world) in
  conversation_history (sess st')
  = [Message user "hello"; Message assistant "Hi there!"] /\
  synth_texts (trace (world st')) = ["Hi there!"] /\
  buffer (sess st') = [] /\
  processing (sess st') = false.
Proof. vm_compute. done. Qed.

(* ===================================================================== *)
(** * Further properties: the voice-activity test *)
(* ===================================================================== *)

(** X1.  [is_speech_present] reports speech exactly when the input holds at
    least one 480-byte frame and the classifier returns [True] on the first
    480 bytes at 8000 Hz: the rest of the input is never looked at, and a
    classifier that raises counts as silence. *)
Theorem speech_is_first_frame_verdict :
  forall (vad : Vad.classifier) (pcm : bytes),
    Vad.is_speech_present vad pcm = Ok true <->
    (480 <= Z.of_nat (length pcm) /\ vad (take 480 pcm) 8000 = Ok true).
Proof.
  intros vad pcm. rewrite is_speech_present_unfold.
  change (slice_to 480 pcm) with (take 480 pcm).
  destruct (Z.ltb_spec (Z.of_nat (length pcm)) 480) as [Hlt | Hge].
  - split; [discriminate | intros [Hle _]; lia].
  - destruct (vad (take 480 pcm) 8000) as [[|]|e]; simpl;
      split; try discriminate; try (intros [_ H]; discriminate H); auto.
Qed.

(* ===================================================================== *)
(** * Further properties: the registry *)
(* ===================================================================== *)

(** X2.  Whatever the registry holds, [create_session] followed by
    [get_session] on the same identifier gives the session just built, a
    new object in its initial state; no object and no identifier already
    registered is lost (the class has no removal); and a registry just
    built knows no identifier. *)
Theorem registry_round_trip :
  forall (m : Registry.SessionManager) (sid : string) (websocket : nat),
    let m' := fst (Registry.create_session sid websocket m) in
    let s := snd (Registry.create_session sid websocket m) in
    Registry.get_session sid m' = Some s /\
    Registry.objects m' !! s = Some (new_session sid websocket) /\
    Registry.objects m !! s = None /\
    (forall a o, Registry.objects m !! a = Some o ->
                 Registry.objects m' !! a = Some o) /\
    (forall sid', is_Some (Registry.get_session sid' m) ->
                  is_Some (Registry.get_session sid' m')) /\
    Registry.get_session sid Registry.new_manager = None.
Proof.
  intros m sid websocket m' s.
  assert (Hfresh : Registry.objects m !! s = None).
  { apply not_elem_of_dom. subst s. simpl. apply is_fresh. }
  unfold Registry.get_session. subst m' s. simpl in *.
  split; [apply lookup_insert_eq|].
  split; [apply lookup_insert_eq|].
  split; [exact Hfresh|].
  split.
  - intros a o Ha. rewrite lookup_insert_ne; [done|].
    intros <-. rewrite Hfresh in Ha. discriminate.
  - split; [|reflexivity].
    intros sid' Hsome. destruct (decide (sid = sid')) as [<- | Hne].
    + rewrite lookup_insert_eq. eauto.
    + by rewrite lookup_insert_ne.
Qed.

(* ===================================================================== *)
(** * Further properties: the HTTP endpoints *)
(* ===================================================================== *)

Lemma startswith_app (old s : string) : startswith old (old ++ s) = true.
Proof.
  induction old as [|c old IH]; [done|].
  change (String c old ++ s) with (String c (old ++ s)).
  cbn [startswith]. by rewrite Ascii.eqb_refl, IH.
Qed.

Lemma replace_from_skip old new pre s :
  replace_from old new (String.length pre) (pre ++ s)
  = replace_from old new 0 s.
Proof.
  induction pre as [|c pre IH]; [by destruct s|].
  change (String c pre ++ s) with (String c (pre ++ s)).
  cbn [String.length replace_from]. exact IH.
Qed.

(** An occurrence at the head is replaced and the search goes on behind it. *)
Lemma py_replace_head c old new s :
  py_replace (String c old) new (String c old ++ s)
  = new ++ py_replace (String c old) new s.
Proof.
  unfold py_replace.
  pose proof (startswith_app (String c old) s) as Hhead.
  change (String c old ++ s) with (String c (old ++ s)) in *.
  cbn [replace_from]. rewrite Hhead.
  replace (String.length (String c old) - 1)%nat with (String.length old)
    by (cbn [String.length]; lia).
  by rewrite replace_from_skip.
Qed.

(** Without an occurrence the text is returned as it is. *)
Lemma py_replace_absent old new s :
  occurs old s = false -> py_replace old new s = s.
Proof.
  unfold py_replace. induction s as [|c s IH]; [done|].
  cbn [occurs replace_from]. intros [Hhead Hrest]%orb_false_elim.
  rewrite Hhead. by rewrite IH.
Qed.

(** X3.  [incoming_call] answers the fixed text "Servidor no configurado"
    when [PUBLIC_HOST] is unset or empty.  When it is a host name [h]
    preceded by "https://" or "http://" (and [h] holds neither), the answer
    starts a stream to "wss://" followed by [h], the media path, "/" and
    the call identifier, and then says the greeting. *)
Theorem incoming_call_stream_url :
  forall (scheme h media_ws_path : string) (form_call_sid : option string),
    scheme = "https://" \/ scheme = "http://" ->
    occurs "https://" h = false ->
    occurs "http://" h = false ->
    incoming_call None media_ws_path form_call_sid
    = TwimlText "<Response><Say>Servidor no configurado</Say></Response>" /\
    incoming_call (Some "") media_ws_path form_call_sid
    = TwimlText "<Response><Say>Servidor no configurado</Say></Response>" /\
    incoming_call (Some (scheme ++ h)) media_ws_path form_call_sid
    = TwimlVerbs
        [StartStream ("wss://" ++ h ++ media_ws_path ++ "/"
                      ++ match form_call_sid with Some c => c | None => "None" end);
         Say greeting].
Proof.
  intros scheme h path sid Hscheme Hs Hp.
  split; [reflexivity|]. split; [reflexivity|].
  unfold incoming_call.
  destruct Hscheme as [-> | ->].
  - change (String.eqb ("https://" ++ h) "") with false. cbv iota.
    rewrite (py_replace_head "h" "ttps://" "" h).
    change ("" ++ py_replace "https://" "" h) with (py_replace "https://" "" h).
    by rewrite (py_replace_absent _ _ _ Hs), (py_replace_absent _ _ _ Hp).
  - change (String.eqb ("http://" ++ h) "") with false. cbv iota.
    rewrite (py_replace_absent "https://" "" ("http://" ++ h)).
    + rewrite (py_replace_head "h" "ttp://" "" h).
      change ("" ++ py_replace "http://" "" h) with (py_replace "http://" "" h).
      by rewrite (py_replace_absent _ _ _ Hp).
    + change ("http://" ++ h)
        with (String "h" (String "t" (String "t" (String "p"
               (String ":" (String "/" (String "/" h))))))).
      cbn [occurs startswith Ascii.eqb Bool.eqb andb orb]. exact Hs.
Qed.

Lemma incoming_call_stream_url_witness :
  incoming_call (Some "https://voice.example") "/media" (Some "CA1")
  = TwimlVerbs [StartStream "wss://voice.example/media/CA1"; Say greeting].
Proof.
  apply (proj2 (proj2 (incoming_call_stream_url "https://" "voice.example"
                         "/media" (Some "CA1") (or_introl eq_refl)
                         eq_refl eq_refl))).
Defined.

(* ===================================================================== *)
(** * Further properties: what a computation leaves alone *)
(* ===================================================================== *)

Lemma preserves_bind {A B C} (obs : St -> C) (m : M A) (f : A -> M B) :
  preserves obs m -> (forall a, preserves obs (f a)) -> preserves obs (m ≫= f).
Proof.
  intros Hm Hf st. rewrite bind_run.
  pose proof (Hm st) as Hs. destruct (m st) as [[a|e] st']; simpl in *.
  - by rewrite Hf.
  - done.
Qed.

Lemma preserves_try {A C} (obs : St -> C) (m : M A) (h : exn -> M A) :
  preserves obs m -> (forall e, preserves obs (h e)) -> preserves obs (try_ m h).
Proof.
  intros Hm Hh st. unfold try_.
  pose proof (Hm st) as Hs. destruct (m st) as [[a|e] st']; simpl in *.
  - done.
  - by rewrite Hh.
Qed.

Lemma preserves_expect_response {C} (obs : St -> C) h :
  preserves obs (expect_response h).
Proof. by destruct h. Qed.

Ltac preserves_step :=
  first
    [ assumption
    | solve [intros ?; reflexivity]
    | apply preserves_expect_response
    | apply preserves_try; [|intros ?]
    | apply preserves_bind; [|intros ?]
    | match goal with
      | |- preserves _ (match ?x with _ => _ end) => destruct x
      | |- preserves _ (if ?x then _ else _) => destruct x
      end ].

Ltac preserves_auto := repeat preserves_step.

(* ===================================================================== *)
(** * Further properties: ask_chatgpt_stream *)
(* ===================================================================== *)

Lemma rstrip_idem s : rstrip (rstrip s) = rstrip s.
Proof.
  induction s as [|c s IH]; [done|].
  cbn [rstrip]. destruct (rstrip s) as [|d r] eqn:Hr.
  - destruct (is_space c) eqn:Hc; [done|]. cbn [rstrip]. by rewrite Hc.
  - cbn [rstrip] in IH |- *.
    destruct (rstrip r) as [|d' r'] eqn:Hr'.
    + destruct (is_space d); [discriminate|]. by inversion IH.
    + inversion IH; subst. done.
Qed.

Lemma lstrip_cases s :
  lstrip s = "" \/ exists c s', lstrip s = String c s' /\ is_space c = false.
Proof.
  induction s as [|c s IH]; [by left|].
  cbn [lstrip]. destruct (is_space c) eqn:Hc; [exact IH|].
  right. eauto.
Qed.

Lemma lstrip_rstrip_head c s :
  is_space c = false -> lstrip (rstrip (String c s)) = rstrip (String c s).
Proof.
  intros Hc. cbn [rstrip]. destruct (rstrip s); [rewrite Hc|];
    cbn [lstrip]; by rewrite Hc.
Qed.

(** [s.strip().strip() == s.strip()] *)
Lemma strip_idem s : strip (strip s) = strip s.
Proof.
  unfold strip. destruct (lstrip_cases s) as [-> | (c & s' & -> & Hc)].
  - reflexivity.
  - rewrite (lstrip_rstrip_head c s' Hc). apply rstrip_idem.
Qed.

(** X4.  [ask_chatgpt_stream] makes one request with the history it is
    given and touches neither the session nor the disk.  What it returns
    has no white space at either end.  When the request fails or the
    status is not 200 it raises. *)
Theorem ask_chatgpt_stream_answers :
  forall (env : Env) (history : list message) (st : St),
    let r := ask_chatgpt_stream env history st in
    sess (snd r) = sess st /\
    files (world (snd r)) = files (world st) /\
    trace (world (snd r)) = (trace (world st) ++ [EvGenerate history])%list /\
    (forall reply, fst r = Ok reply -> strip reply = reply) /\
    ((exists e, env_llm env (clock (world st)) history = HttpError e) \/
     (exists resp, env_llm env (clock (world st)) history = HttpResponse resp /\
                   status_code resp <> 200) ->
     exists e, fst r = Raise e).
Proof.
  intros env history st r. subst r. unfold ask_chatgpt_stream.
  rewrite bind_run, tick_run. cbv beta iota.
  rewrite bind_run, emit_run. cbv beta iota.
  set (st1 := logged (EvGenerate history) (ticked st)).
  match goal with
  | |- context [ (?m ≫= ?f) st1 ] => set (rest := m ≫= f)
  end.
  assert (Hrest : preserves (fun s => s) rest) by (subst rest; preserves_auto).
  pose proof (Hrest st1) as Hst. cbv beta in Hst. rewrite Hst.
  split; [done|]. split; [done|]. split; [done|]. split.
  - intros reply. subst rest. rewrite bind_run.
    destruct (expect_response _ st1) as [[resp|e] st2]; [|discriminate].
    cbv beta iota.
    destruct (negb (status_code resp =? 200)); [discriminate|].
    rewrite bind_run, lift_run.
    destruct (env_json_loads env (text resp)) as [j|e]; [|discriminate].
    cbv beta iota. rewrite bind_run, lift_run.
    destruct (py_getitem j "choices") as [choices|e]; [|discriminate].
    cbv beta iota. rewrite bind_run, lift_run.
    destruct (py_first choices) as [first|e]; [|discriminate].
    cbv beta iota. rewrite bind_run, lift_run.
    destruct (py_getitem first "message") as [message|e]; [|discriminate].
    cbv beta iota. rewrite bind_run, lift_run.
    destruct (py_getitem message "content") as [content|e]; [|discriminate].
    cbv beta iota.
    destruct content; try discriminate.
    rewrite ret_run. simpl. intros [= <-]. apply strip_idem.
  - subst rest. rewrite bind_run.
    change (clock (world st)) with (clock (world st)).
    intros [[e He] | (resp & Hr & Hstatus)].
    + rewrite He. simpl. eauto.
    + rewrite Hr. simpl expect_response. rewrite ret_run. cbv beta iota.
      apply Z.eqb_neq in Hstatus. rewrite Hstatus. simpl. eauto.
Qed.

(** The chat endpoint answers "  Hola.  ". *)
Example ask_chatgpt_stream_hola :
  fst (ask_chatgpt_stream Desk.chat [Message user "hola"]
         (Studio.session_with []))
  = Ok "Hola.".
Proof. reflexivity. Qed.

(* ===================================================================== *)
(** * Further properties: the audio files *)
(* ===================================================================== *)

Section Played.

Context (env : Env).

(** When [synthesize_tts] returns, the file it names is on the disk and
    the synthesis is the one call it has made. *)
Lemma synthesize_tts_returns txt st filename st1 :
  synthesize_tts env txt st = (Ok filename, st1) ->
  "static/audio/" ++ filename ∈ files (world st1) /\
  trace (world st1) = (trace (world st) ++ [EvSynthesize txt])%list.
Proof.
  unfold synthesize_tts.
  rewrite bind_run, tick_run. cbv beta iota.
  rewrite bind_run, emit_run. cbv beta iota.
  set (st0 := logged (EvSynthesize txt) (ticked st)).
  rewrite bind_run.
  destruct (env_tts env (clock (world st)) txt) as [e|resp];
    simpl expect_response; [discriminate|].
  rewrite ret_run. cbv beta iota.
  destruct (negb (status_code resp =? 200)); [discriminate|].
  rewrite bind_run. unfold uuid4. rewrite bind_run, tick_run. cbv beta iota.
  rewrite ret_run. cbv beta iota.
  set (name := env_uuid4 env (clock (world st0)) ++ ".mp3").
  rewrite bind_run. unfold write_file.
  rewrite bind_run, tick_run. cbv beta iota.
  rewrite bind_run. cbn [get_world]. cbv beta iota.
  set (st2 := ticked (ticked st0)).
  destruct (env_write env (clock (world (ticked st0))) ("static/audio/" ++ name)).
  - set (st3 := snd (set_files ({[ "static/audio/" ++ name ]} ∪ files (world st2)) st2)).
    change (set_files ({[ "static/audio/" ++ name ]} ∪ files (world st2)) st2)
      with (Ok tt, st3).
    cbv beta iota. rewrite ret_run. intros [= <- <-].
    split; [|reflexivity].
    apply elem_of_union_l. by apply elem_of_singleton.
  - discriminate.
  - rewrite bind_run.
    set (st3 := snd (set_files ({[ "static/audio/" ++ name ]} ∪ files (world st2)) st2)).
    change (set_files ({[ "static/audio/" ++ name ]} ∪ files (world st2)) st2)
      with (Ok tt, st3).
    cbv beta iota. discriminate.
Qed.

End Played.

(** X5.  A file that [synthesize_tts] has written is found by
    [get_audiofile] under the name [synthesize_tts] returned, and is
    answered as audio/mpeg.  The answer is 404 exactly when
    [os.path.exists] finds nothing under static/audio/<name>: no file that
    the program wrote, and nothing else either (a directory such as ".",
    another spelling of a path).  [get_audiofile] changes nothing. *)
Theorem synthesized_file_is_served :
  forall (env : Env) (elsewhere : World -> string -> bool),
    (forall txt st filename st',
        synthesize_tts env txt st = (Ok filename, st') ->
        get_audiofile elsewhere filename st'
        = (Ok (FileResponse ("static/audio/" ++ filename) "audio/mpeg"), st')) /\
    (forall filename st,
        snd (get_audiofile elsewhere filename st) = st /\
        (fst (get_audiofile elsewhere filename st) = Ok (StatusOnly 404) <->
         ("static/audio/" ++ filename ∉ files (world st)) /\
         elsewhere (world st) ("static/audio/" ++ filename) = false) /\
        (fst (get_audiofile elsewhere filename st)
         = Ok (FileResponse ("static/audio/" ++ filename) "audio/mpeg") <->
         ("static/audio/" ++ filename ∈ files (world st)) \/
         elsewhere (world st) ("static/audio/" ++ filename) = true)).
Proof.
  intros env elsewhere. split.
  - intros txt st filename st' Hsynth.
    destruct (synthesize_tts_returns env txt st filename st' Hsynth)
      as [Hfile _].
    unfold get_audiofile. rewrite bind_run. cbn [get_world]. cbv beta iota.
    unfold os_path_exists. by rewrite (bool_decide_eq_true_2 _ Hfile).
  - intros filename st.
    unfold get_audiofile. rewrite bind_run. cbn [get_world]. cbv beta iota.
    unfold os_path_exists.
    destruct (bool_decide_reflect
                ("static/audio/" ++ filename ∈ files (world st))) as [Hin|Hout];
      cbn [orb].
    + rewrite ret_run. cbn [fst snd]. split; [reflexivity|]. split.
      * split; [discriminate | by intros [Hno _]].
      * split; [by left | reflexivity].
    + destruct (elsewhere (world st) ("static/audio/" ++ filename));
        rewrite ret_run; cbn [fst snd]; (split; [reflexivity|]); split.
      * split; [discriminate | by intros [_ Hno]].
      * split; [by right | reflexivity].
      * split; [done | reflexivity].
      * split; [discriminate | by intros [Hin | Hyes]].
Qed.

Lemma synthesized_file_is_served_witness :
  let dirs := fun (_ : World) (path : string) => String.eqb path "static/audio/." in
  let run := synthesize_tts Studio.calm "Hola" (Studio.session_with []) in
  fst (get_audiofile dirs "u1.mp3" (snd run))
  = Ok (FileResponse "static/audio/u1.mp3" "audio/mpeg") /\
  fst (get_audiofile dirs "u1.mp3" (Studio.session_with [])) = Ok (StatusOnly 404) /\
  fst (get_audiofile dirs "." (Studio.session_with []))
  = Ok (FileResponse "static/audio/." "audio/mpeg").
Proof.
  intros dirs run.
  destruct (synthesized_file_is_served Studio.calm dirs) as [Hserved Hother].
  split; [|split].
  - rewrite (Hserved "Hola" (Studio.session_with []) "u1.mp3" (snd run)).
    + reflexivity.
    + apply run_returned. vm_compute. reflexivity.
  - apply (proj1 (proj2 (Hother "u1.mp3" (Studio.session_with [])))).
    split; [|reflexivity].
    intros Hin. apply (bool_decide_pack _) in Hin. vm_compute in Hin.
    exact Hin.
  - apply (proj2 (proj2 (Hother "." (Studio.session_with [])))).
    right. reflexivity.
Defined.

(* ===================================================================== *)
(** * Further properties: how a turn ends *)
(* ===================================================================== *)

Section Outcomes.

Context (env : Env).

(** Once the transcript is printed, nothing stops the block: it returns
    with the flag reset. *)
Lemma reply_phase_returns sid mw txt st :
  fst (reply_phase env sid mw txt st) = Ok tt /\
  processing (sess (snd (reply_phase env sid mw txt st))) = false.
Proof.
  unfold reply_phase.
  rewrite bind_run, print_run. cbv beta iota.
  rewrite bind_run, history_append_run. cbv beta iota.
  rewrite bind_run. unfold try_.
  destruct (generate_reply env mw _) as [[reply|e] st1]; cbv beta iota.
  - rewrite bind_run, print_run. cbv beta iota.
    rewrite set_processing_run. done.
  - rewrite bind_run, print_run. cbv beta iota. rewrite ret_run.
    cbv beta iota.
    rewrite bind_run, print_run. cbv beta iota.
    rewrite set_processing_run. done.
Qed.

(** The three ways a turn ends. *)
Lemma turn_ends mw st :
  let r := process_turn_body env mw st in
  (fst r = Ok tt /\ processing (sess (snd r)) = false /\
   buffer (sess (snd r)) = []) \/
  (exists e st2,
      save_raw_pcm_to_wav env (buffer (sess st)) (turn_started st)
      = (Raise e, st2) /\
      r = (Raise e, st2) /\ processing (sess st2) = true /\
      buffer (sess st2) = buffer (sess st)) \/
  (exists wav st2 tr,
      save_raw_pcm_to_wav env (buffer (sess st)) (turn_started st)
      = (Ok wav, st2) /\
      fst (transcribe_wav env wav (buffer_cleared st2)) = Ok tr /\
      (forall txt, tr <> JStr txt) /\
      fst r = Raise AttributeError /\ processing (sess (snd r)) = true /\
      buffer (sess (snd r)) = []).
Proof.
  intros r. subst r.
  destruct (buffer (sess st)) as [|b bs] eqn:Hbuf.
  { left. rewrite (process_turn_body_empty env mw st Hbuf).
    rewrite set_processing_run. simpl. by rewrite Hbuf. }
  assert (Hne : buffer (sess st) <> []) by (rewrite Hbuf; discriminate).
  rewrite <- Hbuf.
  destruct (save_raw_pcm_to_wav env (buffer (sess st)) (turn_started st))
    as [[wav|e] st2] eqn:Hsave.
  2:{ right. left. exists e, st2.
      destruct (flag_left_set_when_wav_step_raises env mw st e st2 Hne Hsave)
        as (Hrun & Hflag & Hb).
      done. }
  pose proof (quiet_save_raw_pcm_to_wav env (buffer (sess st)) (turn_started st))
    as [Hs2 _].
  rewrite Hsave in Hs2. simpl in Hs2.
  pose proof (quiet_transcribe_phase env wav (buffer_cleared st2)) as [Hs3 _].
  destruct (transcribe_phase_returns env wav (buffer_cleared st2)) as [tr Htr].
  destruct (transcribe_phase env wav (buffer_cleared st2)) as [x st3] eqn:Hrun.
  simpl in Htr, Hs3. subst x.
  rewrite (process_turn_body_run env mw st wav st2 tr st3 Hne Hsave Hrun).
  assert (Hb3 : buffer (sess st3) = []) by (by rewrite Hs3).
  assert (Hp3 : processing (sess st3) = true).
  { rewrite Hs3. simpl. by rewrite Hs2. }
  destruct tr as [| | |txt| |];
    try (right; right; exists wav, st2;
         unfold transcribe_phase, try_ in Hrun;
         destruct (transcribe_wav env wav (buffer_cleared st2))
           as [[tr0|e0] st4]; [|discriminate Hrun];
         injection Hrun as -> ->;
         eexists; repeat split; try done).
  left.
  pose proof (keeps_after_transcript env (call_sid (sess st)) mw (JStr txt) st3)
    as Hk.
  unfold after_transcript in Hk |- *.
  destruct (String.eqb (strip txt) "").
  - rewrite set_processing_run. simpl. done.
  - destruct (reply_phase_returns (call_sid (sess st)) mw txt st3) as [Hok Hidle].
    split; [exact Hok|]. split; [exact Hidle|]. by rewrite Hk.
Qed.

(** A state in which a turn has nothing to do. *)
Lemma idle_turn_is_noop mw st :
  buffer (sess st) = [] -> processing (sess st) = false ->
  process_turn_body env mw st = (Ok tt, st).
Proof.
  intros Hb Hp. rewrite (process_turn_body_empty env mw st Hb).
  rewrite set_processing_run.
  destruct st as [[sid w b l p h] wd]. simpl in *. by subst.
Qed.

Lemma idle_tasks_are_noops n st :
  buffer (sess st) = [] -> processing (sess st) = false ->
  run_tasks env n st = (Ok tt, st).
Proof.
  intros Hb Hp. induction n as [|n IH]; [done|].
  cbn [run_tasks]. rewrite bind_run. unfold try_, _process_turn.
  by rewrite (idle_turn_is_noop _ st Hb Hp).
Qed.

End Outcomes.

(** X6.  A turn ends in one of three ways.  It returns, and then the flag
    is reset and the buffer is empty.  Or the WAV step raises, and the
    exception leaves the turn with the flag set and the buffer as it was.
    Or the transcription hands back something that is not a string, and
    [AttributeError] leaves the turn with the flag set and the buffer
    empty.  Nothing that the transcription, generation, synthesis or
    playback service does makes a turn raise otherwise. *)
Theorem turn_ends_in_three_ways :
  forall (env : Env) (mw : Z) (st : St),
    let r := process_turn_body env mw st in
    (fst r = Ok tt /\ processing (sess (snd r)) = false /\
     buffer (sess (snd r)) = []) \/
    (exists e st2,
        save_raw_pcm_to_wav env (buffer (sess st)) (turn_started st)
        = (Raise e, st2) /\
        r = (Raise e, st2) /\ processing (sess st2) = true /\
        buffer (sess st2) = buffer (sess st)) \/
    (exists wav st2 tr,
        save_raw_pcm_to_wav env (buffer (sess st)) (turn_started st)
        = (Ok wav, st2) /\
        fst (transcribe_wav env wav (buffer_cleared st2)) = Ok tr /\
        (forall txt, tr <> JStr txt) /\
        fst r = Raise AttributeError /\ processing (sess (snd r)) = true /\
        buffer (sess (snd r)) = []).
Proof. intros env mw st. exact (turn_ends env mw st). Qed.

(** X7.  After a turn that returned, a further turn finds nothing to do
    and changes nothing; so of the tasks created for the same audio only
    the first one works, and [on_disconnect] after a stop event makes no
    request. *)
Theorem turn_after_returned_turn_is_noop :
  forall (env : Env) (st : St) (n : nat),
    fst (_process_turn env st) = Ok tt ->
    let st' := snd (_process_turn env st) in
    _process_turn env st' = (Ok tt, st') /\
    run_tasks env (S n) st = (Ok tt, st').
Proof.
  intros env st n Hok st'. subst st'.
  pose proof (turn_ends env min_words_per_chunk st) as Hends.
  cbv zeta in Hends.
  change (process_turn_body env min_words_per_chunk st)
    with (_process_turn env st) in Hends.
  destruct (_process_turn env st) as [x s1] eqn:Hrun.
  cbn [fst snd] in Hok, Hends |- *. subst x.
  destruct Hends
    as [(_ & Hidle & Hempty)
       | [(e & st2 & _ & Hr & _) | (? & ? & ? & _ & _ & _ & Hr & _)]];
    [|discriminate Hr|discriminate Hr].
  split.
  - unfold _process_turn. apply idle_turn_is_noop; assumption.
  - cbn [run_tasks]. rewrite bind_run. unfold try_. rewrite Hrun.
    cbv beta iota. apply idle_tasks_are_noops; assumption.
Qed.

Lemma turn_after_returned_turn_is_noop_witness :
  let st' := snd (_process_turn Studio.calm (Studio.session_with [x01; x02])) in
  _process_turn Studio.calm st' = (Ok tt, st') /\
  run_tasks Studio.calm 3 (Studio.session_with [x01; x02]) = (Ok tt, st').
Proof.
  apply (turn_after_returned_turn_is_noop Studio.calm
           (Studio.session_with [x01; x02]) 2).
  vm_compute. reflexivity.
Defined.

(* ===================================================================== *)
(** * Further properties: what a turn changes in the session *)
(* ===================================================================== *)

Section Session.

Context (env : Env).
Context {C : Type} (obs : St -> C).

(** The observations made here do not see the files, the trace or the
    clock. *)
Hypothesis obs_world :
  forall st fs t c,
    obs {| sess := sess st;
           world := {| files := fs; trace := t; clock := c;
                       pending := pending (world st) |} |}
    = obs st.

Lemma preserves_tick : preserves obs tick.
Proof. intros st. apply obs_world. Qed.

Lemma preserves_emit e : preserves obs (emit e).
Proof. intros st. apply obs_world. Qed.

Lemma preserves_set_files fs : preserves obs (set_files fs).
Proof. intros st. apply obs_world. Qed.

Ltac world_step :=
  first
    [ apply preserves_tick | apply preserves_emit | apply preserves_set_files
    | preserves_step ].

Lemma preserves_uuid4 : preserves obs (uuid4 env).
Proof. unfold uuid4. apply preserves_bind; [apply preserves_tick|]. by intros n st. Qed.

Lemma preserves_write_file path : preserves obs (write_file env path).
Proof.
  unfold write_file. apply preserves_bind; [apply preserves_tick|]. intros n.
  apply preserves_bind; [by intros st|]. intros w.
  destruct (env_write env n path); repeat world_step.
Qed.

Lemma preserves_os_remove path : preserves obs (os_remove path).
Proof.
  unfold os_remove. apply preserves_bind; [by intros st|]. intros w.
  destruct (decide _); repeat world_step.
Qed.

Lemma preserves_save_raw_pcm_to_wav buf :
  preserves obs (save_raw_pcm_to_wav env buf).
Proof.
  unfold save_raw_pcm_to_wav.
  apply preserves_bind; [apply preserves_uuid4|]. intros u1.
  apply preserves_bind; [apply preserves_uuid4|]. intros u2.
  apply preserves_bind; [apply preserves_write_file|]. intros _.
  apply preserves_bind.
  { unfold run_ffmpeg. apply preserves_bind; [apply preserves_tick|].
    intros n. destruct (env_ffmpeg env n) as [|wrote]; [by intros st|].
    apply preserves_bind; [apply preserves_emit|]. intros _.
    apply preserves_bind; [by intros st|]. intros w.
    destruct wrote; repeat world_step. }
  intros _. apply preserves_bind; [apply preserves_os_remove|]. by intros _ st.
Qed.

Lemma preserves_transcribe_wav wav : preserves obs (transcribe_wav env wav).
Proof.
  unfold transcribe_wav.
  apply preserves_bind.
  { unfold open_rb. apply preserves_bind; [by intros st|]. intros w.
    destruct (decide _); by intros st. }
  intros _. apply preserves_bind; [apply preserves_tick|]. intros n.
  apply preserves_bind; [apply preserves_emit|]. intros _.
  apply preserves_bind; [apply preserves_expect_response|]. intros r.
  destruct (negb _); [by intros st|].
  apply preserves_bind; [by intros st|]. intros j.
  apply preserves_bind.
  { apply preserves_try; [apply preserves_os_remove|]. by intros e st. }
  by intros _ st.
Qed.

Lemma preserves_synthesize_and_play sid txt :
  preserves obs (synthesize_and_play env sid txt).
Proof.
  unfold synthesize_and_play.
  apply preserves_bind.
  { unfold synthesize_tts.
    apply preserves_bind; [apply preserves_tick|]. intros n.
    apply preserves_bind; [apply preserves_emit|]. intros _.
    apply preserves_bind; [apply preserves_expect_response|]. intros r.
    destruct (negb _); [by intros st|].
    apply preserves_bind; [apply preserves_uuid4|]. intros u.
    apply preserves_bind; [apply preserves_write_file|]. by intros _ st. }
  intros filename. unfold twilio_redirect_play.
  apply preserves_bind; [apply preserves_tick|]. intros n.
  apply preserves_bind; [apply preserves_emit|]. intros _.
  destruct (env_twilio env n _ _); by intros st.
Qed.

Lemma preserves_spoken sid txt pre :
  preserves obs (try_ (synthesize_and_play env sid txt)
                      (fun e => print (pre ++ exn_str e))).
Proof.
  apply preserves_try; [apply preserves_synthesize_and_play|].
  intros e. apply preserves_emit.
Qed.

Lemma preserves_stream_loop sid mw broken ls :
  forall resp part, preserves obs (stream_loop env sid mw broken ls resp part).
Proof.
  induction ls as [|line rest IH]; intros resp part; cbn [stream_loop].
  - destruct broken; by intros st.
  - destruct (startswith "data: " line); [|apply IH].
    destruct (String.eqb (strip (str_drop 6 line)) "[DONE]");
      [by intros st|].
    destruct (negb (String.eqb (strip (str_drop 6 line)) "")); [|apply IH].
    apply preserves_bind; [by intros st|]. intros data_json.
    apply preserves_bind; [by intros st|]. intros delta.
    destruct (truthy delta); [|apply IH].
    apply preserves_bind; [by intros st|]. intros resp'.
    apply preserves_bind; [by intros st|]. intros part'.
    destruct (mw <=? Z.of_nat (length (split part'))); [|apply IH].
    apply preserves_bind; [apply preserves_spoken|]. intros _. apply IH.
Qed.

(** Nor do they see the buffer, the flag or the history. *)
Hypothesis obs_sess :
  forall st bf b h,
    obs {| sess := {| call_sid := call_sid (sess st); ws := ws (sess st);
                      buffer := bf; last_voice_ts := last_voice_ts (sess st);
                      processing := b; conversation_history := h |};
           world := world st |}
    = obs st.

Lemma preserves_set_processing b : preserves obs (set_processing b).
Proof. intros st. apply obs_sess. Qed.

Lemma preserves_set_buffer bf : preserves obs (set_buffer bf).
Proof. intros st. apply obs_sess. Qed.

Lemma preserves_history_append m : preserves obs (history_append m).
Proof. intros st. apply obs_sess. Qed.

Lemma preserves_generate_reply mw : preserves obs (generate_reply env mw).
Proof.
  unfold generate_reply.
  apply preserves_bind; [by intros st|]. intros s.
  apply preserves_bind; [apply preserves_tick|]. intros n.
  apply preserves_bind; [apply preserves_emit|]. intros _.
  apply preserves_bind; [apply preserves_expect_response|]. intros r.
  destruct (negb _); [by intros st|].
  apply preserves_bind; [apply preserves_stream_loop|]. intros acc.
  apply preserves_bind.
  { destruct (negb _); [apply preserves_spoken | by intros st]. }
  intros _.
  apply preserves_bind; [apply preserves_history_append|]. by intros _ st.
Qed.

Lemma preserves_process_turn_body mw : preserves obs (process_turn_body env mw).
Proof.
  unfold process_turn_body.
  apply preserves_bind; [apply preserves_set_processing|]. intros _.
  apply preserves_bind; [by intros st|]. intros s.
  destruct (_ =? _)%nat; [apply preserves_set_processing|].
  apply preserves_bind; [apply preserves_save_raw_pcm_to_wav|]. intros wav.
  apply preserves_bind; [apply preserves_set_buffer|]. intros _.
  apply preserves_bind.
  { apply preserves_try; [apply preserves_transcribe_wav|]. intros e.
    apply preserves_bind; [apply preserves_emit|]. by intros _ st. }
  intros tr. destruct tr as [| | |txt| |]; try (by intros st).
  destruct (String.eqb _ _); [apply preserves_set_processing|].
  apply preserves_bind; [apply preserves_emit|]. intros _.
  apply preserves_bind; [apply preserves_history_append|]. intros _.
  apply preserves_bind.
  { apply preserves_try; [apply preserves_generate_reply|]. intros e.
    apply preserves_bind; [apply preserves_emit|]. by intros _ st. }
  intros reply.
  apply preserves_bind; [apply preserves_emit|]. intros _.
  apply preserves_set_processing.
Qed.

End Session.

Lemma untouched_world st fs t c :
  untouched {| sess := sess st;
               world := {| files := fs; trace := t; clock := c;
                           pending := pending (world st) |} |}
  = untouched st.
Proof. reflexivity. Qed.

Lemma untouched_sess st bf b h :
  untouched {| sess := {| call_sid := call_sid (sess st); ws := ws (sess st);
                          buffer := bf; last_voice_ts := last_voice_ts (sess st);
                          processing := b; conversation_history := h |};
               world := world st |}
  = untouched st.
Proof. reflexivity. Qed.

Lemma turn_untouched env mw st :
  untouched (snd (process_turn_body env mw st)) = untouched st.
Proof.
  exact (preserves_process_turn_body env untouched untouched_world
           untouched_sess mw st).
Qed.

Lemma turn_keeps_pending env mw st :
  pending (world (snd (process_turn_body env mw st))) = pending (world st).
Proof.
  pose proof (turn_untouched env mw st) as H.
  unfold untouched in H. by injection H.
Qed.

Lemma turn_keeps_call_sid env mw st :
  call_sid (sess (snd (process_turn_body env mw st))) = call_sid (sess st).
Proof.
  pose proof (turn_untouched env mw st) as H.
  unfold untouched in H. by injection H.
Qed.

(** X8.  A turn, however it ends, leaves the identity of the call, the
    websocket and the time of the last voice as they were, and creates no
    task. *)
Theorem turn_leaves_call_alone :
  forall (env : Env) (mw : Z) (st : St),
    let st' := snd (process_turn_body env mw st) in
    call_sid (sess st') = call_sid (sess st) /\
    ws (sess st') = ws (sess st) /\
    last_voice_ts (sess st') = last_voice_ts (sess st) /\
    pending (world st') = pending (world st).
Proof.
  intros env mw st st'.
  pose proof (turn_untouched env mw st) as H.
  fold st' in H. unfold untouched in H. by injection H.
Qed.

(* ===================================================================== *)
(** * Further properties: the history *)
(* ===================================================================== *)

Section History.

Context (env : Env).

(** The second [try]: when it returns the reply, the reply is the one
    entry it has added; when it raises, the session is as it was. *)
Lemma generate_reply_history mw st :
  match fst (generate_reply env mw st) with
  | Ok reply =>
      conversation_history (sess (snd (generate_reply env mw st)))
      = (conversation_history (sess st) ++ [Message assistant reply])%list
  | Raise _ => sess (snd (generate_reply env mw st)) = sess st
  end.
Proof.
  unfold generate_reply.
  rewrite bind_run, get_sess_run. cbv beta iota.
  rewrite bind_run, tick_run. cbv beta iota.
  rewrite bind_run, emit_run. cbv beta iota.
  set (st1 := logged (EvGenerate (conversation_history (sess st))) (ticked st)).
  rewrite bind_run.
  destruct (env_llm env (clock (world st)) (conversation_history (sess st)))
    as [e|r]; simpl expect_response; [done|].
  rewrite ret_run. cbv beta iota.
  destruct (negb (status_code r =? 200)); [done|].
  rewrite bind_run.
  pose proof (preserves_stream_loop env (fun s => sess s)
                (fun _ _ _ _ => eq_refl) (call_sid (sess st)) mw
                (stream_error r) (lines r) "" "" st1) as Hloop.
  cbv beta in Hloop.
  destruct (stream_loop env (call_sid (sess st)) mw (stream_error r) (lines r)
              "" "" st1) as [[acc|e] st2]; cbn [fst snd] in Hloop |- *;
    [|by rewrite Hloop].
  rewrite bind_run.
  match goal with
  | |- context [ (if ?c then ?a else ?b) st2 ] =>
      set (fin := if c then a else b)
  end.
  assert (Hfin : fst (fin st2) = Ok tt /\ sess (snd (fin st2)) = sess st2).
  { subst fin. destruct (negb _); [|done].
    destruct (chunk_spoken env (call_sid (sess st)) (acc.2)
                "Final TTS/play error: " st2) as (Hok & Hs & _).
    done. }
  destruct (fin st2) as [[[]|e] st3]; cbn [fst snd] in Hfin;
    destruct Hfin as [Hok Hs3]; [|discriminate].
  rewrite bind_run, history_append_run. cbv beta iota. rewrite ret_run.
  cbn [fst snd]. simpl. by rewrite Hs3, Hloop.
Qed.

End History.

(** X9.  A turn only ever appends to the history, and in three ways: it
    adds nothing; or it adds the user entry alone; or it adds the user entry
    and then one assistant entry.  The user entry is never blank, and once
    it is appended the turn returns. *)
Theorem turn_history_grows :
  forall (env : Env) (mw : Z) (st : St),
    let st' := snd (process_turn_body env mw st) in
    let h := conversation_history (sess st) in
    let h' := conversation_history (sess st') in
    h' = h \/
    exists txt,
      strip txt <> "" /\ fst (process_turn_body env mw st) = Ok tt /\
      (h' = (h ++ [Message user txt])%list \/
       exists reply,
         h' = (h ++ [Message user txt; Message assistant reply])%list).
Proof.
  intros env mw st st' h h'. subst st' h h'.
  destruct (buffer (sess st)) as [|b bs] eqn:Hbuf.
  { left. rewrite (process_turn_body_empty env mw st Hbuf).
    by rewrite set_processing_run. }
  assert (Hne : buffer (sess st) <> []) by (rewrite Hbuf; discriminate).
  pose proof (quiet_save_raw_pcm_to_wav env (buffer (sess st)) (turn_started st))
    as [Hs2 _].
  destruct (save_raw_pcm_to_wav env (buffer (sess st)) (turn_started st))
    as [[wav|e] st2] eqn:Hsave; cbn [snd] in Hs2.
  2:{ left. rewrite (process_turn_body_save_raises env mw st e st2 Hne Hsave).
      cbn [snd]. by rewrite Hs2. }
  pose proof (quiet_transcribe_phase env wav (buffer_cleared st2)) as [Hs3 _].
  destruct (transcribe_phase_returns env wav (buffer_cleared st2)) as [tr Htr].
  destruct (transcribe_phase env wav (buffer_cleared st2)) as [x st3] eqn:Hrun.
  cbn [fst snd] in Htr, Hs3. subst x.
  rewrite (process_turn_body_run env mw st wav st2 tr st3 Hne Hsave Hrun).
  assert (Hh3 : conversation_history (sess st3) = conversation_history (sess st)).
  { rewrite Hs3. simpl. by rewrite Hs2. }
  unfold after_transcript.
  destruct tr as [| | |txt| |]; try (left; exact Hh3).
  destruct (String.eqb (strip txt) "") eqn:Hblank.
  { left. rewrite set_processing_run. exact Hh3. }
  right. exists txt. split; [by apply String.eqb_neq|].
  split; [apply reply_phase_returns|].
  unfold reply_phase.
  rewrite bind_run, print_run. cbv beta iota.
  rewrite bind_run, history_append_run. cbv beta iota.
  set (st5 := with_entry (Message user txt) (logged (EvPrint _) st3)).
  assert (Hh5 : conversation_history (sess st5)
                = (conversation_history (sess st) ++ [Message user txt])%list).
  { subst st5. simpl. by rewrite Hh3. }
  rewrite bind_run. unfold try_.
  pose proof (generate_reply_history env mw st5) as Hg.
  destruct (generate_reply env mw st5) as [[reply|e] st6];
    cbn [fst snd] in Hg; cbv beta iota.
  - right. exists reply.
    rewrite bind_run, print_run. cbv beta iota. rewrite set_processing_run.
    simpl. rewrite Hg, Hh5, <- app_assoc. reflexivity.
  - left.
    rewrite bind_run, print_run. cbv beta iota. rewrite ret_run. cbv beta iota.
    rewrite bind_run, print_run. cbv beta iota. rewrite set_processing_run.
    simpl. by rewrite Hg.
Qed.

(* ===================================================================== *)
(** * Further properties: the messages that carry no audio *)
(* ===================================================================== *)

Section Events.

Context (env : Env).

Lemma on_message_stop raw_text st :
  stop_frame env raw_text ->
  on_message env raw_text st = _process_turn env st.
Proof.
  intros (msg & ev & Hmsg & Hev & Hmedia & Hstop). unfold on_message.
  rewrite bind_run, lift_run, Hmsg. cbv beta iota.
  rewrite bind_run, lift_run, Hev. cbv beta iota.
  by rewrite Hmedia, Hstop.
Qed.

Lemma on_message_other raw_text st :
  other_frame env raw_text ->
  on_message env raw_text st = (Ok tt, st).
Proof.
  intros (msg & ev & Hmsg & Hev & Hmedia & Hstop). unfold on_message.
  rewrite bind_run, lift_run, Hmsg. cbv beta iota.
  rewrite bind_run, lift_run, Hev. cbv beta iota.
  by rewrite Hmedia, Hstop.
Qed.

Lemma on_message_keyless raw_text :
  keyless_frame env raw_text ->
  exists key,
    (key = "media" \/ key = "payload") /\
    forall st,
      on_message env raw_text st = (Raise (KeyError (py_repr key)), st).
Proof.
  intros (fields & Hmsg & Hev & Hkey).
  destruct Hkey as [Hmedia | (inner & Hmedia & Hpayload)].
  - exists "media". split; [by left|]. intros st. unfold on_message.
    rewrite bind_run, lift_run, Hmsg. cbv beta iota.
    rewrite bind_run, lift_run. cbn [py_get]. rewrite Hev. cbv beta iota.
    cbn [json_is]. change (String.eqb "media" "media") with true. cbv iota.
    rewrite bind_run, lift_run. cbn [py_getitem]. by rewrite Hmedia.
  - exists "payload". split; [by right|]. intros st. unfold on_message.
    rewrite bind_run, lift_run, Hmsg. cbv beta iota.
    rewrite bind_run, lift_run. cbn [py_get]. rewrite Hev. cbv beta iota.
    cbn [json_is]. change (String.eqb "media" "media") with true. cbv iota.
    rewrite bind_run, lift_run. cbn [py_getitem]. rewrite Hmedia.
    cbv beta iota. rewrite bind_run, lift_run. cbn [py_getitem].
    by rewrite Hpayload.
Qed.

End Events.

(** X10.  A stop message runs one turn inside [on_message], whatever the
    size of the buffer and whatever the flag says: no task is created for
    it, and when [on_message] returns the buffer is empty and the flag is
    reset. *)
Theorem stop_message_runs_turn :
  forall (env : Env) (raw_text : string) (st : St),
    stop_frame env raw_text ->
    let r := on_message env raw_text st in
    r = _process_turn env st /\
    pending (world (snd r)) = pending (world st) /\
    (fst r = Ok tt ->
     buffer (sess (snd r)) = [] /\ processing (sess (snd r)) = false).
Proof.
  intros env raw_text st Hstop r. subst r.
  rewrite (on_message_stop env raw_text st Hstop). unfold _process_turn.
  split; [reflexivity|]. split.
  - apply turn_keeps_pending.
  - intros Hok.
    destruct (turn_ends env min_words_per_chunk st)
      as [(_ & Hidle & Hempty)
         | [(e & st2 & _ & Hr & _) | (? & ? & ? & _ & _ & _ & Hr & _)]].
    + done.
    + rewrite Hr in Hok. discriminate Hok.
    + rewrite Hr in Hok. discriminate Hok.
Qed.

Lemma office_stop_is_stop_frame : stop_frame Desk.office "stop".
Proof.
  exists (JObj [("event", JStr "stop")]), (JStr "stop").
  split; [reflexivity|]. split; [reflexivity|]. split; reflexivity.
Defined.

Lemma stop_message_runs_turn_witness :
  let st := Studio.session_with [x01; x02] in
  let r := on_message Desk.office "stop" st in
  r = _process_turn Desk.office st /\
  pending (world (snd r)) = pending (world st) /\
  (fst r = Ok tt ->
   buffer (sess (snd r)) = [] /\ processing (sess (snd r)) = false).
Proof.
  exact (stop_message_runs_turn Desk.office "stop"
           (Studio.session_with [x01; x02]) office_stop_is_stop_frame).
Defined.

(* ===================================================================== *)
(** * Further properties: how a call ends *)
(* ===================================================================== *)

Section Calls.

Context (env : Env).

Lemma run_tasks_keeps_call_sid n st :
  call_sid (sess (snd (run_tasks env n st))) = call_sid (sess st).
Proof.
  revert st. induction n as [|n IH]; intros st; [done|].
  cbn [run_tasks]. rewrite bind_run. unfold try_, _process_turn.
  pose proof (turn_keeps_call_sid env min_words_per_chunk st) as Hsid.
  destruct (process_turn_body env min_words_per_chunk st) as [[[]|e] st1];
    cbn [snd] in Hsid; cbv beta iota.
  - by rewrite IH.
  - rewrite ret_run. cbv beta iota. by rewrite IH.
Qed.

(** What a wait does to the state does not depend on the inbox. *)
Lemma receive_text_state inbox st :
  snd (receive_text env inbox st) = snd (receive_text env [] st).
Proof.
  unfold receive_text.
  rewrite !bind_run, tick_run. cbv beta iota. rewrite !bind_run.
  destruct ((if env_yield env (clock (world st)) then run_pending env
             else mret tt) (ticked st)) as [[[]|e] st1]; [|done].
  by destruct inbox.
Qed.

Lemma receive_text_cons data rest st :
  receive_text env (data :: rest) st
  = (Ok (data, rest), snd (receive_text env [] st)).
Proof.
  rewrite <- (receive_text_state (data :: rest) st).
  apply run_returned, receive_text_returns.
Qed.

Lemma receive_text_empty st :
  fst (receive_text env [] st) = Raise WebSocketDisconnect.
Proof.
  pose proof (receive_text_returns env "" [] st) as Hok.
  unfold receive_text in Hok |- *.
  rewrite bind_run, tick_run in Hok |- *. cbv beta iota in Hok |- *.
  rewrite bind_run in Hok |- *.
  destruct ((if env_yield env (clock (world st)) then run_pending env
             else mret tt) (ticked st)) as [[[]|e] st1]; [done|].
  discriminate Hok.
Qed.

Lemma receive_text_keeps_call_sid inbox st :
  call_sid (sess (snd (receive_text env inbox st))) = call_sid (sess st).
Proof.
  rewrite receive_text_state. unfold receive_text.
  rewrite bind_run, tick_run. cbv beta iota. rewrite bind_run.
  destruct (env_yield env (clock (world st))).
  - unfold run_pending. rewrite bind_run. cbn [get_world]. cbv beta iota.
    rewrite bind_run.
    set (st1 := snd (set_pending 0 (ticked st))).
    change (set_pending 0 (ticked st)) with (Ok tt, st1). cbv beta iota.
    pose proof (run_tasks_keeps_call_sid (pending (world (ticked st))) st1)
      as Hsid.
    destruct (run_tasks env _ st1) as [[[]|e] st2]; cbn [snd] in Hsid |- *;
      exact Hsid.
  - by rewrite ret_run.
Qed.

Lemma on_message_keeps_call_sid raw_text :
  preserves (fun st => call_sid (sess st)) (on_message env raw_text).
Proof.
  unfold on_message.
  apply preserves_bind; [by intros st|]. intros msg.
  apply preserves_bind; [by intros st|]. intros ev.
  destruct (json_is ev "media").
  - apply preserves_bind; [by intros st|]. intros media.
    apply preserves_bind; [by intros st|]. intros payload.
    apply preserves_bind; [by intros st|]. intros pcm.
    apply preserves_bind; [by intros st|]. intros s.
    apply preserves_bind; [by intros st|]. intros _.
    apply preserves_bind; [by intros st|]. intros speech.
    apply preserves_bind.
    { destruct speech; [|by intros st].
      apply preserves_bind; [by intros st|]. by intros n st. }
    intros _.
    apply preserves_bind; [by intros st|]. intros s'.
    destruct (int_ge_float _ _); [|by intros st].
    destruct (negb _); by intros st.
  - destruct (json_is ev "stop"); [|by intros st].
    intros st. unfold _process_turn. cbv beta.
    exact (turn_keeps_call_sid env min_words_per_chunk st).
Qed.

Lemma receive_loop_keeps_call_sid inbox :
  preserves (fun st => call_sid (sess st)) (receive_loop env inbox).
Proof.
  induction inbox as [|data rest IH]; intros st; cbn [receive_loop].
  - rewrite bind_run.
    pose proof (receive_text_keeps_call_sid [] st) as Hsid.
    by destruct (receive_text env [] st) as [[x|e] st1].
  - rewrite bind_run, receive_text_cons. cbv beta iota. rewrite bind_run.
    pose proof (on_message_keeps_call_sid data (snd (receive_text env [] st)))
      as Hmsg.
    cbv beta in Hmsg. rewrite receive_text_keeps_call_sid in Hmsg.
    destruct (on_message env data _) as [[[]|e] st2]; cbn [snd] in Hmsg.
    + cbv beta iota. rewrite IH. exact Hmsg.
    + exact Hmsg.
Qed.

(** The loop of the handler has no exit but an exception. *)
Lemma receive_loop_raises inbox :
  forall st, exists e, fst (receive_loop env inbox st) = Raise e.
Proof.
  induction inbox as [|data rest IH]; intros st; cbn [receive_loop].
  - rewrite bind_run. pose proof (receive_text_empty st) as Hr.
    destruct (receive_text env [] st) as [[x|e] st1]; [discriminate Hr|].
    eauto.
  - rewrite bind_run, receive_text_cons. cbv beta iota. rewrite bind_run.
    destruct (on_message env data _) as [[[]|e] st2]; [apply IH|].
    eauto.
Qed.

Lemma on_disconnect_ends st :
  let r := on_disconnect env st in
  call_sid (sess (snd r)) = call_sid (sess st) /\
  (fst r = Ok tt ->
   buffer (sess (snd r)) = [] /\ processing (sess (snd r)) = false /\
   exists t,
     trace (world (snd r))
     = (t ++ [EvPrint ("Session " ++ call_sid (sess st) ++ " disconnected.")])%list).
Proof.
  cbv zeta. unfold on_disconnect, _process_turn. rewrite bind_run.
  pose proof (turn_keeps_call_sid env min_words_per_chunk st) as Hsid.
  pose proof (turn_ends env min_words_per_chunk st) as Hends.
  cbv zeta in Hends.
  destruct (process_turn_body env min_words_per_chunk st) as [[[]|e] st1];
    cbn [fst snd] in Hsid, Hends |- *.
  - cbv beta iota. rewrite bind_run, get_sess_run. cbv beta iota.
    rewrite print_run. cbn [fst snd].
    split; [exact Hsid|]. intros _.
    destruct Hends
      as [(_ & Hidle & Hempty)
         | [(e & st2 & _ & Hr & _) | (? & ? & ? & _ & _ & _ & Hr & _)]];
      [|discriminate Hr|discriminate Hr].
    split; [exact Hempty|]. split; [exact Hidle|].
    exists (trace (world st1)). simpl. by rewrite Hsid.
  - split; [exact Hsid|]. discriminate.
Qed.

Lemma serve_ends inbox st :
  let r := serve env inbox st in
  call_sid (sess (snd r)) = call_sid (sess st) /\
  (fst r = Ok tt ->
   buffer (sess (snd r)) = [] /\ processing (sess (snd r)) = false /\
   exists t,
     trace (world (snd r))
     = (t ++ [EvPrint ("Session " ++ call_sid (sess st) ++ " disconnected.")])%list).
Proof.
  cbv zeta. unfold serve, try_.
  destruct (receive_loop_raises inbox st) as [e He].
  pose proof (receive_loop_keeps_call_sid inbox st) as Hsid.
  cbv beta in Hsid.
  destruct (receive_loop env inbox st) as [x st1]. cbn [fst snd] in He, Hsid.
  subst x. cbv beta iota.
  assert (Hgoal :
    forall st2, call_sid (sess st2) = call_sid (sess st) ->
      let r := on_disconnect env st2 in
      call_sid (sess (snd r)) = call_sid (sess st) /\
      (fst r = Ok tt ->
       buffer (sess (snd r)) = [] /\ processing (sess (snd r)) = false /\
       exists t,
         trace (world (snd r))
         = (t ++ [EvPrint ("Session " ++ call_sid (sess st)
                            ++ " disconnected.")])%list)).
  { intros st2 H2. rewrite <- H2. apply on_disconnect_ends. }
  destruct e; try (rewrite bind_run, print_run; cbv beta iota);
    apply Hgoal; exact Hsid.
Qed.

(** [on_disconnect] returns when its turn returns, and raises what its
    turn raises. *)
Lemma on_disconnect_result st :
  fst (on_disconnect env st) = fst (_process_turn env st).
Proof.
  unfold on_disconnect. rewrite bind_run.
  destruct (_process_turn env st) as [[[]|e] st1]; [|reflexivity].
  cbv beta iota. by rewrite bind_run, get_sess_run.
Qed.

(** The handler stops at the first message whose handling raises. *)
Lemma serve_stops data rest st e st2 :
  on_message env data (snd (receive_text env [] st)) = (Raise e, st2) ->
  serve env (data :: rest) st
  = match e with
    | WebSocketDisconnect => on_disconnect env st2
    | _ => (print ("WS error: " ++ exn_str e);; on_disconnect env) st2
    end.
Proof.
  intros Hmsg. unfold serve, try_. cbn [receive_loop].
  rewrite bind_run, receive_text_cons. cbv beta iota.
  rewrite bind_run, Hmsg. by destruct e.
Qed.

(** The same for an error that is not the disconnection: the error is
    printed, and the call ends in [on_disconnect], whose last turn decides
    whether the handler returns. *)
Lemma serve_after_error data rest st e st2 :
  on_message env data (snd (receive_text env [] st)) = (Raise e, st2) ->
  e <> WebSocketDisconnect ->
  let st3 := logged (EvPrint ("WS error: " ++ exn_str e)) st2 in
  serve env (data :: rest) st = on_disconnect env st3 /\
  fst (serve env (data :: rest) st) = fst (_process_turn env st3).
Proof.
  intros Hmsg Hne st3.
  assert (Hserve : serve env (data :: rest) st = on_disconnect env st3).
  { rewrite (serve_stops data rest st e st2 Hmsg).
    destruct e; try (by rewrite bind_run, print_run). done. }
  split; [exact Hserve|]. rewrite Hserve. apply on_disconnect_result.
Qed.

End Calls.

(** X12.  A media message that lacks the media object, or whose media
    object lacks the payload, makes [on_message] raise [KeyError] with the
    session as it was.  The handler catches it, prints the key that is
    missing ("WS error: 'media'" or "WS error: 'payload'") and runs
    [on_disconnect]: the messages that follow are never read, and the
    handler returns exactly when the last turn of [on_disconnect] returns;
    it raises what that turn raises. *)
Theorem media_without_payload_ends_session :
  forall (env : Env) (raw_text : string) (rest : list string) (st : St),
    keyless_frame env raw_text ->
    exists key,
      (key = "media" \/ key = "payload") /\
      on_message env raw_text st = (Raise (KeyError (py_repr key)), st) /\
      let st1 := logged (EvPrint ("WS error: " ++ py_repr key))
                   (snd (receive_text env [] st)) in
      serve env (raw_text :: rest) st = on_disconnect env st1 /\
      fst (serve env (raw_text :: rest) st) = fst (_process_turn env st1).
Proof.
  intros env raw_text rest st Hkey.
  destruct (on_message_keyless env raw_text Hkey) as (key & Hwhich & Hmsg).
  exists key. split; [exact Hwhich|]. split; [apply Hmsg|].
  apply (serve_after_error env raw_text rest st (KeyError (py_repr key)) _
           (Hmsg _)).
  discriminate.
Qed.

Lemma office_keyless :
  keyless_frame Desk.office "media-without-payload".
Proof.
  exists [("event", JStr "media"); ("media", JObj [("track", JStr "inbound")])].
  split; [reflexivity|]. split; [reflexivity|].
  right. exists [("track", JStr "inbound")]. split; reflexivity.
Defined.

Lemma media_without_payload_ends_session_witness :
  let st := Studio.session_with [x41; x42; x43] in
  exists key,
    (key = "media" \/ key = "payload") /\
    on_message Desk.office "media-without-payload" st
    = (Raise (KeyError (py_repr key)), st) /\
    let st1 := logged (EvPrint ("WS error: " ++ py_repr key))
                 (snd (receive_text Desk.office [] st)) in
    serve Desk.office ["media-without-payload"; "frame-abc"; "stop"] st
    = on_disconnect Desk.office st1 /\
    fst (serve Desk.office ["media-without-payload"; "frame-abc"; "stop"] st)
    = fst (_process_turn Desk.office st1).
Proof.
  exact (media_without_payload_ends_session Desk.office
           "media-without-payload" ["frame-abc"; "stop"]
           (Studio.session_with [x41; x42; x43]) office_keyless).
Defined.

(** In the world [Desk.office] the missing key is the payload. *)
Example media_without_payload_line :
  on_message Desk.office "media-without-payload"
    (Studio.session_with [x41; x42; x43])
  = (Raise (KeyError "'payload'"), Studio.session_with [x41; x42; x43]) /\
  trace (world (snd (serve Desk.office ["media-without-payload"]
                       (Studio.session_with []))))
  = [EvPrint "WS error: 'payload'"; EvPrint "Session CA1 disconnected."].
Proof. vm_compute. split; reflexivity. Qed.

(** X13.  The loop of the handler never ends but by an exception, so every
    call ends in [on_disconnect].  The session keeps its call identifier
    throughout, and when the handler returns, the buffer is empty, the flag
    is reset and the last line printed is the one of the disconnection. *)
Theorem every_call_ends_in_disconnect :
  forall (env : Env) (inbox : list string) (st : St),
    let r := serve env inbox st in
    (exists e, fst (receive_loop env inbox st) = Raise e) /\
    call_sid (sess (snd r)) = call_sid (sess st) /\
    (fst r = Ok tt ->
     buffer (sess (snd r)) = [] /\ processing (sess (snd r)) = false /\
     exists t,
       trace (world (snd r))
       = (t ++ [EvPrint ("Session " ++ call_sid (sess st)
                          ++ " disconnected.")])%list).
Proof.
  intros env inbox st r. split; [apply receive_loop_raises|].
  exact (serve_ends env inbox st).
Qed.

(* ===================================================================== *)
(** * Further properties: a call without audio *)
(* ===================================================================== *)

Section Silence.

Context (env : Env).

(** While the session is idle (empty buffer, flag reset) a wait changes
    neither the session, nor the disk, nor the trace, whatever tasks it
    lets run. *)
Lemma receive_text_when_idle inbox st :
  buffer (sess st) = [] -> processing (sess st) = false ->
  sess (snd (receive_text env inbox st)) = sess st /\
  files (world (snd (receive_text env inbox st))) = files (world st) /\
  trace (world (snd (receive_text env inbox st))) = trace (world st).
Proof.
  intros Hb Hp. rewrite receive_text_state. unfold receive_text.
  rewrite bind_run, tick_run. cbv beta iota. rewrite bind_run.
  destruct (env_yield env (clock (world st))).
  - unfold run_pending. rewrite bind_run. cbn [get_world]. cbv beta iota.
    rewrite bind_run.
    set (st1 := snd (set_pending 0 (ticked st))).
    change (set_pending 0 (ticked st)) with (Ok tt, st1). cbv beta iota.
    rewrite (idle_tasks_are_noops env (pending (world (ticked st))) st1 Hb Hp).
    done.
  - rewrite ret_run. done.
Qed.

Lemma receive_loop_other inbox :
  Forall (other_frame env) inbox ->
  forall st,
    buffer (sess st) = [] -> processing (sess st) = false ->
    fst (receive_loop env inbox st) = Raise WebSocketDisconnect /\
    sess (snd (receive_loop env inbox st)) = sess st /\
    files (world (snd (receive_loop env inbox st))) = files (world st) /\
    trace (world (snd (receive_loop env inbox st))) = trace (world st).
Proof.
  induction 1 as [|data rest Hother _ IH]; intros st Hb Hp;
    cbn [receive_loop]; rewrite bind_run.
  - destruct (receive_text_when_idle [] st Hb Hp) as (Hs & Hf & Ht).
    pose proof (receive_text_empty env st) as Hr.
    destruct (receive_text env [] st) as [[x|e] st1]; cbn [fst snd] in *;
      [discriminate Hr|].
    by injection Hr as ->.
  - rewrite receive_text_cons. cbv beta iota.
    destruct (receive_text_when_idle [] st Hb Hp) as (Hs & Hf & Ht).
    rewrite bind_run, (on_message_other env data _ Hother). cbv beta iota.
    destruct (IH (snd (receive_text env [] st))) as (Hr' & Hs' & Hf' & Ht').
    { by rewrite Hs. }
    { by rewrite Hs. }
    rewrite Hr', Hs', Hf', Ht', Hs, Hf, Ht. done.
Qed.

End Silence.

Lemma office_connected_is_other : other_frame Desk.office "connected".
Proof.
  exists (JObj [("event", JStr "connected"); ("protocol", JStr "Call")]),
         (JStr "connected").
  split; [reflexivity|]. split; [reflexivity|]. split; reflexivity.
Defined.

Lemma office_no_event_is_other : other_frame Desk.office "no-event".
Proof.
  exists (JObj [("sequenceNumber", JStr "3")]), JNull.
  split; [reflexivity|]. split; [reflexivity|]. split; reflexivity.
Defined.

(** X11.  A message that is neither a media nor a stop message (a
    connected, start or mark message, or one with no event at all) is
    passed over: [on_message] returns and nothing has changed.  A call that
    brings only such messages, or none, leaves its session as it was
    created, touches no file, and prints the line of the disconnection and
    nothing else. *)
Theorem other_messages_are_ignored :
  forall (env : Env),
    (forall raw_text st,
        other_frame env raw_text ->
        on_message env raw_text st = (Ok tt, st)) /\
    (forall websocket sid inbox w,
        Forall (other_frame env) inbox ->
        let r := media_ws env websocket sid inbox w in
        fst r = Ok tt /\
        sess (snd r) = new_session sid websocket /\
        files (world (snd r)) = files w /\
        trace (world (snd r))
        = (trace w ++ [EvPrint ("Session " ++ sid ++ " disconnected.")])%list).
Proof.
  intros env. split; [intros raw_text st H; by apply on_message_other|].
  intros websocket sid inbox w Hinbox r. subst r.
  unfold media_ws, serve, try_.
  set (st := {| sess := new_session sid websocket; world := w |}).
  destruct (receive_loop_other env inbox Hinbox st) as (Hr & Hs & Hf & Ht);
    [reflexivity|reflexivity|].
  destruct (receive_loop env inbox st) as [x st1]. cbn [fst snd] in *.
  subst x. cbv beta iota.
  unfold on_disconnect, _process_turn. rewrite bind_run.
  rewrite (idle_turn_is_noop env min_words_per_chunk st1)
    by (rewrite Hs; reflexivity).
  cbv beta iota. rewrite bind_run, get_sess_run. cbv beta iota.
  rewrite print_run. cbn [fst snd]. simpl.
  rewrite Hs, Hf, Ht. done.
Qed.

Lemma other_messages_are_ignored_witness :
  on_message Desk.office "connected" (Studio.session_with [x01])
  = (Ok tt, Studio.session_with [x01]) /\
  trace (world (snd (media_ws Desk.office 0 "CA1" ["connected"; "no-event"]
                       Studio.empty_world)))
  = [EvPrint "Session CA1 disconnected."].
Proof.
  destruct (other_messages_are_ignored Desk.office) as [Hone Hall].
  split.
  - exact (Hone "connected" (Studio.session_with [x01])
             office_connected_is_other).
  - destruct (Hall 0%nat "CA1" ["connected"; "no-event"] Studio.empty_world)
      as (_ & _ & _ & Ht).
    + repeat constructor;
        [exact office_connected_is_other | exact office_no_event_is_other].
    + exact Ht.
Defined.

(* ===================================================================== *)
(** * Further properties: the size trigger and the flag *)
(* ===================================================================== *)

Lemma run_returned_raise {A} (r : res A * St) (e : exn) :
  fst r = Raise e -> r = (Raise e, snd r).
Proof. destruct r as [x st]. simpl. by intros ->. Qed.

Lemma frame_abc_is_media (base : Env) :
  env_json_loads base = Studio.table_loads Studio.documents ->
  media_frame base "frame-abc" [x41; x42; x43].
Proof.
  intros Hloads.
  exists (Studio.media_msg "QUJD"), (JStr "media"),
         (JObj [("payload", JStr "QUJD")]), "QUJD".
  rewrite Hloads.
  split; [reflexivity|]. split; [reflexivity|]. split; [reflexivity|].
  split; [reflexivity|]. split; reflexivity.
Defined.

(** X14.  The flag is set by the turn, not by the frame that asks for it.
    So once the buffer holds 25600 bytes and until a task gets to run,
    every media frame creates one more task: after n frames n more tasks
    are waiting, for the same audio. *)
Theorem each_frame_over_threshold_creates_task :
  forall (env : Env) (raws : list string) (pcms : list bytes) (st : St),
    Forall2 (media_frame env) raws pcms ->
    25600 <= Z.of_nat (length (buffer (sess st))) ->
    processing (sess st) = false ->
    let st' := snd (feed env raws st) in
    fst (feed env raws st) = Ok tt /\
    pending (world st') = (pending (world st) + length raws)%nat /\
    trace (world st')
    = (trace (world st) ++ replicate (length raws) EvCreateTask)%list /\
    buffer (sess st') = (buffer (sess st) ++ concat pcms)%list /\
    processing (sess st') = false.
Proof.
  intros env raws pcms st Hframes. revert st.
  induction Hframes as [|raw pcm raws pcms Hframe _ IH]; intros st Hlen Hidle.
  - cbn [feed]. rewrite ret_run. cbn [fst snd length replicate concat].
    by rewrite Nat.add_0_r, !app_nil_r.
  - destruct (on_message_triggers env raw pcm st Hframe)
      as (st1 & Hrun & Hbuf & Hproc & Htrace & Hpend); [|exact Hidle|].
    { rewrite length_app. lia. }
    destruct (IH st1) as (Hok & Hp' & Ht' & Hb' & Hi').
    { rewrite Hbuf, length_app. lia. }
    { exact Hproc. }
    cbv zeta. cbn [feed]. rewrite bind_run, Hrun. cbv beta iota.
    split; [exact Hok|].
    rewrite Hp', Ht', Hb', Hpend, Htrace, Hbuf.
    cbn [length replicate concat].
    split; [lia|]. split; [by rewrite <- app_assoc|].
    split; [by rewrite <- app_assoc|]. exact Hi'.
Qed.

Lemma each_frame_over_threshold_creates_task_witness :
  let st := Studio.session_with (replicate (Z.to_nat 25600) x00) in
  let st' := snd (feed Studio.calm ["frame-abc"; "frame-abc"] st) in
  pending (world st') = 2%nat /\
  trace (world st') = [EvCreateTask; EvCreateTask].
Proof.
  intros st st'.
  destruct (each_frame_over_threshold_creates_task Studio.calm
              ["frame-abc"; "frame-abc"]
              [[x41; x42; x43]; [x41; x42; x43]] st)
    as (_ & Hp & Ht & _).
  - repeat constructor; apply frame_abc_is_media; reflexivity.
  - change (buffer (sess st)) with (replicate (Z.to_nat 25600) x00).
    rewrite length_replicate. lia.
  - reflexivity.
  - split; [exact Hp | exact Ht].
Defined.

(** X15.  After a turn that the WAV step made raise, the flag stays set
    and media frames never create a task again, however much audio comes:
    the buffer only grows, and nothing is added to the trace. *)
Theorem no_task_after_wav_failure :
  forall (env : Env) (st : St) (e : exn) (st2 : St)
         (raws : list string) (pcms : list bytes),
    buffer (sess st) <> [] ->
    save_raw_pcm_to_wav env (buffer (sess st)) (turn_started st)
    = (Raise e, st2) ->
    Forall2 (media_frame env) raws pcms ->
    let st1 := snd (_process_turn env st) in
    let st' := snd (feed env raws st1) in
    fst (_process_turn env st) = Raise e /\
    fst (feed env raws st1) = Ok tt /\
    processing (sess st') = true /\
    buffer (sess st') = (buffer (sess st) ++ concat pcms)%list /\
    pending (world st') = pending (world st) /\
    trace (world st') = trace (world st1).
Proof.
  intros env st e st2 raws pcms Hne Hsave Hframes st1 st'.
  destruct (flag_left_set_when_wav_step_raises env min_words_per_chunk st e st2
              Hne Hsave) as (Hrun & Hflag & Hbuf).
  assert (H1 : st1 = st2).
  { subst st1. unfold _process_turn. by rewrite Hrun. }
  destruct (feed_while_flag_set env raws pcms Hframes st1)
    as (st3 & Hfeed & (_ & Hb3 & Hp3 & _ & _ & Ht3 & Hpend3)).
  { by rewrite H1. }
  subst st'. rewrite Hfeed. cbn [fst snd].
  split; [unfold _process_turn; by rewrite Hrun|].
  split; [reflexivity|].
  split; [by rewrite Hp3, H1|].
  split; [by rewrite Hb3, H1, Hbuf|].
  split; [|exact Ht3].
  rewrite Hpend3. subst st1. unfold _process_turn. apply turn_keeps_pending.
Qed.

Lemma no_task_after_wav_failure_witness :
  let st := Studio.session_with [x01; x02] in
  let st1 := snd (_process_turn Studio.disk_full st) in
  let st' := snd (feed Studio.disk_full ["frame-abc"] st1) in
  processing (sess st') = true /\
  buffer (sess st') = [x01; x02; x41; x42; x43] /\
  pending (world st') = 0%nat.
Proof.
  intros st st1 st'.
  destruct (no_task_after_wav_failure Studio.disk_full st OSError
              (snd (save_raw_pcm_to_wav Studio.disk_full (buffer (sess st))
                      (turn_started st)))
              ["frame-abc"] [[x41; x42; x43]])
    as (_ & _ & Hp & Hb & Hn & _).
  - discriminate.
  - apply run_returned_raise. vm_compute. reflexivity.
  - repeat constructor. apply frame_abc_is_media. reflexivity.
  - split; [exact Hp|]. split; [exact Hb | exact Hn].
Defined.

(* ===================================================================== *)
(** * Further properties: the temporary files of the WAV step *)
(* ===================================================================== *)

Ltac files_solver :=
  rewrite ?elem_of_difference, ?elem_of_union, ?elem_of_singleton;
  rewrite ?elem_of_difference, ?elem_of_union, ?elem_of_singleton;
  tauto.

(** X16.  [save_raw_pcm_to_wav] works on two files only, tmp_<u1>.raw and
    tmp_<u2>.wav: every other file is as it was.  When it returns, it
    returns the name of the WAV file, the raw file is gone, and ffmpeg has
    been run once.  When the raw file is written and ffmpeg cannot be
    started, it raises [FileNotFoundError] and the raw file stays on the
    disk; when the write breaks half-way, [OSError] leaves the turn and the
    raw file stays as well. *)
Theorem wav_step_files :
  forall (env : Env) (raw_buffer : bytes) (st : St),
    let c := clock (world st) in
    let raw := "tmp_" ++ env_uuid4 env c ++ ".raw" in
    let wav := "tmp_" ++ env_uuid4 env (S c) ++ ".wav" in
    let r := save_raw_pcm_to_wav env raw_buffer st in
    (forall p, p <> raw -> p <> wav ->
               ((p ∈ files (world (snd r))) <-> (p ∈ files (world st)))) /\
    (forall w, fst r = Ok w ->
               w = wav /\ (raw ∉ files (world (snd r))) /\
               trace (world (snd r))
               = (trace (world st) ++ [EvFfmpeg raw wav])%list) /\
    (env_write env (S (S c)) raw = WriteDone ->
     env_ffmpeg env (S (S (S c))) = FfmpegMissing ->
     fst r = Raise (FileNotFoundError "ffmpeg") /\
     raw ∈ files (world (snd r))) /\
    (env_write env (S (S c)) raw = WriteFailed ->
     fst r = Raise OSError /\ raw ∈ files (world (snd r))).
Proof.
  intros env raw_buffer st c raw wav r.
  pattern r. match goal with |- ?P r => set (Q := P) end. subst r.
  unfold save_raw_pcm_to_wav.
  rewrite bind_run. unfold uuid4 at 1. rewrite bind_run, tick_run. cbv beta iota.
  rewrite ret_run. cbv beta iota.
  rewrite bind_run. unfold uuid4 at 1. rewrite bind_run, tick_run. cbv beta iota.
  rewrite ret_run. cbv beta iota.
  change (clock (world (ticked st))) with (S c).
  change (clock (world st)) with c.
  fold raw. fold wav.
  rewrite bind_run. unfold write_file. rewrite bind_run, tick_run. cbv beta iota.
  rewrite bind_run. cbn [get_world]. cbv beta iota.
  change (clock (world (ticked (ticked st)))) with (S (S c)).
  set (st3 := ticked (ticked (ticked st))).
  assert (Hf3 : files (world st3) = files (world st)) by reflexivity.
  assert (Ht3 : trace (world st3) = trace (world st)) by reflexivity.
  set (st4 := snd (set_files ({[raw]} ∪ files (world st3)) st3)).
  assert (Hf4 : files (world st4) = {[raw]} ∪ files (world st)) by reflexivity.
  assert (Ht4 : trace (world st4) = trace (world st)) by reflexivity.
  assert (Hc4 : clock (world st4) = S (S (S c))) by reflexivity.
  destruct (env_write env (S (S c)) raw) eqn:Hw.
  - (* the raw file is written *)
    change (set_files ({[raw]} ∪ files (world st3)) st3) with (Ok tt, st4).
    cbv beta iota.
    rewrite bind_run. unfold run_ffmpeg. rewrite bind_run, tick_run.
    cbv beta iota. rewrite Hc4.
    destruct (env_ffmpeg env (S (S (S c)))) as [|wrote] eqn:Hff.
    + (* no ffmpeg *)
      unfold raise. cbv beta iota. subst Q. cbv beta. cbn [fst snd].
      change (files (world (ticked st4))) with (files (world st4)).
      rewrite Hf4.
      split; [intros p Hraw Hwav; files_solver|].
      split; [intros w Hok; discriminate Hok|].
      split; [intros _ _; split; [reflexivity|files_solver]|].
      intros Hbad. discriminate Hbad.
    + rewrite bind_run, emit_run. cbv beta iota.
      rewrite bind_run. cbn [get_world]. cbv beta iota.
      set (st5 := logged (EvFfmpeg raw wav) (ticked st4)).
      assert (Hf5 : files (world st5) = {[raw]} ∪ files (world st))
        by reflexivity.
      assert (Ht5 : trace (world st5)
                    = (trace (world st) ++ [EvFfmpeg raw wav])%list)
        by reflexivity.
      assert (Hraw : raw ∈ files (world st5)) by (rewrite Hf5; files_solver).
      destruct wrote.
      * set (st6 := snd (set_files ({[wav]} ∪ files (world st5)) st5)).
        change (set_files ({[wav]} ∪ files (world st5)) st5) with (Ok tt, st6).
        cbv beta iota. rewrite bind_run.
        assert (Hf6 : files (world st6) = {[wav]} ∪ ({[raw]} ∪ files (world st)))
          by reflexivity.
        rewrite os_remove_run by (rewrite Hf6; files_solver).
        set (st7 := snd (set_files (files (world st6) ∖ {[raw]}) st6)).
        change (set_files (files (world st6) ∖ {[raw]}) st6) with (Ok tt, st7).
        cbv beta iota. rewrite ret_run. subst Q. cbv beta. cbn [fst snd].
        assert (Hf7 : files (world st7)
                      = ({[wav]} ∪ ({[raw]} ∪ files (world st))) ∖ {[raw]})
          by reflexivity.
        rewrite Hf7.
        split; [intros p Hp1 Hp2; files_solver|].
        split; [intros w [= <-]; split; [reflexivity|]; split;
                [files_solver | exact Ht5]|].
        split; [intros _ Hbad; discriminate Hbad|].
        intros Hbad. discriminate Hbad.
      * rewrite ret_run. cbv beta iota. rewrite bind_run.
        rewrite os_remove_run by exact Hraw.
        set (st7 := snd (set_files (files (world st5) ∖ {[raw]}) st5)).
        change (set_files (files (world st5) ∖ {[raw]}) st5) with (Ok tt, st7).
        cbv beta iota. rewrite ret_run. subst Q. cbv beta. cbn [fst snd].
        assert (Hf7 : files (world st7) = ({[raw]} ∪ files (world st)) ∖ {[raw]})
          by reflexivity.
        rewrite Hf7.
        split; [intros p Hp1 Hp2; files_solver|].
        split; [intros w [= <-]; split; [reflexivity|]; split;
                [files_solver | exact Ht5]|].
        split; [intros _ Hbad; discriminate Hbad|].
        intros Hbad. discriminate Hbad.
  - (* the raw file cannot be opened *)
    unfold raise. cbv beta iota. subst Q. cbv beta. cbn [fst snd]. rewrite Hf3.
    split; [intros p _ _; reflexivity|].
    split; [intros w Hok; discriminate Hok|].
    split; [intros Hbad; discriminate Hbad|].
    intros Hbad. discriminate Hbad.
  - (* the write breaks *)
    rewrite bind_run.
    change (set_files ({[raw]} ∪ files (world st3)) st3) with (Ok tt, st4).
    cbv beta iota. unfold raise. cbv beta iota. subst Q. cbv beta. cbn [fst snd]. rewrite Hf4.
    split; [intros p Hp1 Hp2; files_solver|].
    split; [intros w Hok; discriminate Hok|].
    split; [intros Hbad; discriminate Hbad|].
    intros _. split; [reflexivity|files_solver].
Qed.

Lemma wav_step_files_witness :
  let st := Studio.session_with [x01; x02] in
  let r := save_raw_pcm_to_wav Desk.no_wav [x01; x02] st in
  fst r = Ok "tmp_u1.wav" /\
  trace (world (snd r)) = [EvFfmpeg "tmp_u0.raw" "tmp_u1.wav"] /\
  ("tmp_u0.raw" ∉ files (world (snd r))).
Proof.
  intros st r.
  destruct (wav_step_files Desk.no_wav [x01; x02] st) as (_ & Hok & _).
  destruct (Hok "tmp_u1.wav") as (_ & Hraw & Htrace).
  - vm_compute. reflexivity.
  - split; [vm_compute; reflexivity|]. split; [exact Htrace | exact Hraw].
Defined.

(* ===================================================================== *)
(** * Further properties: a WAV file that is not there *)
(* ===================================================================== *)

(** X17.  The exit status of ffmpeg is not looked at.  When the WAV step
    returns and the WAV file is not on the disk, the turn makes no request
    to the transcription service: opening the file raises
    [FileNotFoundError], the error is printed ("Transcription error: [Errno
    2] No such file or directory: " and the name of the file as [repr]
    shows it), and the turn returns with the flag reset, the history as it
    was and the audio of the buffer gone. *)
Theorem missing_wav_drops_audio :
  forall (env : Env) (mw : Z) (st : St) (wav : string) (st2 : St),
    buffer (sess st) <> [] ->
    save_raw_pcm_to_wav env (buffer (sess st)) (turn_started st)
    = (Ok wav, st2) ->
    wav ∉ files (world st2) ->
    let r := process_turn_body env mw st in
    fst r = Ok tt /\
    buffer (sess (snd r)) = [] /\
    processing (sess (snd r)) = false /\
    conversation_history (sess (snd r)) = conversation_history (sess st) /\
    files (world (snd r)) = files (world st2) /\
    trace (world (snd r))
    = (trace (world st2)
       ++ [EvPrint ("Transcription error: "
                    ++ "[Errno 2] No such file or directory: "
                    ++ py_repr wav)])%list.
Proof.
  intros env mw st wav st2 Hne Hsave Hmissing r. subst r.
  pose proof (quiet_save_raw_pcm_to_wav env (buffer (sess st)) (turn_started st))
    as [Hs2 _].
  rewrite Hsave in Hs2. cbn [snd] in Hs2.
  assert (Htr : transcribe_wav env wav (buffer_cleared st2)
                = (Raise (FileNotFoundError wav), buffer_cleared st2)).
  { unfold transcribe_wav. rewrite bind_run. unfold open_rb.
    rewrite bind_run. cbn [get_world]. cbv beta iota.
    change (files (world (buffer_cleared st2))) with (files (world st2)).
    by destruct (decide (wav ∈ files (world st2))). }
  rewrite (process_turn_body_run env mw st wav st2 (JStr "") _ Hne Hsave
             (transcribe_phase_raises env wav _ _ _ Htr)).
  unfold after_transcript.
  change (String.eqb (strip "") "") with true. cbv iota.
  rewrite set_processing_run, print_run. cbn [fst snd]. simpl.
  by rewrite Hs2.
Qed.

Lemma missing_wav_drops_audio_witness :
  let st := Studio.session_with [x01; x02] in
  let r := process_turn_body Desk.no_wav min_words_per_chunk st in
  fst r = Ok tt /\
  buffer (sess (snd r)) = [] /\
  conversation_history (sess (snd r)) = [] /\
  trace (world (snd r))
  = [EvFfmpeg "tmp_u0.raw" "tmp_u1.wav";
     EvPrint ("Transcription error: [Errno 2] No such file or directory: "
              ++ "'tmp_u1.wav'")].
Proof.
  intros st r.
  destruct (missing_wav_drops_audio Desk.no_wav min_words_per_chunk st
              "tmp_u1.wav"
              (snd (save_raw_pcm_to_wav Desk.no_wav (buffer (sess st))
                      (turn_started st))))
    as (Hok & Hb & _ & Hh & _ & Ht).
  - discriminate.
  - apply run_returned. vm_compute. reflexivity.
  - intros Hin. apply (bool_decide_pack _) in Hin. vm_compute in Hin.
    exact Hin.
  - subst r. split; [exact Hok|]. split; [exact Hb|]. split; [exact Hh|].
    rewrite Ht. vm_compute. reflexivity.
Defined.

(* ===================================================================== *)
(** * Further properties: the chunks of a reply *)
(* ===================================================================== *)

Lemma synth_texts_all_spoken sid txts :
  forall evs, all_spoken sid txts evs -> synth_texts evs = txts.
Proof.
  induction txts as [|txt txts IH]; intros evs Hall; cbn [all_spoken] in Hall.
  - by subst evs.
  - destruct Hall as (e1 & e2 & H1 & H2 & ->).
    rewrite synth_texts_app, (synth_texts_spoken _ _ _ H1), (IH _ H2).
    reflexivity.
Qed.

(** Nothing is lost and nothing is said twice: the chunks cut while the
    stream runs, followed by the text left pending, are the pending text
    the loop started with followed by the deltas. *)
Lemma chunking_conserves mw ds :
  forall p,
    concat_str (fst (chunking mw p ds)) ++ snd (chunking mw p ds)
    = p ++ concat_str ds.
Proof.
  induction ds as [|d ds IH]; intros p; cbn [chunking concat_str].
  - cbn [fst snd concat_str]. by rewrite str_app_nil_r.
  - destruct (mw <=? Z.of_nat (length (split (p ++ d)))).
    + cbn [fst snd concat_str]. rewrite str_app_assoc, IH.
      change ("" ++ concat_str ds) with (concat_str ds).
      by rewrite str_app_assoc.
    + rewrite IH. by rewrite str_app_assoc.
Qed.

(** Every chunk cut while the stream runs has the minimum of words. *)
Lemma chunking_sizes mw ds :
  forall p, Forall (fun c => mw <= words c) (fst (chunking mw p ds)).
Proof.
  induction ds as [|d ds IH]; intros p; cbn [chunking].
  - constructor.
  - destruct (Z.leb_spec mw (Z.of_nat (length (split (p ++ d))))) as [Hle|Hlt].
    + cbn [fst]. constructor; [exact Hle | apply IH].
    + apply IH.
Qed.

Section Broken.

Context (env : Env).

(** The loop on a stream that delivers [ds] and then breaks: the chunks
    of [ds] have been spoken when the error leaves the loop. *)
Lemma stream_loop_drains sid mw e ls ds :
  drains env ls ds ->
  forall resp part st,
  exists st',
    stream_loop env sid mw (Some e) ls resp part st = (Raise e, st') /\
    sess st' = sess st /\
    exists evs,
      all_spoken sid (fst (chunking mw part ds)) evs /\
      reply_events (trace (world st'))
      = (reply_events (trace (world st)) ++ evs)%list.
Proof.
  induction 1 as [| line rest ds Hskip _ IH | line rest d ds Hcar Hne _ IH ];
    intros resp part st.
  - exists st. cbn [stream_loop chunking fst]. split; [reflexivity|].
    split; [reflexivity|]. exists []. by rewrite app_nil_r.
  - rewrite stream_loop_skip by done. apply IH.
  - cbn [chunking].
    destruct (Z.leb_spec mw (Z.of_nat (length (split (part ++ d)))))
      as [Hle | Hlt].
    + rewrite (stream_loop_reached env sid mw (Some e) line rest resp part d st)
        by done.
      destruct (chunk_spoken env sid (part ++ d) "Partial TTS/play error: " st)
        as (_ & Hs1 & e1 & Hsp & He1).
      cbv zeta in Hs1, He1.
      set (st1 := snd (try_ _ _ st)) in *.
      destruct (IH (resp ++ d) "" st1) as (st' & Hrun & Hs' & e2 & Hall & He2).
      exists st'. rewrite Hrun. cbn [fst snd].
      split; [reflexivity|]. split; [congruence|].
      exists (e1 ++ e2)%list. split.
      * exists e1, e2. done.
      * rewrite He2, He1, <- app_assoc. reflexivity.
    + rewrite (stream_loop_below env sid mw (Some e) line rest resp part d st)
        by done.
      apply IH.
Qed.

(** The second [try] on such a stream: it raises the error of the stream,
    with the session as it was. *)
Lemma generate_reply_breaks mw st r e ds :
  env_llm env (clock (world st)) (conversation_history (sess st))
  = HttpResponse r ->
  status_code r = 200 ->
  stream_error r = Some e ->
  drains env (lines r) ds ->
  exists st',
    generate_reply env mw st = (Raise e, st') /\
    sess st' = sess st /\
    exists evs,
      all_spoken (call_sid (sess st)) (fst (chunking mw "" ds)) evs /\
      reply_events (trace (world st'))
      = (reply_events (trace (world st))
         ++ EvGenerate (conversation_history (sess st)) :: evs)%list.
Proof.
  intros Hr Hst Herr Hd. unfold generate_reply.
  rewrite bind_run, get_sess_run. cbv beta iota.
  rewrite bind_run, tick_run. cbv beta iota.
  rewrite bind_run, emit_run. cbv beta iota.
  rewrite bind_run, Hr. simpl expect_response. rewrite ret_run. cbv beta iota.
  rewrite Hst, Z.eqb_refl. cbn [negb]. rewrite Herr.
  set (st1 := logged (EvGenerate (conversation_history (sess st))) (ticked st)).
  destruct (stream_loop_drains (call_sid (sess st)) mw e (lines r) ds Hd
              "" "" st1) as (st2 & Hrun & Hs2 & evs & Hall & He).
  rewrite bind_run, Hrun.
  exists st2. split; [reflexivity|]. split; [by rewrite Hs2|].
  exists evs. split; [exact Hall|].
  rewrite He. subst st1. simpl. rewrite reply_events_app. simpl.
  by rewrite <- app_assoc.
Qed.

End Broken.

(** X18.  A turn whose reply is streamed as the deltas [ds], with any
    minimum of words: the texts handed to the synthesis are the chunks of
    [reply_chunks], in order.  Each chunk cut while the stream runs has at
    least the minimum of words; the chunks in a row followed by the text
    left at the end of the stream are the whole reply, which is what the
    assistant entry holds; and the text left at the end is spoken unless
    it is blank. *)
Theorem reply_is_spoken_in_chunks :
  forall (env : Env) (mw : Z) (st : St) (wav : string) (st2 st3 : St)
         (txt : string) (r : Response) (ds : list string),
    buffer (sess st) <> [] ->
    save_raw_pcm_to_wav env (buffer (sess st)) (turn_started st)
    = (Ok wav, st2) ->
    transcribe_wav env wav (buffer_cleared st2) = (Ok (JStr txt), st3) ->
    strip txt <> "" ->
    env_llm env (clock (world st3))
      (conversation_history (sess st) ++ [Message user txt])%list
    = HttpResponse r ->
    status_code r = 200 ->
    stream_error r = None ->
    yields env (lines r) ds ->
    let st' := snd (process_turn_body env mw st) in
    let cut := fst (chunking mw "" ds) in
    let tail := snd (chunking mw "" ds) in
    conversation_history (sess st')
    = (conversation_history (sess st)
       ++ [Message user txt; Message assistant (concat_str ds)])%list /\
    synth_texts (trace (world st'))
    = (synth_texts (trace (world st))
       ++ cut ++ (if String.eqb (strip tail) "" then [] else [tail]))%list /\
    Forall (fun c => mw <= words c) cut /\
    concat_str cut ++ tail = concat_str ds.
Proof.
  intros env mw st wav st2 st3 txt r ds Hne Hsave Htr Htxt Hr Hst Herr Hy
         st' cut tail.
  destruct (turn_speaks_reply env mw st wav st2 st3 txt r ds
              Hne Hsave Htr Htxt Hr Hst Herr Hy)
    as (_ & _ & _ & Hhist & evs & Hall & Hev).
  fold st' in Hhist, Hev.
  split; [exact Hhist|]. split.
  - rewrite <- (synth_texts_reply_events (trace (world st'))), Hev.
    rewrite synth_texts_app, synth_texts_reply_events.
    cbn [synth_texts].
    by rewrite (synth_texts_all_spoken _ _ _ Hall).
  - split; [apply chunking_sizes|].
    subst cut tail. by rewrite chunking_conserves.
Qed.

Lemma office_yields_hello :
  yields Desk.office
    ["data: d1"; ""; "data: d2"; "data: d3"; "data: [DONE]"]
    ["Hello"; " there my"; " dear friend, how"].
Proof.
  apply yields_delta; [|discriminate|].
  { repeat split; try reflexivity. eexists. split; reflexivity. }
  apply yields_skip; [by left|].
  apply yields_delta; [|discriminate|].
  { repeat split; try reflexivity. eexists. split; reflexivity. }
  apply yields_delta; [|discriminate|].
  { repeat split; try reflexivity. eexists. split; reflexivity. }
  apply yields_done. split; reflexivity.
Defined.

Lemma reply_is_spoken_in_chunks_witness :
  let st := Studio.session_with [x01; x02] in
  let st' := snd (process_turn_body Desk.office min_words_per_chunk st) in
  conversation_history (sess st')
  = [Message user "hello";
     Message assistant "Hello there my dear friend, how"] /\
  synth_texts (trace (world st')) = ["Hello there my dear friend, how"].
Proof.
  intros st.
  destruct (reply_is_spoken_in_chunks Desk.office min_words_per_chunk st
              "tmp_u1.wav"
              (snd (save_raw_pcm_to_wav Desk.office (buffer (sess st))
                      (turn_started st)))
              (snd (transcribe_wav Desk.office "tmp_u1.wav"
                      (buffer_cleared
                         (snd (save_raw_pcm_to_wav Desk.office
                                 (buffer (sess st)) (turn_started st))))))
              "hello"
              {| status_code := 200; text := "";
                 lines := ["data: d1"; ""; "data: d2"; "data: d3";
                           "data: [DONE]"];
                 stream_error := None |}
              ["Hello"; " there my"; " dear friend, how"])
    as (H1 & H2 & _).
  - discriminate.
  - vm_compute. reflexivity.
  - vm_compute. reflexivity.
  - vm_compute. discriminate.
  - reflexivity.
  - reflexivity.
  - reflexivity.
  - exact office_yields_hello.
  - exact (conj H1 H2).
Defined.

(** X19.  A stream that delivers the deltas [ds] and then breaks, with no
    end marker: the chunks cut so far have been spoken to the caller, the
    text still pending is never spoken, the error is caught by the turn,
    and the history gets the user entry and no assistant entry. *)
Theorem broken_stream_leaves_no_assistant_entry :
  forall (env : Env) (mw : Z) (st : St) (wav : string) (st2 st3 : St)
         (txt : string) (r : Response) (e : exn) (ds : list string),
    buffer (sess st) <> [] ->
    save_raw_pcm_to_wav env (buffer (sess st)) (turn_started st)
    = (Ok wav, st2) ->
    transcribe_wav env wav (buffer_cleared st2) = (Ok (JStr txt), st3) ->
    strip txt <> "" ->
    env_llm env (clock (world st3))
      (conversation_history (sess st) ++ [Message user txt])%list
    = HttpResponse r ->
    status_code r = 200 ->
    stream_error r = Some e ->
    drains env (lines r) ds ->
    let st' := snd (process_turn_body env mw st) in
    fst (process_turn_body env mw st) = Ok tt /\
    processing (sess st') = false /\
    conversation_history (sess st')
    = (conversation_history (sess st) ++ [Message user txt])%list /\
    synth_texts (trace (world st'))
    = (synth_texts (trace (world st)) ++ fst (chunking mw "" ds))%list.
Proof.
  intros env mw st wav st2 st3 txt r e ds Hne Hsave Htr Htxt Hr Hst Herr Hd st'.
  destruct (before_transcript env st wav st2 _ st3 Hsave Htr)
    as (Hsid & Hbuf & _ & Hhist & Hev).
  subst st'.
  rewrite (process_turn_body_run env mw st wav st2 (JStr txt) _ Hne Hsave
             (transcribe_phase_ok env wav _ _ st3 Htr)).
  unfold after_transcript.
  apply String.eqb_neq in Htxt. rewrite Htxt.
  unfold reply_phase.
  set (line1 := "[" ++ call_sid (sess st) ++ "] Transcribed: " ++ txt).
  rewrite bind_run, print_run. cbv beta iota.
  rewrite bind_run, history_append_run. cbv beta iota.
  set (st5 := with_entry (Message user txt) (logged (EvPrint line1) st3)).
  assert (Hasked : conversation_history (sess st5)
                   = (conversation_history (sess st) ++ [Message user txt])%list).
  { subst st5. simpl. by rewrite Hhist. }
  assert (Hev5 : reply_events (trace (world st5))
                 = reply_events (trace (world st))).
  { subst st5. simpl. rewrite reply_events_app. simpl.
    by rewrite app_nil_r. }
  destruct (generate_reply_breaks env mw st5 r e ds)
    as (st6 & Hrun & Hs6 & evs & Hall & He6); try done.
  { by rewrite Hasked. }
  rewrite bind_run. unfold try_. rewrite Hrun. cbv beta iota.
  rewrite bind_run, print_run. cbv beta iota. rewrite ret_run. cbv beta iota.
  rewrite bind_run, print_run. cbv beta iota.
  rewrite set_processing_run. cbn [fst snd].
  split; [reflexivity|]. split; [reflexivity|]. split.
  - simpl. by rewrite Hs6.
  - rewrite <- (synth_texts_reply_events (trace _)). simpl.
    rewrite !reply_events_app. simpl. rewrite !app_nil_r.
    rewrite He6, Hev5, synth_texts_app, synth_texts_reply_events.
    cbn [synth_texts].
    by rewrite (synth_texts_all_spoken _ _ _ Hall).
Qed.

Lemma broken_stream_drains :
  drains Desk.broken_stream
    ["data: d1"; "data: d2"; "data: d3"; "data: d4"]
    ["Hello"; " there my"; " dear friend, how"; " are you?"].
Proof.
  apply drains_delta; [|discriminate|].
  { repeat split; try reflexivity. eexists. split; reflexivity. }
  apply drains_delta; [|discriminate|].
  { repeat split; try reflexivity. eexists. split; reflexivity. }
  apply drains_delta; [|discriminate|].
  { repeat split; try reflexivity. eexists. split; reflexivity. }
  apply drains_delta; [|discriminate|].
  { repeat split; try reflexivity. eexists. split; reflexivity. }
  apply drains_end.
Defined.

Lemma broken_stream_leaves_no_assistant_entry_witness :
  let st := Studio.session_with [x01; x02] in
  let st' := snd (process_turn_body Desk.broken_stream min_words_per_chunk st) in
  conversation_history (sess st') = [Message user "hello"] /\
  synth_texts (trace (world st')) = ["Hello there my dear friend, how"].
Proof.
  intros st.
  destruct (broken_stream_leaves_no_assistant_entry Desk.broken_stream
              min_words_per_chunk st
              "tmp_u1.wav"
              (snd (save_raw_pcm_to_wav Desk.broken_stream (buffer (sess st))
                      (turn_started st)))
              (snd (transcribe_wav Desk.broken_stream "tmp_u1.wav"
                      (buffer_cleared
                         (snd (save_raw_pcm_to_wav Desk.broken_stream
                                 (buffer (sess st)) (turn_started st))))))
              "hello"
              {| status_code := 200; text := "";
                 lines := ["data: d1"; "data: d2"; "data: d3"; "data: d4"];
                 stream_error := Some RequestException |}
              RequestException
              ["Hello"; " there my"; " dear friend, how"; " are you?"])
    as (_ & _ & H1 & H2).
  - discriminate.
  - vm_compute. reflexivity.
  - vm_compute. reflexivity.
  - vm_compute. discriminate.
  - reflexivity.
  - reflexivity.
  - reflexivity.
  - exact broken_stream_drains.
  - exact (conj H1 H2).
Defined.

(* ===================================================================== *)
(** * Further properties: a call shorter than the threshold *)
(* ===================================================================== *)

(** X20.  A call whose media frames leave the buffer under 25600 bytes
    (0.8 s of audio) starts no turn while it lasts: the frames only fill
    the buffer, and the handler ends on the disconnection, where
    [on_disconnect] runs the one turn that gets all the audio. *)
Theorem short_call_is_one_turn :
  forall (env : Env) (raws : list string) (pcms : list bytes) (st : St),
    Forall2 (media_frame env) raws pcms ->
    pending (world st) = 0%nat ->
    Z.of_nat (length (buffer (sess st) ++ concat pcms)) < 25600 ->
    let st1 := snd (receive_loop env raws st) in
    fst (receive_loop env raws st) = Raise WebSocketDisconnect /\
    buffered (concat pcms) st st1 /\
    serve env raws st = on_disconnect env st1.
Proof.
  intros env raws pcms st Hframes Hidle Hlen st1.
  destruct (receive_loop_below env raws pcms Hframes st Hidle Hlen)
    as [Hraise Hbuf].
  split; [exact Hraise|]. split; [exact Hbuf|].
  subst st1. unfold serve, try_.
  destruct (receive_loop env raws st) as [x st1]. cbn [fst snd] in *.
  by subst x.
Qed.

Lemma short_call_is_one_turn_witness :
  let st := Studio.session_with [] in
  let st1 := snd (receive_loop Studio.calm ["frame-abc"; "frame-abc"] st) in
  buffer (sess st1) = [x41; x42; x43; x41; x42; x43] /\
  trace (world st1) = [] /\
  serve Studio.calm ["frame-abc"; "frame-abc"] st = on_disconnect Studio.calm st1.
Proof.
  intros st st1.
  destruct (short_call_is_one_turn Studio.calm ["frame-abc"; "frame-abc"]
              [[x41; x42; x43]; [x41; x42; x43]] st)
    as (_ & (_ & Hb & _ & _ & _ & Ht & _) & Hserve).
  - repeat constructor; apply frame_abc_is_media; reflexivity.
  - reflexivity.
  - vm_compute. reflexivity.
  - split; [exact Hb|]. split; [exact Ht | exact Hserve].
Defined.

(* ===================================================================== *)
(** * Further properties: the lock never stops the turns *)
(* ===================================================================== *)

Section Progress.

Context (env : Env).

(** While the lock is taken, the execution that took it is inside the
    block. *)
Lemma holder_step sys sys' :
  (Tasks.locked sys = true ->
   exists i p, Tasks.tasks sys !! i = Some p /\ Tasks.active p = true) ->
  Tasks.step env sys sys' ->
  Tasks.locked sys' = true ->
  exists i p, Tasks.tasks sys' !! i = Some p /\ Tasks.active p = true.
Proof.
  intros Hholder Hstep.
  inversion Hstep as
    [ s | s i p Hi Hp Hl | s i Hi Hl | s i Hi | s i Hi | s pcm ];
    subst; cbn [Tasks.locked Tasks.tasks]; intros Hlocked.
  - destruct (Hholder Hlocked) as (j & q & Hj & Hq).
    exists j, q. split; [|exact Hq]. by apply lookup_app_l_Some.
  - exists i, Tasks.Holding. split; [|reflexivity].
    apply list_lookup_insert_Some. left.
    split; [reflexivity|]. split; [reflexivity|]. by eapply lookup_lt_Some.
  - destruct (Hholder Hlocked) as (j & q & Hj & Hq).
    exists j, q. split; [|exact Hq].
    apply list_lookup_insert_Some. right. split; [|exact Hj].
    intros ->. rewrite Hi in Hj. injection Hj as <-. discriminate Hq.
  - exists i, Tasks.Leaving. split; [|reflexivity].
    apply list_lookup_insert_Some. left.
    split; [reflexivity|]. split; [reflexivity|]. by eapply lookup_lt_Some.
  - discriminate Hlocked.
  - exact (Hholder Hlocked).
Qed.

Lemma holder_reachable st sys :
  Tasks.reachable env st sys ->
  Tasks.locked sys = true ->
  exists i p, Tasks.tasks sys !! i = Some p /\ Tasks.active p = true.
Proof.
  unfold Tasks.reachable. revert sys.
  apply (rtc_ind_r
           (fun sys =>
              Tasks.locked sys = true ->
              exists i p,
                Tasks.tasks sys !! i = Some p /\ Tasks.active p = true)).
  - intros Hl. discriminate Hl.
  - intros sys sys' _ Hstep IH. by eapply holder_step.
Qed.

End Progress.

(** X21.  The lock never stops the turns of a session for good.  In every
    state reached by the executions of [_process_turn], as long as one of
    them has not finished, one of them can take its next step: acquire the
    free lock, run the block, or release the lock. *)
Theorem some_turn_can_advance :
  forall (env : Env) (st : St) (sys : Tasks.System),
    Tasks.reachable env st sys ->
    forall i p,
      Tasks.tasks sys !! i = Some p -> p <> Tasks.Finished ->
      exists j q q' sys',
        Tasks.tasks sys !! j = Some q /\ advances q q' /\
        Tasks.step env sys sys' /\
        Tasks.tasks sys' = <[j := q']> (Tasks.tasks sys).
Proof.
  intros env st sys Hreach i p Hi Hp.
  assert (Hinside :
    forall j q, Tasks.tasks sys !! j = Some q -> Tasks.active q = true ->
      exists q' sys',
        advances q q' /\ Tasks.step env sys sys' /\
        Tasks.tasks sys' = <[j := q']> (Tasks.tasks sys)).
  { intros j q Hj Hq. destruct q; try discriminate Hq.
    - eexists Tasks.Leaving, _. split; [constructor|].
      split; [apply (Tasks.step_body env sys j Hj)|reflexivity].
    - eexists Tasks.Finished, _. split; [constructor|].
      split; [apply (Tasks.step_release env sys j Hj)|reflexivity]. }
  assert (Hwaiting :
    p = Tasks.Created \/ p = Tasks.Blocked ->
    exists j q q' sys',
      Tasks.tasks sys !! j = Some q /\ advances q q' /\
      Tasks.step env sys sys' /\
      Tasks.tasks sys' = <[j := q']> (Tasks.tasks sys)).
  { intros Hwait. destruct (Tasks.locked sys) eqn:Hl.
    - destruct (holder_reachable env st sys Hreach Hl) as (j & q & Hj & Hq).
      destruct (Hinside j q Hj Hq) as (q' & sys' & Hadv & Hstep & Htasks).
      exists j, q, q', sys'. done.
    - exists i, p, Tasks.Holding. eexists.
      split; [exact Hi|]. split.
      + destruct Hwait as [-> | ->]; constructor.
      + split; [apply (Tasks.step_acquire env sys i p Hi Hwait Hl)|reflexivity]. }
  destruct p.
  - apply Hwaiting. by left.
  - apply Hwaiting. by right.
  - destruct (Hinside i Tasks.Holding Hi eq_refl) as (q' & sys' & H).
    exists i, Tasks.Holding, q', sys'. by split.
  - destruct (Hinside i Tasks.Leaving Hi eq_refl) as (q' & sys' & H).
    exists i, Tasks.Leaving, q', sys'. by split.
  - done.
Qed.

Lemma some_turn_can_advance_witness :
  let st := Studio.session_with [x01; x02] in
  let sys :=
    {| Tasks.locked := true;
       Tasks.tasks := [Tasks.Blocked; Tasks.Leaving];
       Tasks.shared :=
         snd (process_turn_body Studio.calm min_words_per_chunk st) |} in
  exists j q q' sys',
    Tasks.tasks sys !! j = Some q /\ advances q q' /\
    Tasks.step Studio.calm sys sys' /\
    Tasks.tasks sys' = <[j := q']> (Tasks.tasks sys).
Proof.
  intros st sys.
  apply (some_turn_can_advance Studio.calm st sys) with (i := 0%nat)
                                                       (p := Tasks.Blocked).
  - unfold Tasks.reachable.
    eapply rtc_l; [apply Tasks.step_issue|].
    eapply rtc_l; [apply Tasks.step_issue|].
    eapply rtc_l;
      [apply (Tasks.step_acquire _ _ 1%nat Tasks.Created);
       [reflexivity | by left | reflexivity]|].
    eapply rtc_l; [apply (Tasks.step_block _ _ 0%nat); reflexivity|].
    eapply rtc_l; [apply (Tasks.step_body _ _ 1%nat); reflexivity|].
    apply rtc_refl.
  - reflexivity.
  - discriminate.
Defined.

(* ===================================================================== *)
(** * Further properties: what is played *)
(* ===================================================================== *)


(** X22.  Twilio is told to play a chunk only after its file has been
    written: when [synthesize_tts] returns, the file it names is under
    static/audio, and the one update sent to the call plays
    <PUBLIC_HOST>/audio/<that name>.  The host is not checked here: with
    PUBLIC_HOST unset the URL played starts with None/audio/. *)
Theorem played_file_is_on_disk :
  forall (env : Env) (sid txt : string) (st : St) (filename : string) (st1 : St),
    synthesize_tts env txt st = (Ok filename, st1) ->
    let r := synthesize_and_play env sid txt st in
    let url := audio_url_of env filename in
    ("static/audio/" ++ filename ∈ files (world (snd r))) /\
    trace (world (snd r))
    = (trace (world st)
       ++ [EvSynthesize txt;
           EvPlay sid ("<Response><Play>" ++ url ++ "</Play></Response>")])%list /\
    (env_public_host env = None -> url = "None/audio/" ++ filename).
Proof.
  intros env sid txt st filename st1 Hsynth r url. subst r.
  destruct (synthesize_tts_returns env txt st filename st1 Hsynth)
    as [Hfile Htrace].
  unfold synthesize_and_play. rewrite bind_run, Hsynth. cbv beta iota.
  fold url. unfold twilio_redirect_play.
  rewrite bind_run, tick_run. cbv beta iota.
  rewrite bind_run, emit_run. cbv beta iota.
  set (twiml := "<Response><Play>" ++ url ++ "</Play></Response>").
  split; [|split].
  - by destruct (env_twilio env (clock (world st1)) sid twiml).
  - destruct (env_twilio env (clock (world st1)) sid twiml); simpl;
      by rewrite Htrace, <- app_assoc.
  - intros Hhost. subst url. unfold audio_url_of. by rewrite Hhost.
Qed.

Lemma played_file_is_on_disk_witness :
  let r := synthesize_and_play Studio.calm "CA1" "Hola" (Studio.session_with []) in
  ("static/audio/u1.mp3" ∈ files (world (snd r))) /\
  trace (world (snd r))
  = [EvSynthesize "Hola";
     EvPlay "CA1"
       "<Response><Play>https://voice.example/audio/u1.mp3</Play></Response>"].
Proof.
  intros r.
  destruct (played_file_is_on_disk Studio.calm "CA1" "Hola"
              (Studio.session_with []) "u1.mp3"
              (snd (synthesize_tts Studio.calm "Hola" (Studio.session_with []))))
    as (Hfile & Htrace & _).
  - apply run_returned. vm_compute. reflexivity.
  - split; [exact Hfile | exact Htrace].
Defined.

(* ===================================================================== *)
(** * Further properties: the size of a decoded frame *)
(* ===================================================================== *)

(** Each sextet gives at most six bits: the bytes written are at most
    three for every four characters read. *)
Lemma a2b_loop_size s :
  forall quad_pos leftchar pads out decoded,
    0 <= quad_pos <= 3 ->
    Base64.a2b_loop s quad_pos leftchar pads out = Ok decoded ->
    4 * Z.of_nat (length decoded)
    <= 4 * Z.of_nat (length out) + 3 * Z.of_nat (String.length s)
       + (if quad_pos =? 0 then 0 else 4 - quad_pos).
Proof.
  induction s as [|c s IH]; intros quad_pos leftchar pads out decoded Hq;
    cbn [Base64.a2b_loop String.length].
  - destruct (Z.eqb_spec quad_pos 0); [|by destruct (quad_pos =? 1)].
    intros [= <-]. lia.
  - destruct (Ascii.eqb c "="%char).
    { destruct ((2 <=? quad_pos) && (4 <=? quad_pos + (pads + 1))).
      - intros [= <-]. destruct (Z.eqb_spec quad_pos 0); lia.
      - intros H. apply IH in H; [|exact Hq]. lia. }
    destruct (Base64.sextet c) as [v|].
    2:{ intros H. apply IH in H; [|exact Hq]. lia. }
    destruct (Z.eqb_spec quad_pos 0) as [->|H0].
    { intros H. apply IH in H; [|lia]. change (1 =? 0) with false in H.
      cbv iota in H. lia. }
    destruct (Z.eqb_spec quad_pos 1) as [->|H1].
    { intros H. apply IH in H; [|lia]. change (2 =? 0) with false in H.
      cbv iota in H. rewrite length_app in H. cbn [length] in H. lia. }
    destruct (Z.eqb_spec quad_pos 2) as [->|H2].
    { intros H. apply IH in H; [|lia]. change (3 =? 0) with false in H.
      cbv iota in H. rewrite length_app in H. cbn [length] in H. lia. }
    intros H. apply IH in H; [|lia]. change (0 =? 0) with true in H.
    cbv iota in H. rewrite length_app in H. cbn [length] in H. lia.
Qed.

(** X23.  A payload that decodes gives at most three bytes for every four
    of its characters, so a media message of n characters adds at most
    3n/4 bytes to the buffer. *)
Theorem decoded_frame_size :
  forall (payload_b64 : string) (pcm : bytes),
    decode_twilio_media_frame payload_b64 = Ok pcm ->
    4 * Z.of_nat (length pcm) <= 3 * Z.of_nat (String.length payload_b64) /\
    forall buffer,
      4 * Z.of_nat (length (append_pcm_to_buffer buffer pcm))
      <= 4 * Z.of_nat (length buffer) + 3 * Z.of_nat (String.length payload_b64).
Proof.
  intros payload_b64 pcm. unfold decode_twilio_media_frame, Base64.b64decode.
  destruct (Base64.all_ascii payload_b64); [|discriminate].
  intros H. apply a2b_loop_size in H; [|lia].
  change (0 =? 0) with true in H. cbv iota in H. cbn [length] in H.
  split; [lia|].
  intros buffer. unfold append_pcm_to_buffer. rewrite length_app. lia.
Qed.

Lemma decoded_frame_size_witness :
  4 * Z.of_nat (length [x41; x42; x43]) <= 3 * Z.of_nat (String.length "QUJD").
Proof.
  exact (proj1 (decoded_frame_size "QUJD" [x41; x42; x43] eq_refl)).
Defined.

(* ===================================================================== *)
(** * Malformed payloads *)
(* ===================================================================== *)

Lemma in_alphabet_not_pad c : in_alphabet c = true -> Ascii.eqb c "="%char = false.
Proof.
  intros Hc. destruct (Ascii.eqb_spec c "="%char) as [-> | _]; [|reflexivity].
  discriminate Hc.
Qed.

Lemma in_alphabet_sextet c :
  in_alphabet c = true -> exists v, Base64.sextet c = Some v.
Proof.
  unfold in_alphabet. destruct (Base64.sextet c) as [v|]; [eauto|discriminate].
Qed.

Lemma in_alphabet_ascii c : in_alphabet c = true -> (N_of_ascii c <? 128)%N = true.
Proof.
  unfold in_alphabet, Base64.sextet. intros Hc. apply N.ltb_lt.
  set (n := Z.of_N (N_of_ascii c)) in *.
  assert (Hn : n <= 122); [|lia].
  destruct (Z.leb_spec 65 n), (Z.leb_spec n 90); cbn [andb] in Hc; try lia;
    destruct (Z.leb_spec 97 n), (Z.leb_spec n 122); cbn [andb] in Hc; try lia;
    destruct (Z.leb_spec 48 n), (Z.leb_spec n 57); cbn [andb] in Hc; try lia;
    destruct (Z.eqb_spec n 43); try lia;
    destruct (Z.eqb_spec n 47); try lia; discriminate Hc.
Qed.

Lemma all_alphabet_ascii s : all_alphabet s = true -> Base64.all_ascii s = true.
Proof.
  induction s as [|c s IH]; [done|]. cbn [all_alphabet Base64.all_ascii].
  intros [Hc Hs]%andb_prop. by rewrite (in_alphabet_ascii c Hc), IH.
Qed.

(** The loop on characters of the alphabet only: it returns when they fill
    whole groups of four, and raises otherwise. *)
Lemma a2b_loop_alphabet s :
  all_alphabet s = true ->
  forall quad_pos leftchar pads out,
    0 <= quad_pos <= 3 ->
    if (quad_pos + Z.of_nat (String.length s)) mod 4 =? 0
    then exists decoded,
        Base64.a2b_loop s quad_pos leftchar pads out = Ok decoded
    else exists msg,
        Base64.a2b_loop s quad_pos leftchar pads out
        = Raise (binascii_Error msg).
Proof.
  induction s as [|c s IH]; intros Hs quad_pos leftchar pads out Hq.
  - cbn [Base64.a2b_loop String.length].
    assert (Hmod : (quad_pos + Z.of_nat 0) mod 4 = quad_pos).
    { rewrite Z.add_0_r. apply Z.mod_small. lia. }
    rewrite Hmod.
    destruct (Z.eqb_spec quad_pos 0); [eauto|].
    destruct (quad_pos =? 1); eauto.
  - cbn [all_alphabet] in Hs. apply andb_prop in Hs as [Hc Hs].
    destruct (in_alphabet_sextet c Hc) as [v Hv].
    cbn [Base64.a2b_loop String.length].
    rewrite (in_alphabet_not_pad c Hc), Hv.
    assert (Hnext : forall q,
               0 <= q <= 3 -> (q = quad_pos + 1 \/ (q = 0 /\ quad_pos = 3)) ->
               (q + Z.of_nat (String.length s)) mod 4
               = (quad_pos + Z.of_nat (S (String.length s))) mod 4).
    { intros q Hq' [-> | [-> ->]].
      - f_equal. lia.
      - replace (3 + Z.of_nat (S (String.length s)))
          with (0 + Z.of_nat (String.length s) + 1 * 4) by lia.
        by rewrite Z.mod_add. }
    destruct (Z.eqb_spec quad_pos 0) as [->|H0].
    { rewrite <- (Hnext 1) by lia. apply IH; [exact Hs | lia]. }
    destruct (Z.eqb_spec quad_pos 1) as [->|H1].
    { rewrite <- (Hnext 2) by lia. apply IH; [exact Hs | lia]. }
    destruct (Z.eqb_spec quad_pos 2) as [->|H2].
    { rewrite <- (Hnext 3) by lia. apply IH; [exact Hs | lia]. }
    rewrite <- (Hnext 0) by lia. apply IH; [exact Hs | lia].
Qed.

(** A well-formed payload is accepted. *)
Lemma a2b_loop_well_formed n :
  forall s out,
    (String.length s <= n)%nat -> well_formed s = true ->
    Base64.all_ascii s = true /\
    exists decoded, Base64.a2b_loop s 0 0 0 out = Ok decoded.
Proof.
  induction n as [|n IH]; intros s out Hlen Hwf.
  - destruct s; [|cbn [String.length] in Hlen; lia].
    split; [reflexivity|]. by eexists.
  - destruct s as [|c1 [|c2 [|c3 [|c4 rest]]]]; try discriminate Hwf.
    { split; [reflexivity|]. by eexists. }
    cbn [well_formed] in Hwf.
    apply andb_prop in Hwf as [[H1 H2]%andb_prop Hwf].
    destruct (in_alphabet_sextet c1 H1) as [v1 Hv1].
    destruct (in_alphabet_sextet c2 H2) as [v2 Hv2].
    cbn [Base64.all_ascii Base64.a2b_loop].
    rewrite (in_alphabet_ascii c1 H1), (in_alphabet_ascii c2 H2).
    rewrite (in_alphabet_not_pad c1 H1), Hv1.
    change (0 =? 0) with true. cbv iota.
    rewrite (in_alphabet_not_pad c2 H2), Hv2.
    change (1 =? 0) with false. change (1 =? 1) with true. cbv iota.
    cbn [andb].
    destruct (in_alphabet c3) eqn:H3.
    + destruct (in_alphabet_sextet c3 H3) as [v3 Hv3].
      rewrite (in_alphabet_ascii c3 H3), (in_alphabet_not_pad c3 H3), Hv3.
      change (2 =? 0) with false. change (2 =? 1) with false.
      change (2 =? 2) with true. cbv iota. cbn [andb].
      destruct (in_alphabet c4) eqn:H4.
      * destruct (in_alphabet_sextet c4 H4) as [v4 Hv4].
        rewrite (in_alphabet_ascii c4 H4), (in_alphabet_not_pad c4 H4), Hv4.
        change (3 =? 0) with false. change (3 =? 1) with false.
        change (3 =? 2) with false. cbv iota. cbn [andb].
        apply IH; [|exact Hwf]. cbn [String.length] in Hlen. lia.
      * apply andb_prop in Hwf as [Hpad Hend].
        apply String.eqb_eq in Hend. subst rest.
        apply Ascii.eqb_eq in Hpad. subst c4.
        split; [reflexivity|].
        cbn [Base64.a2b_loop]. change (Ascii.eqb "=" "=") with true. cbv iota.
        change ((2 <=? 3) && (4 <=? 3 + (0 + 1))) with true. cbv iota.
        by eexists.
    + apply andb_prop in Hwf as [[Hpad3 Hpad4]%andb_prop Hend].
      apply String.eqb_eq in Hend. subst rest.
      apply Ascii.eqb_eq in Hpad3, Hpad4. subst c3 c4.
      split; [reflexivity|].
      cbn [Base64.a2b_loop]. change (Ascii.eqb "=" "=") with true. cbv iota.
      change ((2 <=? 2) && (4 <=? 2 + (0 + 1))) with false. cbv iota.
      change (2 <=? 2) with true. cbv iota.
      change ((2 <=? 2) && (4 <=? 2 + (0 + 1 + 1))) with true. cbv iota.
      by eexists.
Qed.

Lemma well_formed_decodes payload_b64 :
  well_formed payload_b64 = true ->
  exists pcm, decode_twilio_media_frame payload_b64 = Ok pcm.
Proof.
  intros Hwf.
  destruct (a2b_loop_well_formed (String.length payload_b64) payload_b64 []
              (le_n _) Hwf) as [Hascii [pcm Hpcm]].
  exists pcm. unfold decode_twilio_media_frame, Base64.b64decode.
  by rewrite Hascii.
Qed.

(** The characters of a well-formed payload. *)
Lemma well_formed_chars n :
  forall s c,
    (String.length s <= n)%nat -> well_formed s = true ->
    holds_char c s = true ->
    in_alphabet c = true \/ c = "="%char.
Proof.
  induction n as [|n IH]; intros s c Hlen Hwf Hc.
  - destruct s; [discriminate Hc | cbn [String.length] in Hlen; lia].
  - destruct s as [|c1 [|c2 [|c3 [|c4 rest]]]]; try discriminate Hwf;
      [discriminate Hc|].
    cbn [well_formed] in Hwf.
    apply andb_prop in Hwf as [[H1 H2]%andb_prop Hwf].
    cbn [holds_char] in Hc.
    apply orb_prop in Hc as [Hc | Hc];
      [apply Ascii.eqb_eq in Hc; subst c; by left|].
    apply orb_prop in Hc as [Hc | Hc];
      [apply Ascii.eqb_eq in Hc; subst c; by left|].
    destruct (in_alphabet c3) eqn:H3.
    + apply orb_prop in Hc as [Hc | Hc];
        [apply Ascii.eqb_eq in Hc; subst c; by left|].
      destruct (in_alphabet c4) eqn:H4.
      * apply orb_prop in Hc as [Hc | Hc];
          [apply Ascii.eqb_eq in Hc; subst c; by left|].
        apply (IH rest c); [cbn [String.length] in Hlen; lia | done | done].
      * apply andb_prop in Hwf as [Hpad Hend].
        apply String.eqb_eq in Hend. subst rest.
        apply Ascii.eqb_eq in Hpad. subst c4.
        apply orb_prop in Hc as [Hc | Hc]; [|discriminate Hc].
        apply Ascii.eqb_eq in Hc. subst c. by right.
    + apply andb_prop in Hwf as [[Hpad3 Hpad4]%andb_prop Hend].
      apply String.eqb_eq in Hend. subst rest.
      apply Ascii.eqb_eq in Hpad3, Hpad4. subst c3 c4.
      apply orb_prop in Hc as [Hc | Hc];
        [apply Ascii.eqb_eq in Hc; subst c; by right|].
      apply orb_prop in Hc as [Hc | Hc]; [|discriminate Hc].
      apply Ascii.eqb_eq in Hc. subst c. by right.
Qed.

Lemma holds_char_last c s : holds_char c (s ++ String c "") = true.
Proof.
  induction s as [|a s IH].
  - change ("" ++ String c "") with (String c "").
    cbn [holds_char]. by rewrite Ascii.eqb_refl.
  - change (String a s ++ String c "") with (String a (s ++ String c "")).
    cbn [holds_char]. rewrite IH. apply orb_true_r.
Qed.

(** The decoder passes over a character that is neither of the alphabet
    nor the padding. *)
Lemma a2b_loop_junk c s :
  in_alphabet c = false -> c <> "="%char ->
  forall quad_pos leftchar pads out,
    Base64.a2b_loop (s ++ String c "") quad_pos leftchar pads out
    = Base64.a2b_loop s quad_pos leftchar pads out.
Proof.
  intros Hc Hpad.
  assert (Hnone : Base64.sextet c = None).
  { unfold in_alphabet in Hc. by destruct (Base64.sextet c). }
  apply Ascii.eqb_neq in Hpad.
  induction s as [|a s IH]; intros quad_pos leftchar pads out.
  - change ("" ++ String c "") with (String c "").
    cbn [Base64.a2b_loop]. by rewrite Hpad, Hnone.
  - change (String a s ++ String c "") with (String a (s ++ String c "")).
    cbn [Base64.a2b_loop].
    destruct (Ascii.eqb a "="%char).
    + by destruct ((2 <=? quad_pos) && (4 <=? quad_pos + (pads + 1))).
    + destruct (Base64.sextet a); [|apply IH].
      destruct (quad_pos =? 0); [apply IH|].
      destruct (quad_pos =? 1); [apply IH|].
      destruct (quad_pos =? 2); apply IH.
Qed.

Lemma all_ascii_junk c s :
  (N_of_ascii c < 128)%N ->
  Base64.all_ascii (s ++ String c "") = Base64.all_ascii s.
Proof.
  intros Hc. apply N.ltb_lt in Hc.
  induction s as [|a s IH].
  - change ("" ++ String c "") with (String c "").
    cbn [Base64.all_ascii]. by rewrite Hc.
  - change (String a s ++ String c "") with (String a (s ++ String c "")).
    cbn [Base64.all_ascii]. by rewrite IH.
Qed.

(** A media message whose payload decodes: its bytes go to the buffer. *)
Lemma on_message_appends env raw_text payload_b64 pcm st :
  media_payload env raw_text payload_b64 ->
  decode_twilio_media_frame payload_b64 = Ok pcm ->
  fst (on_message env raw_text st) = Ok tt /\
  buffer (sess (snd (on_message env raw_text st))) = (buffer (sess st) ++ pcm)%list.
Proof.
  intros Hmsg Hdec.
  destruct (on_message_media env raw_text pcm st
              (media_payload_frame env raw_text payload_b64 pcm Hmsg Hdec))
    as (st1 & (_ & Hbuf & _) & Hrun).
  rewrite Hrun.
  destruct ((25600 <=? Z.of_nat (length (buffer (sess st) ++ pcm)))
            && negb (processing (sess st))); by split.
Qed.

(** C4, amended.  A malformed payload is not a dropped frame, and the
    decoding does not fail on every one of them.  The decoder is lenient: a
    character that is neither of the alphabet nor the padding is passed
    over, so a payload followed by such a character, malformed as it is,
    decodes exactly as the payload without it; and the bytes of a payload
    that decodes go to the buffer, as for any frame.  The decoding fails on
    malformed payloads only, and it does fail on every payload made of
    characters of the alphabet whose number is not a multiple of four
    ([binascii.Error]); a payload that is not ASCII gives [ValueError].
    When the decoding fails, the error leaves [on_message] with the buffer,
    the history and the flag of the session as they were; [media_ws]
    catches it, prints it and runs [on_disconnect], a last turn on the
    audio buffered so far.  The session ends there: the messages that
    follow are never read, and the handler returns exactly when that last
    turn returns. *)
Theorem malformed_payload_is_decoded_or_fatal :
  forall (env : Env),
    (forall (p : string) (c : ascii),
        in_alphabet c = false -> c <> "="%char -> (N_of_ascii c < 128)%N ->
        well_formed (p ++ String c "") = false /\
        decode_twilio_media_frame (p ++ String c "")
        = decode_twilio_media_frame p) /\
    (forall p : string,
        all_alphabet p = true -> Z.of_nat (String.length p) mod 4 <> 0 ->
        well_formed p = false /\
        exists msg, decode_twilio_media_frame p = Raise (binascii_Error msg)) /\
    (forall (raw_text p : string) (rest : list string) (st : St),
        media_payload env raw_text p ->
        (forall pcm,
            decode_twilio_media_frame p = Ok pcm ->
            fst (on_message env raw_text st) = Ok tt /\
            buffer (sess (snd (on_message env raw_text st)))
            = (buffer (sess st) ++ pcm)%list) /\
        (forall e,
            decode_twilio_media_frame p = Raise e ->
            well_formed p = false /\
            ((exists msg, e = binascii_Error msg) \/
             e = ValueError
                   "string argument should contain only ASCII characters") /\
            on_message env raw_text st = (Raise e, st) /\
            let st1 := logged (EvPrint ("WS error: " ++ exn_str e))
                         (snd (receive_text env [] st)) in
            serve env (raw_text :: rest) st = on_disconnect env st1 /\
            fst (serve env (raw_text :: rest) st)
            = fst (_process_turn env st1))).
Proof.
  intros env.
  assert (Hrejected : forall p e,
             decode_twilio_media_frame p = Raise e -> well_formed p = false).
  { intros p e Hdec. destruct (well_formed p) eqn:Hwf; [|reflexivity].
    destruct (well_formed_decodes p Hwf) as [pcm Hpcm].
    rewrite Hpcm in Hdec. discriminate Hdec. }
  split; [|split].
  - intros p c Hc Hpad Hascii. split.
    + destruct (well_formed (p ++ String c "")) eqn:Hwf; [|reflexivity].
      destruct (well_formed_chars _ _ c (le_n _) Hwf (holds_char_last c p))
        as [Hin | Heq]; [by rewrite Hin in Hc | done].
    + unfold decode_twilio_media_frame, Base64.b64decode.
      by rewrite (all_ascii_junk c p Hascii), (a2b_loop_junk c p Hc Hpad).
  - intros p Hp Hlen.
    assert (Hdec : exists msg,
               decode_twilio_media_frame p = Raise (binascii_Error msg)).
    { unfold decode_twilio_media_frame, Base64.b64decode.
      rewrite (all_alphabet_ascii p Hp).
      pose proof (a2b_loop_alphabet p Hp 0 0 0 [] ltac:(lia)) as Hloop.
      rewrite Z.add_0_l in Hloop.
      apply Z.eqb_neq in Hlen. by rewrite Hlen in Hloop. }
    split; [|exact Hdec]. destruct Hdec as [msg Hdec].
    by apply (Hrejected p (binascii_Error msg)).
  - intros raw_text p rest st Hmsg. split.
    + intros pcm Hdec. by apply (on_message_appends env raw_text p).
    + intros e Hdec.
      pose proof (decode_error_kind p e Hdec) as Hkind.
      split; [by apply (Hrejected p e)|]. split; [exact Hkind|].
      split; [by apply (on_message_undecodable env raw_text p)|].
      apply (serve_after_error env raw_text rest st e _
               (on_message_undecodable env raw_text p e _ Hmsg Hdec)).
      by destruct Hkind as [[msg ->] | ->].
Qed.

Lemma frame_bad_payload : media_payload Studio.calm "frame-bad" "QUI".
Proof.
  exists (Studio.media_msg "QUI"), (JStr "media"),
         (JObj [("payload", JStr "QUI")]).
  split; [reflexivity|]. split; [reflexivity|]. split; [reflexivity|].
  split; reflexivity.
Defined.

Lemma malformed_payload_is_decoded_or_fatal_witness :
  let st := Studio.session_with [x41; x42; x43] in
  (well_formed "QUJD$" = false /\
   decode_twilio_media_frame "QUJD$" = Ok [x41; x42; x43]) /\
  (well_formed "QUI" = false /\
   exists msg, decode_twilio_media_frame "QUI" = Raise (binascii_Error msg)) /\
  on_message Studio.calm "frame-bad" st
  = (Raise (binascii_Error "Incorrect padding"), st) /\
  fst (serve Studio.calm ["frame-bad"; "frame-abc"] st)
  = fst (_process_turn Studio.calm
           (logged (EvPrint "WS error: Incorrect padding")
              (snd (receive_text Studio.calm [] st)))).
Proof.
  intros st.
  destruct (malformed_payload_is_decoded_or_fatal Studio.calm)
    as (Hjunk & Hshort & Hframe).
  split; [|split].
  - destruct (Hjunk "QUJD" "$"%char) as [Hwf Hdec];
      [reflexivity | discriminate | reflexivity |].
    split; [exact Hwf|]. exact Hdec.
  - apply (Hshort "QUI"); [reflexivity | discriminate].
  - destruct (Hframe "frame-bad" "QUI" ["frame-abc"] st frame_bad_payload)
      as [_ Hfatal].
    destruct (Hfatal (binascii_Error "Incorrect padding") eq_refl)
      as (_ & _ & Hmsg & _ & Hret).
    split; [exact Hmsg | exact Hret].
Defined.

(* ===================================================================== *)
(** * Seven chunks of 4000 bytes *)
(* ===================================================================== *)

Section Seven.

Context (env : Env).







End Seven.





